(** * Chiller digital twin: physics guard, metric derivation, health score
      and scenario injection

    A shallow embedding of [core/validators.py], [core/physics.py],
    [core/health_score.py] and of the scenario injection path of
    [engine/generator.py] / [engine/failure_scenarios.py], followed by the
    properties of the specification that concern them.

    Conventions of the embedding.

    - Numbers.  Python [int] and [float] sensor values are exact rationals
      ([Q]); comparisons are the exact ones and equality of numbers is
      [Qeq] ([==]).  Rounding error of binary64 arithmetic, infinities and
      NaN are outside the model.
    - Dictionaries.  A reading or a metrics map is a [gmap string Q]: a field
      is either absent or holds a number, which is the shape the ingestion
      route hands to the core ([model_dump(exclude_none=True)]); entries
      holding [None] or a non-numeric value are outside the model.  The
      configuration dictionaries the code iterates over (weights, typical
      ranges, thresholds, recommendations) are association lists in
      insertion order.
    - Division.  Every divisor the embedded code meets is non-zero for the
      configuration tables of the source (default constants, thresholds,
      typical ranges) and inside the guards of the code, so [ZeroDivisionError]
      has no counterpart here.
    - f-strings that print a number keep the number: an f-string is a list of
      literal and numeric fragments ([fstring]). *)

From Stdlib Require Import QArith Qround Qabs Lqa Lia Sorted.
From stdpp Require Import gmap strings list.

Open Scope Q_scope.

(** ** Python numbers *)

Module Py.

(** [a < b], [a <= b], [a > b], [a >= b], [a == b] as Python evaluates them on
    numbers. *)
Definition lt (a b : Q) : bool := negb (Qle_bool b a).
Definition le (a b : Q) : bool := Qle_bool a b.
Definition gt (a b : Q) : bool := lt b a.
Definition ge (a b : Q) : bool := le b a.
Definition eq (a b : Q) : bool := Qeq_bool a b.

(** The builtin [max(a, b)]: the first argument is kept unless the second is
    strictly greater.  [min(a, b)] likewise keeps the first unless the second
    is strictly smaller. *)
Definition max (a b : Q) : Q := if gt b a then b else a.
Definition min (a b : Q) : Q := if lt b a then b else a.

Definition abs (a : Q) : Q := Qabs a.

(** [round(x)] to an integer: nearest, ties to even. *)
Definition round_half_even (x : Q) : Z :=
  let f := Qfloor x in
  let r := x - inject_Z f in
  if lt r 0.5 then f
  else if gt r 0.5 then (f + 1)%Z
  else if Z.even f then f else (f + 1)%Z.

(** [round(x, ndigits)]. *)
Definition round (x : Q) (ndigits : nat) : Q :=
  let scale := inject_Z (10 ^ Z.of_nat ndigits) in
  inject_Z (round_half_even (x * scale)) / scale.

(** An f-string before its numbers are printed: [Num q] is [{q}] and
    [Fixed d q] is [{q:.df}]. *)
Inductive fragment : Type :=
| Lit (s : string)
| Num (q : Q)
| Fixed (digits : nat) (q : Q).

Definition fstring : Type := list fragment.

End Py.

(** ** core/validators.py *)

Module Validators.

Inductive ValidationSeverity : Type := ERROR | WARNING | INFO.

Definition severity_value (s : ValidationSeverity) : string :=
  match s with
  | ERROR => "error"
  | WARNING => "warning"
  | INFO => "info"
  end.

Definition severity_eqb (a b : ValidationSeverity) : bool :=
  match a, b with
  | ERROR, ERROR | WARNING, WARNING | INFO, INFO => true
  | _, _ => false
  end.

Record ValidationIssue : Type := mkIssue {
  severity : ValidationSeverity;
  rule_name : string;
  message : string;
  metric_name : option string;
  actual_value : option Q;
  expected_range : option Py.fstring;
  recommendation : option string
}.

Record ValidationResult : Type := mkResult {
  is_valid : bool;
  status : string;
  issues : list ValidationIssue
}.

(** [w.severity = s]: the same issue object with its severity overwritten. *)
Definition set_severity (s : ValidationSeverity) (i : ValidationIssue) : ValidationIssue :=
  {| severity := s;
     rule_name := rule_name i;
     message := message i;
     metric_name := metric_name i;
     actual_value := actual_value i;
     expected_range := expected_range i;
     recommendation := recommendation i |}.

(** [PhysicsGuard.__init__]: the typical operating ranges, in insertion
    order. *)
Definition typical_ranges : list (string * (Q * Q)) :=
  [ ("chw_supply_temp", (4.0, 12.0));
    ("chw_return_temp", (8.0, 18.0));
    ("cdw_inlet_temp", (18.0, 38.0));
    ("cdw_outlet_temp", (23.0, 45.0));
    ("ambient_temp", (-10.0, 50.0));
    ("vibration_rms", (0.0, 15.0));
    ("power_kw", (0.0, 2000.0));
    ("load_percent", (0.0, 100.0));
    ("kw_per_ton", (0.35, 1.5));
    ("approach_temp", (0.5, 10.0));
    ("phase_imbalance", (0.0, 15.0));
    ("delta_t", (1.5, 12.0)) ].

(** [data.get(key)] on a reading is [data !! key]; [data.get(key, 0)] is
    [get_or_zero]. *)
Definition get_or_zero (data : gmap string Q) (key : string) : Q :=
  default 0 (data !! key).

(** [PhysicsGuard._validate_thermal_directionality] *)
Definition chw_thermal_issue (chw_supply chw_return : Q) : ValidationIssue :=
  {| severity := ERROR;
     rule_name := "chw_thermal_direction";
     message := "Chilled water return must be warmer than supply (heat is absorbed from building)";
     metric_name := Some "chw_return_temp"%string;
     actual_value := Some chw_return;
     expected_range := Some [Py.Lit "> "; Py.Num chw_supply; Py.Lit "°C (supply temp)"];
     recommendation := Some "Check CHW temperature sensor wiring - supply and return may be swapped"%string |}.

Definition cdw_thermal_issue (cdw_inlet cdw_outlet : Q) : ValidationIssue :=
  {| severity := ERROR;
     rule_name := "cdw_thermal_direction";
     message := "Condenser water outlet must be warmer than inlet (heat is rejected to cooling tower)";
     metric_name := Some "cdw_outlet_temp"%string;
     actual_value := Some cdw_outlet;
     expected_range := Some [Py.Lit "> "; Py.Num cdw_inlet; Py.Lit "°C (inlet temp)"];
     recommendation := Some "Check CDW temperature sensor wiring - inlet and outlet may be swapped"%string |}.

Definition _validate_thermal_directionality (data : gmap string Q) : list ValidationIssue :=
  let chw_supply := data !! "chw_supply_temp"%string in
  let chw_return := data !! "chw_return_temp"%string in
  let cdw_inlet := data !! "cdw_inlet_temp"%string in
  let cdw_outlet := data !! "cdw_outlet_temp"%string in
  (match chw_supply, chw_return with
   | Some s, Some r => if Py.le r s then [chw_thermal_issue s r] else []
   | _, _ => []
   end)
  ++
  (match cdw_inlet, cdw_outlet with
   | Some i, Some o => if Py.le o i then [cdw_thermal_issue i o] else []
   | _, _ => []
   end).

(** [PhysicsGuard._validate_absolute_bounds] *)
Definition bound_issue (rule msg metric : string) (value : Q) (range rec : string) : ValidationIssue :=
  {| severity := ERROR;
     rule_name := rule;
     message := msg;
     metric_name := Some metric;
     actual_value := Some value;
     expected_range := Some [Py.Lit range];
     recommendation := Some rec |}.

Definition current_issue (data : gmap string Q) (phase : string) : list ValidationIssue :=
  match data !! phase with
  | Some current =>
      if Py.lt current 0 then
        [bound_issue (phase ++ "_non_negative")
           ("Current (" ++ phase ++ ") cannot be negative")
           phase current ">= 0 A"
           "Check current transformer wiring and polarity"]
      else []
  | None => []
  end.

Definition _validate_absolute_bounds (data : gmap string Q) : list ValidationIssue :=
  (match data !! "load_percent"%string with
   | Some load_percent =>
       if Py.lt load_percent 0 then
         [bound_issue "load_percent_negative" "Load percent cannot be negative"
            "load_percent" load_percent "0 - 100"
            "Check load calculation logic or sensor"]
       else if Py.gt load_percent 100 then
         [bound_issue "load_percent_over_100" "Load percent cannot exceed 100%"
            "load_percent" load_percent "0 - 100"
            "Check load calculation - may need recalibration to actual capacity"]
       else []
   | None => []
   end)
  ++
  (match data !! "power_kw"%string with
   | Some power_kw =>
       if Py.lt power_kw 0 then
         [bound_issue "power_non_negative" "Power consumption cannot be negative"
            "power_kw" power_kw ">= 0 kW"
            "Check power meter wiring and CT orientation"]
       else []
   | None => []
   end)
  ++
  (match data !! "vibration_rms"%string with
   | Some vibration_rms =>
       if Py.lt vibration_rms 0 then
         [bound_issue "vibration_non_negative" "Vibration RMS cannot be negative"
            "vibration_rms" vibration_rms ">= 0 mm/s"
            "Check vibration sensor signal processing"]
       else []
   | None => []
   end)
  ++
  concat (List.map (current_issue data) ["current_r"; "current_y"; "current_b"]%string)
  ++
  (match data !! "runtime_hours"%string with
   | Some runtime_hours =>
       if Py.lt runtime_hours 0 then
         [bound_issue "runtime_non_negative" "Runtime hours cannot be negative"
            "runtime_hours" runtime_hours ">= 0 hours"
            "Check runtime counter logic"]
       else []
   | None => []
   end).

(** [PhysicsGuard._validate_derived_metrics] *)
Definition _validate_derived_metrics (data : gmap string Q) : list ValidationIssue :=
  (match data !! "approach_temp"%string with
   | Some approach_temp =>
       if Py.lt approach_temp 0 then
         [bound_issue "approach_non_negative" "Approach temperature cannot be negative"
            "approach_temp" approach_temp ">= 0°C"
            "Refrigerant saturation temp calculation may be incorrect, or CDW temp sensor issue"]
       else []
   | None => []
   end)
  ++
  (let power_kw := get_or_zero data "power_kw" in
   match data !! "delta_t"%string with
   | Some delta_t =>
       if Py.gt power_kw 10 then
         if Py.le delta_t 0 then
           [bound_issue "delta_t_positive_when_running"
              "Delta-T must be positive when chiller is running"
              "delta_t" delta_t "> 0°C when running"
              "Check temperature sensors or verify chiller is actually producing cooling"]
         else []
       else []
   | None => []
   end).

(** [PhysicsGuard._validate_operational_consistency] *)
Definition power_load_issue (load_percent : Q) : ValidationIssue :=
  {| severity := WARNING;
     rule_name := "power_load_consistency";
     message := "Load percent is high but power consumption is zero";
     metric_name := Some "load_percent"%string;
     actual_value := Some load_percent;
     expected_range := Some [Py.Lit "< 10% when power is 0"];
     recommendation := Some "Verify power meter is reading correctly, or load calculation has correct inputs"%string |}.

Definition power_vibration_issue (vibration : Q) : ValidationIssue :=
  {| severity := WARNING;
     rule_name := "power_vibration_consistency";
     message := "High vibration detected but power is zero (chiller should be off)";
     metric_name := Some "vibration_rms"%string;
     actual_value := Some vibration;
     expected_range := Some [Py.Lit "< 1.0 mm/s when power is 0"];
     recommendation := Some "Check if vibration sensor is picking up external sources, or power meter issue"%string |}.

Definition _validate_operational_consistency (data : gmap string Q) : list ValidationIssue :=
  let power_kw := get_or_zero data "power_kw" in
  let load_percent := data !! "load_percent"%string in
  let vibration := get_or_zero data "vibration_rms" in
  (if Py.eq power_kw 0 then
     match load_percent with
     | Some lp => if Py.gt lp 10 then [power_load_issue lp] else []
     | None => []
     end
   else [])
  ++
  (if Py.eq power_kw 0 && Py.gt vibration 5.0 then [power_vibration_issue vibration] else []).

(** [PhysicsGuard._validate_typical_ranges] *)
Definition typical_range_issue (metric : string) (min_val max_val value : Q) : ValidationIssue :=
  let deviation_factor :=
    if Py.lt value min_val
    then (min_val - value) / Py.max (Py.abs min_val) 1
    else (value - max_val) / Py.max (Py.abs max_val) 1 in
  {| severity := if Py.gt deviation_factor 0.5 then WARNING else INFO;
     rule_name := metric ++ "_typical_range";
     message := metric ++ " is outside typical operating range";
     metric_name := Some metric;
     actual_value := Some (Py.round value 2);
     expected_range := Some [Py.Num min_val; Py.Lit " - "; Py.Num max_val];
     recommendation := Some ("Verify " ++ metric ++ " sensor accuracy and operating conditions")%string |}.

Definition typical_range_check (data : gmap string Q) (entry : string * (Q * Q)) : list ValidationIssue :=
  let '(metric, (min_val, max_val)) := entry in
  match data !! metric with
  | None => []
  | Some value =>
      if Py.lt value min_val || Py.gt value max_val
      then [typical_range_issue metric min_val max_val value]
      else []
  end.

Definition kw_per_ton_issue (rule msg rec : string) (kw_per_ton : Q) : ValidationIssue :=
  {| severity := WARNING;
     rule_name := rule;
     message := msg;
     metric_name := Some "kw_per_ton"%string;
     actual_value := Some (Py.round kw_per_ton 3);
     expected_range := Some [Py.Lit "0.5 - 1.2 kW/ton typical"];
     recommendation := Some rec |}.

Definition _validate_typical_ranges (data : gmap string Q) : list ValidationIssue :=
  concat (List.map (typical_range_check data) typical_ranges)
  ++
  (match data !! "kw_per_ton"%string with
   | Some kw_per_ton =>
       if Py.gt kw_per_ton 0 then
         if Py.lt kw_per_ton 0.35 then
           [kw_per_ton_issue "kw_per_ton_too_efficient"
              "kW/ton is suspiciously low - efficiency appears too good to be true"
              "Verify power meter accuracy and flow sensor calibration" kw_per_ton]
         else if Py.gt kw_per_ton 1.5 then
           [kw_per_ton_issue "kw_per_ton_very_poor"
              "kW/ton is very high - poor efficiency"
              "Investigate chiller performance - possible fouling, refrigerant, or mechanical issues"
              kw_per_ton]
         else []
       else []
   | None => []
   end).

(** The five rule families, in the order [validate] runs them. *)
Definition run_rules (data : gmap string Q) : list ValidationIssue :=
  _validate_thermal_directionality data
  ++ _validate_absolute_bounds data
  ++ _validate_derived_metrics data
  ++ _validate_operational_consistency data
  ++ _validate_typical_ranges data.

(** *** Issue objects and the lists that share them

    [validate] builds three Python lists: [issues], [errors] and [warnings].
    The two comprehensions do not copy issues: they hold the same objects as
    [issues] does, so the strict-mode assignment [w.severity = ERROR] is
    visible through [issues].  The store below holds the issue objects, a
    Python list of issues is a list of addresses into it. *)

Abbreviation store := (list ValidationIssue) (only parsing).
Abbreviation ref := nat (only parsing).

(** [[i for i in refs if i.severity == s]] *)
Definition refs_with (s : ValidationSeverity) (h : store) (refs : list ref) : list ref :=
  List.filter
    (fun r => match h !! r with
              | Some i => severity_eqb (severity i) s
              | None => false
              end)
    refs.

(** [for w in ws: w.severity = s] *)
Definition assign_severity (s : ValidationSeverity) (h : store) (ws : list ref) : store :=
  foldl (fun h' w => alter (set_severity s) w h') h ws.

(** The issues a list of references denotes. *)
Definition read (h : store) (refs : list ref) : list ValidationIssue :=
  omap (fun r => h !! r) refs.

(** [PhysicsGuard.validate] *)
Definition validate (strict_mode : bool) (data : gmap string Q) : ValidationResult :=
  let h : store := run_rules data in
  let issues : list ref := seq 0 (length h) in
  let errors := refs_with ERROR h issues in
  let warnings := refs_with WARNING h issues in
  match errors with
  | _ :: _ =>
      {| is_valid := false; status := "rejected"; issues := read h issues |}
  | [] =>
      match warnings with
      | _ :: _ =>
          if strict_mode then
            let h' := assign_severity ERROR h warnings in
            {| is_valid := false; status := "rejected"; issues := read h' issues |}
          else
            {| is_valid := true; status := "accepted_with_warnings"; issues := read h issues |}
      | [] =>
          {| is_valid := true; status := "accepted"; issues := read h issues |}
      end
  end.

(** [validate_sensor_data] *)
Definition validate_sensor_data (data : gmap string Q) (strict : bool) : ValidationResult :=
  validate strict data.

(** [ValidationIssue.to_dict]: the dictionary has the seven keys of the
    dataclass, the severity is replaced by its string value. *)
Record IssueDict : Type := mkIssueDict {
  dict_severity : string;
  dict_rule_name : string;
  dict_message : string;
  dict_metric_name : option string;
  dict_actual_value : option Q;
  dict_expected_range : option Py.fstring;
  dict_recommendation : option string
}.

Definition issue_to_dict (self : ValidationIssue) : IssueDict :=
  {| dict_severity := severity_value (severity self);
     dict_rule_name := rule_name self;
     dict_message := message self;
     dict_metric_name := metric_name self;
     dict_actual_value := actual_value self;
     dict_expected_range := expected_range self;
     dict_recommendation := recommendation self |}.

(** [ValidationResult.to_dict] *)
Record ResultDict : Type := mkResultDict {
  dict_is_valid : bool;
  dict_status : string;
  error_count : nat;
  warning_count : nat;
  info_count : nat;
  dict_issues : list IssueDict
}.

Definition to_dict (self : ValidationResult) : ResultDict :=
  let errors := List.filter (fun i => severity_eqb (severity i) ERROR) (issues self) in
  let warnings := List.filter (fun i => severity_eqb (severity i) WARNING) (issues self) in
  let infos := List.filter (fun i => severity_eqb (severity i) INFO) (issues self) in
  {| dict_is_valid := is_valid self;
     dict_status := status self;
     error_count := length errors;
     warning_count := length warnings;
     info_count := length infos;
     dict_issues := List.map issue_to_dict (issues self) |}.

End Validators.

(** ** core/physics.py *)

Module Physics.

Record PhysicsConstants : Type := mkConstants {
  WATER_SPECIFIC_HEAT : Q;
  WATER_DENSITY : Q;
  BTU_PER_TON_HOUR : Q;
  KW_PER_TON : Q;
  GPM_FACTOR : Q;
  TYPICAL_APPROACH_MIN : Q;
  TYPICAL_APPROACH_MAX : Q;
  TYPICAL_KW_PER_TON_MIN : Q;
  TYPICAL_KW_PER_TON_MAX : Q;
  TYPICAL_COP_MIN : Q;
  TYPICAL_COP_MAX : Q;
  DEFAULT_CHW_FLOW_GPM : Q;
  REFRIGERANT_SAT_OFFSET : Q
}.

(** [PhysicsConstants()] *)
Definition default_constants : PhysicsConstants :=
  {| WATER_SPECIFIC_HEAT := 1.0;
     WATER_DENSITY := 8.33;
     BTU_PER_TON_HOUR := 12000;
     KW_PER_TON := 3.517;
     GPM_FACTOR := 500;
     TYPICAL_APPROACH_MIN := 0.5;
     TYPICAL_APPROACH_MAX := 8.0;
     TYPICAL_KW_PER_TON_MIN := 0.4;
     TYPICAL_KW_PER_TON_MAX := 1.5;
     TYPICAL_COP_MIN := 3.0;
     TYPICAL_COP_MAX := 8.0;
     DEFAULT_CHW_FLOW_GPM := 1000.0;
     REFRIGERANT_SAT_OFFSET := 3.0 |}.

(** The methods of [PhysicsCalculator]; [constants] is [self.constants]. *)
Section Calculator.

Variable constants : PhysicsConstants.

Definition calculate_delta_t (chw_return_temp chw_supply_temp : Q) : Q :=
  chw_return_temp - chw_supply_temp.

Definition calculate_cooling_tons (delta_t : Q) (chw_flow_gpm : option Q) : Q :=
  let chw_flow_gpm := default (DEFAULT_CHW_FLOW_GPM constants) chw_flow_gpm in
  let delta_t_fahrenheit := delta_t * 9.0 / 5.0 in
  let tons :=
    (chw_flow_gpm * delta_t_fahrenheit * GPM_FACTOR constants) / BTU_PER_TON_HOUR constants in
  Py.max tons 0.1.

Definition calculate_kw_per_ton (power_kw delta_t : Q) (chw_flow_gpm : option Q) : Q :=
  if Py.le power_kw 0 then 0.0
  else
    let tons := calculate_cooling_tons delta_t chw_flow_gpm in
    if Py.lt tons 0.1 then 0.0
    else power_kw / tons.

Definition calculate_approach_temperature (cdw_outlet_temp : Q) (refrigerant_sat_temp : option Q) : Q :=
  let refrigerant_sat_temp :=
    default (cdw_outlet_temp + REFRIGERANT_SAT_OFFSET constants) refrigerant_sat_temp in
  let approach := refrigerant_sat_temp - cdw_outlet_temp in
  Py.max approach 0.0.

Definition calculate_phase_imbalance (current_r current_y current_b : Q) : Q :=
  let currents := [current_r; current_y; current_b] in
  if forallb (fun c => Py.le c 0) currents then 0.0
  else
    let avg_current := foldl Qplus 0 currents / 3 in
    if Py.lt avg_current 0.1 then 0.0
    else
      let max_deviation :=
        match List.map (fun c => Py.abs (c - avg_current)) currents with
        | d :: ds => foldl Py.max d ds
        | [] => 0
        end in
      (max_deviation / avg_current) * 100.

Definition calculate_cop (delta_t power_kw : Q) (chw_flow_gpm : option Q) : Q :=
  if Py.le power_kw 0 then 0.0
  else
    let tons := calculate_cooling_tons delta_t chw_flow_gpm in
    let cooling_kw := tons * KW_PER_TON constants in
    cooling_kw / power_kw.

(** [PhysicsCalculator.calculate_all_metrics]: the returned dictionary. *)
Definition calculate_all_metrics
    (chw_supply_temp chw_return_temp cdw_inlet_temp cdw_outlet_temp power_kw : Q)
    (current_r current_y current_b : Q)
    (chw_flow_gpm refrigerant_sat_temp : option Q) : gmap string Q :=
  let delta_t := calculate_delta_t chw_return_temp chw_supply_temp in
  let cooling_tons := calculate_cooling_tons delta_t chw_flow_gpm in
  let kw_per_ton := calculate_kw_per_ton power_kw delta_t chw_flow_gpm in
  let approach_temp := calculate_approach_temperature cdw_outlet_temp refrigerant_sat_temp in
  let phase_imbalance := calculate_phase_imbalance current_r current_y current_b in
  let cop := calculate_cop delta_t power_kw chw_flow_gpm in
  list_to_map
    [ ("delta_t"%string, Py.round delta_t 3);
      ("cooling_tons"%string, Py.round cooling_tons 2);
      ("kw_per_ton"%string, Py.round kw_per_ton 3);
      ("approach_temp"%string, Py.round approach_temp 3);
      ("phase_imbalance"%string, Py.round phase_imbalance 2);
      ("cop"%string, Py.round cop 2) ].

End Calculator.

(** [quick_physics_check]: [sensor_data.get(key, 0)] for the eight readings,
    [sensor_data.get(key)] for the two optional ones. *)
Definition quick_physics_check (sensor_data : gmap string Q) : gmap string Q :=
  let get0 (key : string) : Q := default 0 (sensor_data !! key) in
  calculate_all_metrics default_constants
    (get0 "chw_supply_temp") (get0 "chw_return_temp")
    (get0 "cdw_inlet_temp") (get0 "cdw_outlet_temp")
    (get0 "power_kw")
    (get0 "current_r") (get0 "current_y") (get0 "current_b")
    (sensor_data !! "chw_flow_gpm"%string)
    (sensor_data !! "refrigerant_sat_temp"%string).

End Physics.

(** ** core/health_score.py *)

Module HealthScore.

Inductive HealthCategory : Type := EXCELLENT | GOOD | FAIR | POOR | CRITICAL.

Definition category_value (c : HealthCategory) : string :=
  match c with
  | EXCELLENT => "excellent"
  | GOOD => "good"
  | FAIR => "fair"
  | POOR => "poor"
  | CRITICAL => "critical"
  end.

Record MetricScore : Type := mkMetricScore {
  metric_name : string;
  raw_value : Q;
  normalized_score : Q;
  weighted_contribution : Q;
  weight : Q;
  status : string;
  message : Py.fstring
}.

Record HealthScore : Type := mkHealthScore {
  overall_score : Q;
  category : HealthCategory;
  breakdown : list MetricScore;
  primary_concern : option string;
  recommendations : list string
}.

(** One entry of [self.thresholds]; the constructor is the entry's
    ["direction"]. *)
Inductive Thresholds : Type :=
| LowerBetter (excellent good fair poor : Q) (unit description : string)
| TargetRange (target excellent_band good_band fair_band poor_band : Q)
    (unit description : string).

(** [HealthScoreEngine.__init__]: default weights, thresholds. *)
Definition default_weights : list (string * Q) :=
  [ ("vibration_rms", 0.35);
    ("approach_temp", 0.25);
    ("phase_imbalance", 0.20);
    ("kw_per_ton", 0.15);
    ("delta_t", 0.05) ]%string.

(** [self.weights = weights or {...}]: [None] and the empty dict both select
    the defaults. *)
Definition init_weights (weights : option (list (string * Q))) : list (string * Q) :=
  match weights with
  | Some (w :: ws) => w :: ws
  | _ => default_weights
  end.

Definition thresholds : list (string * Thresholds) :=
  [ ("vibration_rms", LowerBetter 2.0 4.0 7.0 11.0 "mm/s" "Mechanical vibration level");
    ("approach_temp", LowerBetter 2.0 3.0 4.5 6.0 "Â°C" "Condenser heat transfer efficiency");
    ("phase_imbalance", LowerBetter 1.0 2.0 3.5 5.0 "%" "Electrical supply balance");
    ("kw_per_ton", LowerBetter 0.55 0.70 0.85 1.0 "kW/ton" "Energy efficiency");
    ("delta_t", TargetRange 5.5 1.0 2.0 3.5 5.0 "Â°C" "Chilled water temperature differential") ]%string.

(** [self.recommendations_db]: metric name, then status. *)
Definition recommendations_db : list (string * list (string * list string)) :=
  [
    ("vibration_rms",
      [
        ("fair",
          [ "Schedule vibration analysis within 2 weeks";
            "Check bearing lubrication levels";
            "Inspect visible components for looseness" ]);
        ("poor",
          [ "Schedule vibration analysis within 1 week";
            "Check bearing condition - listen for unusual sounds";
            "Verify coupling alignment";
            "Review maintenance history for recent changes" ]);
        ("critical",
          [ "âš ï¸ URGENT: Reduce load immediately";
            "Schedule emergency inspection within 24-48 hours";
            "Prepare for potential bearing replacement";
            "Check for loose mounting bolts or foundation issues";
            "Document vibration readings for trending" ]) ]);
    ("approach_temp",
      [
        ("fair",
          [ "Schedule condenser inspection within 1 month";
            "Check condenser water flow rate";
            "Verify cooling tower performance" ]);
        ("poor",
          [ "Schedule condenser tube cleaning within 2 weeks";
            "Check for scaling or biological growth";
            "Verify water treatment program effectiveness";
            "Check refrigerant charge" ]);
        ("critical",
          [ "âš ï¸ URGENT: Condenser severely fouled";
            "Schedule immediate tube cleaning";
            "Check for non-condensables (air) in system";
            "Verify refrigerant charge and purity";
            "Estimated energy waste: 15-25%" ]) ]);
    ("phase_imbalance",
      [
        ("fair",
          [ "Check utility power quality";
            "Inspect main electrical connections";
            "Verify power factor correction equipment" ]);
        ("poor",
          [ "Schedule electrical inspection within 1 week";
            "Check for loose terminal connections";
            "Verify all three phases at motor terminals";
            "Check for single-phasing protection" ]);
        ("critical",
          [ "âš ï¸ URGENT: Motor damage risk - reduce load";
            "Immediate electrical inspection required";
            "Check for single-phasing condition";
            "Verify utility power quality";
            "Motor life may be reduced by 50%+ at this imbalance" ]) ]);
    ("kw_per_ton",
      [
        ("fair",
          [ "Compare to baseline/design efficiency";
            "Check operating conditions vs design";
            "Review control sequences" ]);
        ("poor",
          [ "Full efficiency audit recommended";
            "Check refrigerant charge level";
            "Verify all heat exchangers are clean";
            "Review control system operation" ]);
        ("critical",
          [ "âš ï¸ Major efficiency degradation";
            "Full diagnostic inspection required";
            "Check compressor condition";
            "Verify refrigerant charge and oil level";
            "Estimated excess energy cost: significant" ]) ]);
    ("delta_t",
      [
        ("fair",
          [ "Check chilled water flow rate";
            "Verify control valve operation";
            "Review building load distribution" ]);
        ("poor",
          [ "Check pump operation and speed";
            "Verify no air in chilled water system";
            "Check for bypass or three-way valve issues";
            "Review chilled water reset schedule" ]);
        ("critical",
          [ "âš ï¸ System balance issue";
            "Check all pumps for proper operation";
            "Verify no major leaks or bypasses";
            "Review entire chilled water distribution" ]) ])
  ]%string.

(** Lookup in an association list that stands for a dict. *)
Fixpoint assoc {K V : Type} (eqb : K -> K -> bool) (k : K) (l : list (K * V)) : option V :=
  match l with
  | [] => None
  | (k', v) :: l' => if eqb k k' then Some v else assoc eqb k l'
  end.

(** [min(100.0, max(0.0, score))] *)
Definition clamp_score (score : Q) : Q := Py.min 100.0 (Py.max 0.0 score).

(** [HealthScoreEngine._score_lower_better] *)
Definition _score_lower_better (value excellent good fair poor : Q) (unit description : string)
  : Q * string * Py.fstring :=
  if Py.le value excellent then
    let score := if Py.gt excellent 0 then 95.0 + 5.0 * (1.0 - value / excellent) else 100.0 in
    (clamp_score score, "excellent"%string, [Py.Lit "âœ… Excellent "; Py.Lit description; Py.Lit ": "; Py.Fixed 2 value; Py.Lit " "; Py.Lit unit])
  else if Py.le value good then
    let progress := (value - excellent) / (good - excellent) in
    let score := 90.0 - 15.0 * progress in
    (clamp_score score, "good"%string, [Py.Lit "âœ… Good "; Py.Lit description; Py.Lit ": "; Py.Fixed 2 value; Py.Lit " "; Py.Lit unit])
  else if Py.le value fair then
    let progress := (value - good) / (fair - good) in
    let score := 75.0 - 20.0 * progress in
    (clamp_score score, "fair"%string, [Py.Lit "âš ï¸ Fair "; Py.Lit description; Py.Lit ": "; Py.Fixed 2 value; Py.Lit " "; Py.Lit unit; Py.Lit " - Monitor closely"])
  else if Py.le value poor then
    let progress := (value - fair) / (poor - fair) in
    let score := 55.0 - 25.0 * progress in
    (clamp_score score, "poor"%string, [Py.Lit "ðŸ”¶ Poor "; Py.Lit description; Py.Lit ": "; Py.Fixed 2 value; Py.Lit " "; Py.Lit unit; Py.Lit " - Action recommended"])
  else
    let overage := if Py.gt poor 0 then (value - poor) / poor else 1.0 in
    let score := Py.max 0.0 (30.0 - 30.0 * Py.min overage 1.0) in
    (clamp_score score, "critical"%string, [Py.Lit "ðŸ”´ Critical "; Py.Lit description; Py.Lit ": "; Py.Fixed 2 value; Py.Lit " "; Py.Lit unit; Py.Lit " - Immediate action required"]).

(** [HealthScoreEngine._score_target_range] *)
Definition _score_target_range (value target excellent_band good_band fair_band poor_band : Q)
    (unit description : string) : Q * string * Py.fstring :=
  let deviation := Py.abs (value - target) in
  if Py.le deviation excellent_band then
    let score := 95.0 + 5.0 * (1.0 - deviation / excellent_band) in
    (clamp_score score, "excellent"%string, [Py.Lit "âœ… Excellent "; Py.Lit description; Py.Lit ": "; Py.Fixed 1 value; Py.Lit " "; Py.Lit unit; Py.Lit " (target: "; Py.Num target; Py.Lit ")"])
  else if Py.le deviation good_band then
    let progress := (deviation - excellent_band) / (good_band - excellent_band) in
    let score := 90.0 - 15.0 * progress in
    (clamp_score score, "good"%string, [Py.Lit "âœ… Good "; Py.Lit description; Py.Lit ": "; Py.Fixed 1 value; Py.Lit " "; Py.Lit unit])
  else if Py.le deviation fair_band then
    let progress := (deviation - good_band) / (fair_band - good_band) in
    let score := 75.0 - 20.0 * progress in
    (clamp_score score, "fair"%string, [Py.Lit "âš ï¸ Fair "; Py.Lit description; Py.Lit ": "; Py.Fixed 1 value; Py.Lit " "; Py.Lit unit; Py.Lit " - Outside optimal range"])
  else if Py.le deviation poor_band then
    let progress := (deviation - fair_band) / (poor_band - fair_band) in
    let score := 55.0 - 25.0 * progress in
    (clamp_score score, "poor"%string, [Py.Lit "ðŸ”¶ Poor "; Py.Lit description; Py.Lit ": "; Py.Fixed 1 value; Py.Lit " "; Py.Lit unit; Py.Lit " - Investigate"])
  else
    let overage := (deviation - poor_band) / poor_band in
    let score := Py.max 0.0 (30.0 - 30.0 * Py.min overage 1.0) in
    (clamp_score score, "critical"%string, [Py.Lit "ðŸ”´ Critical "; Py.Lit description; Py.Lit ": "; Py.Fixed 1 value; Py.Lit " "; Py.Lit unit; Py.Lit " - System issue"]).

(** [HealthScoreEngine._score_metric] *)
Definition _score_metric (metric_name : string) (value : Q) : Q * string * Py.fstring :=
  match assoc String.eqb metric_name thresholds with
  | None =>
      (50.0, "unknown"%string, [Py.Lit "No thresholds defined for "; Py.Lit metric_name])
  | Some (LowerBetter excellent good fair poor unit description) =>
      _score_lower_better value excellent good fair poor unit description
  | Some (TargetRange target eb gb fb pb unit description) =>
      _score_target_range value target eb gb fb pb unit description
  end.

(** [HealthScoreEngine._get_category] *)
Definition _get_category (score : Q) : HealthCategory :=
  if Py.ge score 90 then EXCELLENT
  else if Py.ge score 75 then GOOD
  else if Py.ge score 55 then FAIR
  else if Py.ge score 30 then POOR
  else CRITICAL.

(** [HealthScoreEngine._get_recommendations] *)
Definition _get_recommendations (metric_name status : string) : list string :=
  let metric_recs := default [] (assoc String.eqb metric_name recommendations_db) in
  default ["Monitor and investigate as needed"%string] (assoc String.eqb status metric_recs).

(** [sorted(breakdown, key=lambda x: x.normalized_score)]: ascending and
    stable, an entry stays behind the earlier entries of equal score. *)
Fixpoint insert_by_score (x : MetricScore) (l : list MetricScore) : list MetricScore :=
  match l with
  | [] => [x]
  | y :: l' =>
      if Py.lt (normalized_score y) (normalized_score x)
      then y :: insert_by_score x l'
      else x :: y :: l'
  end.

Definition sorted_by_score (l : list MetricScore) : list MetricScore :=
  foldr insert_by_score [] l.

(** The body of the scoring loop of [calculate], for one entry of
    [self.weights]; the state is [(breakdown, weighted_sum, total_weight)]. *)
Definition score_step (metrics : gmap string Q)
    (st : list MetricScore * Q * Q) (entry : string * Q) : list MetricScore * Q * Q :=
  let '(breakdown, weighted_sum, total_weight) := st in
  let '(metric_name, weight) := entry in
  match metrics !! metric_name with
  | None => st
  | Some value =>
      let '(score, status, message) := _score_metric metric_name value in
      let weighted_contribution := score * weight in
      (breakdown ++ [ {| metric_name := metric_name;
                         raw_value := value;
                         normalized_score := score;
                         weighted_contribution := weighted_contribution;
                         weight := weight;
                         status := status;
                         message := message |} ],
       weighted_sum + weighted_contribution,
       total_weight + weight)
  end.

(** [HealthScoreEngine.calculate]; [weights] is [self.weights]. *)
Definition calculate (weights : list (string * Q)) (metrics : gmap string Q) : HealthScore :=
  let '(breakdown, weighted_sum, total_weight) :=
    foldl (score_step metrics) ([], 0.0, 0.0) weights in
  let overall_score :=
    if Py.gt total_weight 0 then weighted_sum / total_weight else 50.0 in
  let category := _get_category overall_score in
  match sorted_by_score breakdown with
  | worst :: rest =>
      if Py.lt (normalized_score worst) 70 then
        {| overall_score := overall_score;
           category := category;
           breakdown := worst :: rest;
           primary_concern := Some (metric_name worst);
           recommendations := _get_recommendations (metric_name worst) (status worst) |}
      else
        {| overall_score := overall_score;
           category := category;
           breakdown := worst :: rest;
           primary_concern := None;
           recommendations := [] |}
  | [] =>
      {| overall_score := overall_score;
         category := category;
         breakdown := [];
         primary_concern := None;
         recommendations := [] |}
  end.

(** [calculate_health_score] *)
Definition calculate_health_score (metrics : gmap string Q)
    (weights : option (list (string * Q))) : HealthScore :=
  calculate (init_weights weights) metrics.

End HealthScore.

(** ** engine/failure_scenarios.py and the scenario path of engine/generator.py *)

Module Generator.

Inductive FailureType : Type :=
| HEALTHY
| TUBE_FOULING
| BEARING_WEAR
| REFRIGERANT_LEAK
| ELECTRICAL_ISSUE
| LOW_LOAD_INEFFICIENCY
| POST_MAINTENANCE_MISALIGNMENT.

(** A modifier: [(base_value, progress, day) -> modified_value]. *)
Definition modifier : Type := Q -> Q -> Z -> Q.

Record FailureScenario : Type := mkScenario {
  name : string;
  failure_type : FailureType;
  description : string;
  duration_days : Z;
  story : string;
  modifiers : gmap string modifier
}.

(** [FailureScenario.apply_modifier] *)
Definition apply_modifier (self : FailureScenario) (metric_name : string)
    (base_value progress : Q) (day : Z) : Q :=
  match modifiers self !! metric_name with
  | Some f => f base_value progress day
  | None => base_value
  end.

(** [ScenarioLibrary.healthy_operation] *)
Definition healthy_operation_story : string :=
"
            📊 HEALTHY OPERATION SCENARIO
            ════════════════════════════════════════════
            
            The chiller is operating normally with all parameters
            within expected ranges.
            
            Observations:
            • Approach temperature: 2-3°C (stable)
            • kW/Ton: 0.55-0.70 (good efficiency)
            • Vibration: 1.5-2.5 mm/s (smooth operation)
            • Phase imbalance: <2% (balanced)
            
            Health Score: 85-95
            
            Action Required: None - continue normal monitoring
            ════════════════════════════════════════════
            ".

Definition healthy_operation (duration_days : Z) : FailureScenario :=
  {| name := "Healthy Operation";
     failure_type := HEALTHY;
     description := "Normal chiller operation with stable performance metrics";
     duration_days := duration_days;
     story := healthy_operation_story;
     modifiers := ∅ |}.

(** [ScenarioLibrary.electrical_issue] *)
Definition electrical_issue_story : string :=
"
            ⚡ ELECTRICAL ISSUE SCENARIO
            ════════════════════════════════════════════════════════
            
            Day 1-3: Minor imbalance appears
            • Phase imbalance: ~2.0% ✅
            • Currents slightly uneven
            • Health Score: 85
            
            Day 4-7: Imbalance increasing
            • Phase imbalance: ~4.0% ⚠️
            • Motor running warmer
            • Health Score: 70
            • Intermittent current spikes observed
            
            Day 8-10: Warning level
            • Phase imbalance: ~5.5% 🔶
            • Motor insulation stress
            • Health Score: 55
            • Investigate electrical supply
            
            Day 11+: Critical
            • Phase imbalance: >7% 🔴
            • Motor life significantly reduced
            • Health Score: <45
            • Risk of motor failure
            
            ════════════════════════════════════════════════════════
            ⚡ ELECTRICAL PHYSICS:
            
            Per NEMA MG-1:
            • 1% voltage imbalance → 6-10% current imbalance
            • Motor heating increases with square of imbalance
            • 5% imbalance → ~25% additional heating
            • Motor life reduced up to 50% with sustained imbalance
            
            🔧 COMMON CAUSES:
            • Loose terminal connections
            • Utility supply problems
            • Failed capacitors
            • Unequal cable impedances
            • Corroded connections
            
            💵 COST IMPACT:
            • Electrical inspection: $500 - $1,500
            • Connection repair: $200 - $1,000
            • Motor rewind (if damaged): $15,000 - $40,000
            • Motor replacement: $25,000 - $75,000
            ════════════════════════════════════════════════════════
            ".

Definition phase_imbalance_modifier : modifier :=
  fun base progress day =>
    let increase := 7.0 * progress in
    let increase :=
      if (day mod 3 =? 0)%Z && Py.gt progress 0.3 then increase + 2.5 else increase in
    base + increase.

Definition current_r_modifier : modifier :=
  fun base progress day => base * (1.0 + 0.15 * progress).

Definition current_y_modifier : modifier :=
  fun base progress day => base * (1.0 - 0.08 * progress).

Definition current_b_modifier : modifier :=
  fun base progress day => base * (1.0 + 0.02 * progress).

Definition electrical_issue (duration_days : Z) : FailureScenario :=
  {| name := "Electrical Supply Issue";
     failure_type := ELECTRICAL_ISSUE;
     description :=
       "Voltage imbalance or deteriorating electrical connection causing phase imbalance";
     duration_days := duration_days;
     story := electrical_issue_story;
     modifiers :=
       <["current_b"%string := current_b_modifier]>
       (<["current_y"%string := current_y_modifier]>
       (<["current_r"%string := current_r_modifier]>
       (<["phase_imbalance"%string := phase_imbalance_modifier]> ∅))) |}.

(** The values a generated reading holds: [int], [float] or [str]. *)
Inductive value : Type :=
| VInt (z : Z)
| VFloat (q : Q)
| VStr (s : string).

(** [ChillerDataGenerator]'s state.  The baseline record is read only by
    [_generate_base_values] and is not part of this embedding. *)
Record ChillerDataGenerator : Type := mkGenerator {
  asset_id : string;
  scenario : option FailureScenario;
  scenario_start_day : Z
}.

(** [ChillerDataGenerator.__init__] *)
Definition init (asset_id : string) : ChillerDataGenerator :=
  {| asset_id := asset_id; scenario := None; scenario_start_day := 0 |}.

(** [ChillerDataGenerator.set_scenario] *)
Definition set_scenario (self : ChillerDataGenerator) (scenario : FailureScenario)
    (start_day : Z) : ChillerDataGenerator :=
  {| asset_id := asset_id self; scenario := Some scenario; scenario_start_day := start_day |}.

(** [ChillerDataGenerator.clear_scenario] *)
Definition clear_scenario (self : ChillerDataGenerator) : ChillerDataGenerator :=
  {| asset_id := asset_id self; scenario := None; scenario_start_day := 0 |}.

(** The body of the loop of [_apply_scenario] for the key [metric_name] of
    [data]: what [modified[metric_name]] holds afterwards. *)
Definition modified_value (sc : FailureScenario) (progress : Q) (scenario_day : Z)
    (metric_name : string) (original_value : value) : value :=
  match modifiers sc !! metric_name with
  | None => original_value
  | Some _ =>
      match original_value with
      | VInt z =>
          VInt (Py.round_half_even (apply_modifier sc metric_name (inject_Z z) progress scenario_day))
      | VFloat q =>
          VFloat (Py.round (apply_modifier sc metric_name q progress scenario_day) 2)
      | VStr _ => original_value
      end
  end.

(** [ChillerDataGenerator._apply_scenario].  Each iteration reads
    [data[metric_name]] and writes [modified[metric_name]] only, so the loop
    over the keys of [data] is the key-wise image of [data]. *)
Definition _apply_scenario (self : ChillerDataGenerator) (data : gmap string value)
    (progress : Q) (scenario_day : Z) : gmap string value :=
  match scenario self with
  | None => data
  | Some sc => map_imap (fun k v => Some (modified_value sc progress scenario_day k v)) data
  end.

(** [ChillerDataGenerator.generate_reading].  [_calculate_load_factor] and
    [_generate_base_values] draw from the random source; [base_values] is the
    dictionary [_generate_base_values] returned for this call, and
    [timestamp] is [timestamp.isoformat()]. *)
Definition generate_reading (self : ChillerDataGenerator) (base_values : gmap string value)
    (timestamp : string) (day_number : Z) : gmap string value :=
  let data := base_values in
  let data :=
    match scenario self with
    | Some sc =>
        if (scenario_start_day self <=? day_number)%Z then
          let scenario_day := (day_number - scenario_start_day self)%Z in
          if (scenario_day <? duration_days sc)%Z then
            let progress := inject_Z scenario_day / inject_Z (duration_days sc) in
            _apply_scenario self data progress scenario_day
          else data
        else data
    | None => data
    end in
  <["alarm_status"%string := VInt 0]>
  (<["operating_mode"%string := VStr "AUTO"]>
  (<["asset_id"%string := VStr (asset_id self)]>
  (<["time"%string := VStr timestamp]> data))).

(** [ScenarioLibrary.post_maintenance_misalignment] *)
Definition post_maintenance_misalignment_story : string :=
"
            🔧 POST-MAINTENANCE MISALIGNMENT SCENARIO
            ════════════════════════════════════════════════════════
            
            Before Maintenance:
            • Vibration: ~2.0 mm/s ✅
            • Smooth operation
            • Health Score: 90
            
            Immediately After Maintenance:
            • Vibration: ~7.0 mm/s 🔴 (sudden jump!)
            • New vibration pattern at 2x frequency
            • Health Score: 52
            
            Day 2-3:
            • Vibration: 7.5+ mm/s 🔴
            • Slight worsening trend
            • Health Score: 48
            • Misalignment causing accelerated wear
            
            Day 4-7:
            • Vibration continues to rise
            • Bearing/seal wear accelerating
            • Coupling wear visible
            • Immediate correction needed
            
            ════════════════════════════════════════════════════════
            🔍 DIAGNOSTIC INDICATORS:
            
            • Sudden vibration increase after maintenance
            • 2x running frequency dominant (classic misalignment)
            • Axial vibration often elevated
            • Coupling temperature may increase
            
            🔧 COMMON CAUSES:
            • Improper shaft alignment procedure
            • Moved equipment not realigned
            • Soft foot condition
            • Piping strain
            • Foundation issues
            
            💵 COST TO CORRECT:
            • Laser alignment: $500 - $2,000
            • Time: 2-4 hours
            
            💵 COST IF IGNORED:
            • Accelerated bearing wear
            • Seal failures
            • Coupling damage
            • Potential shaft damage: $10,000+
            ════════════════════════════════════════════════════════
            ".

Definition misalignment_vibration_modifier : modifier :=
  fun base progress day =>
    if (day =? 0)%Z then base + 5.0
    else base + 5.0 + 0.4 * inject_Z day.

Definition misalignment_vibration_freq_modifier : modifier :=
  fun base progress day =>
    if (0 <? day)%Z then base * 2.0 else base.

Definition post_maintenance_misalignment (duration_days : Z) : FailureScenario :=
  {| name := "Post-Maintenance Misalignment";
     failure_type := POST_MAINTENANCE_MISALIGNMENT;
     description := "Coupling or shaft misalignment introduced during maintenance work";
     duration_days := duration_days;
     story := post_maintenance_misalignment_story;
     modifiers :=
       <["vibration_freq"%string := misalignment_vibration_freq_modifier]>
       (<["vibration_rms"%string := misalignment_vibration_modifier]> ∅) |}.

(** *** Time

    A [datetime] is its number of microseconds since the epoch of the
    calendar, a [timedelta] a number of microseconds; [date()] is the ordinal
    of the day.  The range of [datetime] (years 1 to 9999) is not modelled:
    arithmetic that would leave it raises OverflowError in the source. *)
Definition us_per_minute : Z := 60000000.
Definition us_per_day : Z := 86400000000.

Definition date (t : Z) : Z := (t / us_per_day)%Z.
Definition timedelta_days (days : Z) : Z := (days * us_per_day)%Z.
Definition timedelta_minutes (minutes : Z) : Z := (minutes * us_per_minute)%Z.

(** The loop of [ChillerDataGenerator.generate_batch]: the arguments
    [(current_time, day_number)] of the successive calls of
    [generate_reading].  [fuel] bounds the number of iterations; the result
    is [None] when the loop has not ended within it. *)
Fixpoint batch_calls (fuel : nat) (interval end_time : Z)
    (current_time day_number current_day : Z) : option (list (Z * Z)) :=
  if (current_time <? end_time)%Z then
    match fuel with
    | O => None
    | S fuel' =>
        let '(day_number, current_day) :=
          if (date current_time =? current_day)%Z
          then (day_number, current_day)
          else ((day_number + 1)%Z, date current_time) in
        option_map (cons (current_time, day_number))
          (batch_calls fuel' interval end_time (current_time + interval)%Z
             day_number current_day)
    end
  else Some [].

(** [ChillerDataGenerator.generate_batch], consumed to the end as
    [generate_to_list] does.  [isoformat] prints a timestamp and [draw i] is
    the dictionary [_generate_base_values] returns in the [i]-th call. *)
Definition generate_to_list (fuel : nat) (self : ChillerDataGenerator)
    (isoformat : Z -> string) (draw : nat -> gmap string value)
    (start_time duration_days interval_minutes : Z) : option (list (gmap string value)) :=
  let end_time := (start_time + timedelta_days duration_days)%Z in
  option_map
    (imap (fun i '(t, day_number) => generate_reading self (draw i) (isoformat t) day_number))
    (batch_calls fuel (timedelta_minutes interval_minutes) end_time
       start_time 0 (date start_time)).

(** [ChillerDataGenerator._calculate_load_factor].  [uniform a b] is the
    value the call [random.uniform(a, b)] of the taken branch returns. *)
Definition _calculate_load_factor (uniform : Q -> Q -> Q) (hour : Z) : Q :=
  let '(base, variation) :=
    if ((0 <=? hour) && (hour <? 6))%Z then
      (0.30, uniform 0 0.10)
    else if ((6 <=? hour) && (hour <? 9))%Z then
      let progress := (inject_Z hour - 6) / 3.0 in
      (0.35 + 0.40 * progress, uniform (-0.05) 0.08)
    else if ((9 <=? hour) && (hour <? 12))%Z then
      (0.75 + (inject_Z hour - 9) * 0.05, uniform (-0.05) 0.10)
    else if ((12 <=? hour) && (hour <? 14))%Z then
      (0.85, uniform (-0.05) 0.15)
    else if ((14 <=? hour) && (hour <? 18))%Z then
      (0.80, uniform (-0.08) 0.12)
    else if ((18 <=? hour) && (hour <? 21))%Z then
      let progress := (inject_Z hour - 18) / 3.0 in
      (0.70 - 0.25 * progress, uniform (-0.05) 0.05)
    else
      (0.35, uniform 0 0.08) in
  Py.min 1.0 (Py.max 0.1 (base + variation)).

End Generator.

(** ** api/models.py: the field constraints of [SensorDataInput] *)

Module ApiModels.

(** The numeric fields of [SensorDataInput] with their [ge] and [le]
    constraints ([runtime_hours] has no upper bound). *)
Definition SensorDataInput_fields : list (string * (Q * option Q)) :=
  [ ("chw_supply_temp", (-10, Some 30));
    ("chw_return_temp", (-10, Some 35));
    ("cdw_inlet_temp", (0, Some 50));
    ("cdw_outlet_temp", (0, Some 60));
    ("ambient_temp", (-40, Some 60));
    ("vibration_rms", (0, Some 50));
    ("vibration_freq", (0, Some 500));
    ("runtime_hours", (0, None));
    ("start_stop_cycles", (0, Some 100));
    ("current_r", (0, Some 2000));
    ("current_y", (0, Some 2000));
    ("current_b", (0, Some 2000));
    ("power_kw", (0, Some 5000));
    ("load_percent", (0, Some 100));
    ("alarm_status", (0, Some 1));
    ("chw_flow_gpm", (0, Some 10000)) ]%string.

(** A reading the input model lets through: every numeric entry is a field
    of the model and satisfies its constraints. *)
Definition accepted_by_input_model (data : gmap string Q) : Prop :=
  forall key v, data !! key = Some v ->
    exists ge le, In (key, (ge, le)) SensorDataInput_fields /\
                  ge <= v /\ (forall u, le = Some u -> v <= u).

End ApiModels.

(** ** Vocabulary of the properties *)

Module Spec.

Import Validators.

(** Some issue of [l] has severity [s]. *)
Definition has_severity (s : ValidationSeverity) (l : list ValidationIssue) : bool :=
  existsb (fun i => severity_eqb (severity i) s) l.

(** Promotion of one issue: a warning becomes an error, rule name, message,
    metric, value, range and recommendation are kept; errors and infos are
    unchanged. *)
Definition promote (i : ValidationIssue) : ValidationIssue :=
  if severity_eqb (severity i) WARNING then set_severity ERROR i else i.

(** The verdict as a function of the issues the rules raised. *)
Definition classify (strict_mode : bool) (l : list ValidationIssue) : ValidationResult :=
  if has_severity ERROR l then
    {| is_valid := false; status := "rejected"; issues := l |}
  else if has_severity WARNING l then
    if strict_mode
    then {| is_valid := false; status := "rejected"; issues := List.map promote l |}
    else {| is_valid := true; status := "accepted_with_warnings"; issues := l |}
  else {| is_valid := true; status := "accepted"; issues := l |}.

(** The two water loops checked by the thermal-direction rule: the field
    holding the colder (entering) temperature, the field holding the warmer
    (leaving) one, and the rule name. *)
Inductive loop : Type := CHW | CDW.

Definition cold_field (l : loop) : string :=
  match l with CHW => "chw_supply_temp" | CDW => "cdw_inlet_temp" end.

Definition warm_field (l : loop) : string :=
  match l with CHW => "chw_return_temp" | CDW => "cdw_outlet_temp" end.

Definition thermal_rule (l : loop) : string :=
  match l with CHW => "chw_thermal_direction" | CDW => "cdw_thermal_direction" end.

(** A reading written as a Python dict literal. *)
Definition reading (l : list (string * Q)) : gmap string Q := list_to_map l.

(** Some issue of the list has severity [s]. *)
Definition some_issue (s : ValidationSeverity) (l : list ValidationIssue) : Prop :=
  exists i, In i l /\ severity i = s.

(** [j] is [i] with a warning severity promoted to error and everything else
    unchanged. *)
Definition promoted (i j : ValidationIssue) : Prop :=
  rule_name j = rule_name i /\
  message j = message i /\
  metric_name j = metric_name i /\
  actual_value j = actual_value i /\
  expected_range j = expected_range i /\
  recommendation j = recommendation i /\
  severity j = match severity i with WARNING => ERROR | s => s end.

(** Some metric with a typical operating range is present in the reading
    and lies outside that range. *)
Definition out_of_typical_range (data : gmap string Q) : Prop :=
  exists metric lo hi x,
    In (metric, (lo, hi)) typical_ranges /\ data !! metric = Some x /\ (x < lo \/ hi < x).

End Spec.

Module HealthSpec.

Import HealthScore.

(** The entry the scoring loop appends for the weight entry [(name, w)], if
    the metric is present. *)
Definition scored_entry (metrics : gmap string Q) (entry : string * Q) : option MetricScore :=
  let '(name, w) := entry in
  match metrics !! name with
  | None => None
  | Some value =>
      let '(score, status, message) := _score_metric name value in
      Some {| metric_name := name;
              raw_value := value;
              normalized_score := score;
              weighted_contribution := score * w;
              weight := w;
              status := status;
              message := message |}
  end.

(** The scored metrics, one per configured metric present in the map, in the
    order of the weight configuration. *)
Definition scored (weights : list (string * Q)) (metrics : gmap string Q) : list MetricScore :=
  omap (scored_entry metrics) weights.

(** Sum of [f] over a list of scored metrics. *)
Definition total (f : MetricScore -> Q) (l : list MetricScore) : Q :=
  foldr (fun m acc => f m + acc) 0 l.

(** The entries of the weight configuration whose metric is present in the
    metrics map. *)
Definition present_weights (weights : list (string * Q)) (metrics : gmap string Q)
  : list (string * Q) :=
  List.filter (fun e => match metrics !! fst e with Some _ => true | None => false end) weights.

(** Sum of a list of numbers. *)
Definition qsum (l : list Q) : Q := foldr Qplus 0 l.

(** Ascending order of normalized scores. *)
Definition score_le (a b : MetricScore) : Prop :=
  normalized_score a <= normalized_score b.

(** A metrics map written as a dict literal. *)
Definition metrics_of (l : list (string * Q)) : gmap string Q := list_to_map l.

End HealthSpec.

Module GeneratorSpec.

Import Generator.

(** The keys [generate_reading] sets after the scenario has been applied. *)
Definition metadata_keys : list string :=
  ["time"; "asset_id"; "operating_mode"; "alarm_status"]%string.

(** A generated reading written as a Python dict literal. *)
Definition base_of (l : list (string * value)) : gmap string value := list_to_map l.

End GeneratorSpec.

Module ValidatorsSpec.

Import Validators Spec.

(** The reading violates the thermal direction of a loop. *)
Definition thermal_violation (data : gmap string Q) (l : loop) : Prop :=
  exists lo hi, data !! cold_field l = Some lo /\ data !! warm_field l = Some hi /\ hi <= lo.

(** The reading breaks a hard limit; the index is the name of the rule that
    reports it. *)
Inductive hard_violation (data : gmap string Q) : string -> Prop :=
| load_negative v :
    data !! "load_percent"%string = Some v -> v < 0 ->
    hard_violation data "load_percent_negative"
| load_over_100 v :
    data !! "load_percent"%string = Some v -> 100 < v ->
    hard_violation data "load_percent_over_100"
| power_negative v :
    data !! "power_kw"%string = Some v -> v < 0 ->
    hard_violation data "power_non_negative"
| vibration_negative v :
    data !! "vibration_rms"%string = Some v -> v < 0 ->
    hard_violation data "vibration_non_negative"
| current_negative phase v :
    In phase ["current_r"; "current_y"; "current_b"]%string ->
    data !! phase = Some v -> v < 0 ->
    hard_violation data (phase ++ "_non_negative")
| runtime_negative v :
    data !! "runtime_hours"%string = Some v -> v < 0 ->
    hard_violation data "runtime_non_negative"
| approach_negative v :
    data !! "approach_temp"%string = Some v -> v < 0 ->
    hard_violation data "approach_non_negative"
| delta_t_not_positive d p :
    data !! "delta_t"%string = Some d -> data !! "power_kw"%string = Some p ->
    10 < p -> d <= 0 ->
    hard_violation data "delta_t_positive_when_running".

(** A reading on which no rule has anything to report. *)
Record nominal (data : gmap string Q) : Prop := {
  nominal_thermal :
    forall l lo hi, data !! cold_field l = Some lo -> data !! warm_field l = Some hi -> lo < hi;
  nominal_typical :
    forall metric lo hi v,
      In (metric, (lo, hi)) typical_ranges -> data !! metric = Some v -> lo <= v <= hi;
  nominal_non_negative :
    forall key v,
      In key ["current_r"; "current_y"; "current_b"; "runtime_hours"]%string ->
      data !! key = Some v -> 0 <= v;
  nominal_consistent :
    (exists p, data !! "power_kw"%string = Some p /\ ~ p == 0) \/
    ((forall lp, data !! "load_percent"%string = Some lp -> lp <= 10) /\
     (forall vib, data !! "vibration_rms"%string = Some vib -> vib <= 5))
}.

End ValidatorsSpec.

(** ** Python comparisons *)

Module PyFacts.

Lemma le_true a b : Py.le a b = true <-> a <= b.
Proof. unfold Py.le. apply Qle_bool_iff. Qed.

Lemma le_false a b : Py.le a b = false <-> b < a.
Proof.
  unfold Py.le. split; intros H.
  - apply Qnot_le_lt. intros Hle. apply Qle_bool_iff in Hle. congruence.
  - destruct (Qle_bool a b) eqn:E; [|reflexivity].
    apply Qle_bool_iff in E. lra.
Qed.

Lemma lt_true a b : Py.lt a b = true <-> a < b.
Proof. unfold Py.lt. rewrite negb_true_iff. apply (le_false b a). Qed.

Lemma lt_false a b : Py.lt a b = false <-> b <= a.
Proof. unfold Py.lt. rewrite negb_false_iff. apply (le_true b a). Qed.

Lemma gt_true a b : Py.gt a b = true <-> b < a.
Proof. apply lt_true. Qed.

Lemma gt_false a b : Py.gt a b = false <-> a <= b.
Proof. apply lt_false. Qed.

Lemma ge_true a b : Py.ge a b = true <-> b <= a.
Proof. apply le_true. Qed.

Lemma ge_false a b : Py.ge a b = false <-> a < b.
Proof. apply le_false. Qed.

Lemma eq_true a b : Py.eq a b = true <-> a == b.
Proof. apply Qeq_bool_iff. Qed.

Lemma max_l a b : a <= Py.max a b.
Proof. unfold Py.max. destruct (Py.gt b a) eqn:E; [apply gt_true in E|]; lra. Qed.

Lemma max_r a b : b <= Py.max a b.
Proof. unfold Py.max. destruct (Py.gt b a) eqn:E; [|apply gt_false in E]; lra. Qed.

Lemma max_cases a b : (Py.max a b = a /\ b <= a) \/ (Py.max a b = b /\ a < b).
Proof.
  unfold Py.max. destruct (Py.gt b a) eqn:E.
  - right. apply gt_true in E. auto.
  - left. apply gt_false in E. auto.
Qed.

Lemma min_cases a b : (Py.min a b = a /\ a <= b) \/ (Py.min a b = b /\ b < a).
Proof.
  unfold Py.min. destruct (Py.lt b a) eqn:E.
  - right. apply lt_true in E. auto.
  - left. apply lt_false in E. auto.
Qed.

End PyFacts.

(** ** The verdict of the physics guard *)

Module ValidatorsFacts.

Import Validators Spec.

(** *** The object store *)

Lemma set_severity_idemp s i : set_severity s (set_severity s i) = set_severity s i.
Proof. reflexivity. Qed.

Lemma read_all (h : store) : read h (seq 0 (length h)) = h.
Proof.
  unfold read. induction h as [|x h IH]; [reflexivity|].
  cbn [length seq]. rewrite <- seq_shift.
  cbn [omap list_omap lookup list_lookup]. f_equal.
  rewrite <- IH at 2. clear IH.
  generalize (seq 0 (length h)) as refs.
  induction refs as [|r refs IH]; [reflexivity|].
  cbn. rewrite IH. reflexivity.
Qed.

Lemma elem_of_refs_with s (h : store) n r :
  In r (refs_with s h (seq 0 n)) <->
  (r < n)%nat /\ exists i, h !! r = Some i /\ severity i = s.
Proof.
  unfold refs_with. rewrite filter_In, in_seq. split.
  - intros [Hr Hs]. split; [lia|].
    destruct (h !! r) as [i|]; [|discriminate].
    exists i. split; [reflexivity|].
    destruct (severity i), s; simpl in Hs; congruence.
  - intros [Hr (i & Hi & Hs)]. split; [lia|].
    rewrite Hi, Hs. destruct s; reflexivity.
Qed.

Lemma refs_with_nil s (h : store) :
  refs_with s h (seq 0 (length h)) = [] <-> has_severity s h = false.
Proof.
  split.
  - intros Hnil. unfold has_severity.
    destruct (existsb _ h) eqn:E; [|reflexivity].
    apply existsb_exists in E. destruct E as (i & Hin & Hs).
    apply list_elem_of_In, list_elem_of_lookup in Hin. destruct Hin as [r Hr].
    assert (Hmem : In r (refs_with s h (seq 0 (length h)))).
    { apply elem_of_refs_with. split.
      - eapply lookup_lt_Some; eauto.
      - exists i. split; [assumption|].
        destruct (severity i), s; simpl in Hs; congruence. }
    rewrite Hnil in Hmem. destruct Hmem.
  - intros Hno. destruct (refs_with s h (seq 0 (length h))) as [|r rs] eqn:E; [reflexivity|].
    assert (Hmem : In r (refs_with s h (seq 0 (length h)))) by (rewrite E; left; reflexivity).
    apply elem_of_refs_with in Hmem. destruct Hmem as [_ (i & Hi & Hs)].
    assert (Hex : has_severity s h = true).
    { apply existsb_exists. exists i. split.
      - apply list_elem_of_In, list_elem_of_lookup. eauto.
      - rewrite Hs. destruct s; reflexivity. }
    congruence.
Qed.

Lemma lookup_assign_severity s ws : forall (h : store) r,
  assign_severity s h ws !! r =
  if decide (r ∈ ws) then set_severity s <$> h !! r else h !! r.
Proof.
  unfold assign_severity.
  induction ws as [|w ws IH]; intros h r; cbn [foldl].
  - case_decide as Hin; [|reflexivity]. inversion Hin.
  - rewrite IH. cbn beta. destruct (decide (r = w)) as [->|Hne].
    + rewrite list_lookup_alter_eq.
      rewrite (decide_True (P := w ∈ w :: ws)) by left.
      case_decide; [|reflexivity].
      destruct (h !! w); reflexivity.
    + rewrite list_lookup_alter_ne by congruence.
      destruct (decide (r ∈ ws)) as [Hin|Hnin].
      * rewrite decide_True by (right; assumption). reflexivity.
      * rewrite decide_False; [reflexivity|].
        intros Hin. apply elem_of_cons in Hin. tauto.
Qed.

Lemma length_assign_severity s ws : forall (h : store),
  length (assign_severity s h ws) = length h.
Proof.
  unfold assign_severity.
  induction ws as [|w ws IH]; intros h; cbn [foldl]; [reflexivity|].
  rewrite IH. cbn beta. apply length_alter.
Qed.

(** Assigning [ERROR] through the list of warnings promotes the issues the
    list [issues] holds. *)
Lemma assign_warnings_promote (h : store) :
  assign_severity ERROR h (refs_with WARNING h (seq 0 (length h))) = List.map promote h.
Proof.
  apply list_eq. intros r.
  rewrite lookup_assign_severity.
  change (List.map promote h) with (promote <$> h). rewrite list_lookup_fmap.
  case_decide as Hin.
  - apply list_elem_of_In, elem_of_refs_with in Hin.
    destruct Hin as [_ (i & Hi & Hs)]. rewrite Hi. cbn.
    unfold promote. rewrite Hs. reflexivity.
  - destruct (h !! r) as [i|] eqn:Hi; [|reflexivity]. cbn. f_equal.
    unfold promote. destruct (severity_eqb (severity i) WARNING) eqn:Hs; [|reflexivity].
    exfalso. apply Hin. apply list_elem_of_In, elem_of_refs_with. split.
    + eapply lookup_lt_Some; eauto.
    + exists i. split; [assumption|]. destruct (severity i); simpl in Hs; congruence.
Qed.

(** [validate] is [classify] applied to the issues of the five rule
    families. *)
Lemma validate_classify strict data :
  validate strict data = classify strict (run_rules data).
Proof.
  unfold validate, classify.
  set (h := run_rules data).
  destruct (refs_with ERROR h (seq 0 (length h))) as [|e es] eqn:Ee.
  - apply refs_with_nil in Ee. rewrite Ee.
    destruct (refs_with WARNING h (seq 0 (length h))) as [|w ws] eqn:Ew.
    + apply refs_with_nil in Ew. rewrite Ew, read_all. reflexivity.
    + assert (Hw : has_severity WARNING h = true).
      { destruct (has_severity WARNING h) eqn:E; [reflexivity|].
        apply refs_with_nil in E. congruence. }
      rewrite Hw. destruct strict.
      * rewrite <- Ew, assign_warnings_promote.
        rewrite <- (length_map promote h), read_all. reflexivity.
      * rewrite read_all. reflexivity.
  - assert (He : has_severity ERROR h = true).
    { destruct (has_severity ERROR h) eqn:E; [reflexivity|].
      apply refs_with_nil in E. congruence. }
    rewrite He, read_all. reflexivity.
Qed.

(** *** Classification *)

Lemma has_severity_true s l : has_severity s l = true <-> some_issue s l.
Proof.
  unfold has_severity, some_issue. rewrite existsb_exists.
  split; intros (i & Hin & Hs); exists i; (split; [assumption|]).
  - destruct (severity i), s; simpl in Hs; congruence.
  - rewrite Hs. destruct s; reflexivity.
Qed.

Lemma has_severity_false s l : has_severity s l = false <-> ~ some_issue s l.
Proof.
  rewrite <- has_severity_true. destruct (has_severity s l); split; congruence.
Qed.

Lemma has_severity_app s l1 l2 :
  has_severity s (l1 ++ l2) = has_severity s l1 || has_severity s l2.
Proof. apply existsb_app. Qed.

Lemma promote_promoted i : promoted i (promote i).
Proof. unfold promoted, promote. destruct i as [[] ? ? ? ? ? ?]; cbn; tauto. Qed.

Lemma promote_not_warning i : severity (promote i) <> WARNING.
Proof. unfold promote. destruct i as [[] ? ? ? ? ? ?]; cbn; congruence. Qed.

Lemma promote_warning_error i : severity i = WARNING -> severity (promote i) = ERROR.
Proof. unfold promote. intros ->. reflexivity. Qed.

Lemma promoted_list l : Forall2 promoted l (List.map promote l).
Proof. induction l; constructor; auto using promote_promoted. Qed.

Lemma no_warning_after_promote l : ~ some_issue WARNING (List.map promote l).
Proof.
  intros (j & Hin & Hs). apply in_map_iff in Hin. destruct Hin as (i & <- & _).
  exact (promote_not_warning i Hs).
Qed.

Lemma some_warning_promoted l : some_issue WARNING l -> some_issue ERROR (List.map promote l).
Proof.
  intros (i & Hin & Hs). exists (promote i). split.
  - apply in_map. assumption.
  - apply promote_warning_error. assumption.
Qed.

(** The issues of the thermal rule are among those [validate] collects. *)
Lemma thermal_in_rules data i :
  In i (_validate_thermal_directionality data) -> In i (run_rules data).
Proof. intros H. unfold run_rules. apply in_or_app. left. assumption. Qed.

Lemma thermal_issue_raised data l lo hi :
  data !! cold_field l = Some lo ->
  data !! warm_field l = Some hi ->
  hi <= lo ->
  exists i, In i (_validate_thermal_directionality data) /\
            severity i = ERROR /\ rule_name i = thermal_rule l.
Proof.
  intros Hlo Hhi Hle. apply PyFacts.le_true in Hle.
  unfold _validate_thermal_directionality. destruct l; cbn in Hlo, Hhi.
  - exists (chw_thermal_issue lo hi). rewrite Hlo, Hhi, Hle.
    split; [left; reflexivity | split; reflexivity].
  - exists (cdw_thermal_issue lo hi). rewrite Hlo, Hhi, Hle.
    split; [apply in_or_app; right; left; reflexivity | split; reflexivity].
Qed.

(** C1 (thermal law).  For either water loop (chilled water: supply/return,
    condenser water: inlet/outlet): when the reading holds both temperatures
    and the leaving one is not above the entering one, [validate], strict or
    not, returns [is_valid = false], status ["rejected"], and an issue list
    holding an error whose rule name is ["chw_thermal_direction"], resp.
    ["cdw_thermal_direction"]. *)
Theorem thermal_law (strict : bool) (data : gmap string Q) (l : loop) (lo hi : Q) :
  data !! cold_field l = Some lo ->
  data !! warm_field l = Some hi ->
  hi <= lo ->
  let v := validate strict data in
  is_valid v = false /\ status v = "rejected"%string /\
  exists i, In i (issues v) /\ severity i = ERROR /\ rule_name i = thermal_rule l.
Proof.
  intros Hlo Hhi Hle v. subst v. rewrite validate_classify.
  destruct (thermal_issue_raised data l lo hi Hlo Hhi Hle) as (i & Hin & Hs & Hr).
  apply thermal_in_rules in Hin.
  assert (He : has_severity ERROR (run_rules data) = true).
  { apply has_severity_true. exists i. auto. }
  unfold classify. rewrite He. cbn. repeat split. exists i. auto.
Qed.

Lemma thermal_law_witness :
  let v := validate false
             (reading [("chw_supply_temp"%string, 12.2); ("chw_return_temp"%string, 6.7)]) in
  is_valid v = false /\ status v = "rejected"%string /\
  exists i, In i (issues v) /\ severity i = ERROR /\ rule_name i = "chw_thermal_direction"%string.
Proof.
  apply (thermal_law false _ CHW 12.2 6.7).
  - reflexivity.
  - reflexivity.
  - vm_compute. discriminate.
Defined.

Lemma promote_id_no_warning l : has_severity WARNING l = false -> List.map promote l = l.
Proof.
  induction l as [|i l IH]; [reflexivity|].
  cbn. intros H. apply orb_false_iff in H. destruct H as [Hi Hl].
  rewrite (IH Hl). unfold promote. rewrite Hi. reflexivity.
Qed.

Lemma classify_cases strict l :
  (has_severity ERROR l = true /\
   classify strict l = {| is_valid := false; status := "rejected"; issues := l |}) \/
  (has_severity ERROR l = false /\ has_severity WARNING l = true /\ strict = true /\
   classify strict l =
     {| is_valid := false; status := "rejected"; issues := List.map promote l |}) \/
  (has_severity ERROR l = false /\ has_severity WARNING l = true /\ strict = false /\
   classify strict l =
     {| is_valid := true; status := "accepted_with_warnings"; issues := l |}) \/
  (has_severity ERROR l = false /\ has_severity WARNING l = false /\
   classify strict l = {| is_valid := true; status := "accepted"; issues := l |}).
Proof.
  unfold classify.
  destruct (has_severity ERROR l); [tauto|].
  destruct (has_severity WARNING l); [|tauto].
  destruct strict; tauto.
Qed.

(** In strict mode a warning raised next to an error is returned as a
    warning: the verdict is rejected on the error alone and the promotion is
    not run. *)
Lemma strict_mode_keeps_warning_beside_error :
  let data := reading [("chw_supply_temp"%string, 12.2); ("chw_return_temp"%string, 6.7);
                       ("kw_per_ton"%string, 2.0)] in
  let v := validate true data in
  status v = "rejected"%string /\
  (exists i, In i (issues v) /\ severity i = WARNING /\
             rule_name i = "kw_per_ton_very_poor"%string) /\
  issues v <> List.map promote (run_rules data).
Proof.
  cbv zeta. split; [vm_compute; reflexivity|]. split.
  - match goal with |- exists i, In i ?l /\ _ =>
      assert (H : existsb (fun i => severity_eqb (severity i) WARNING
                                    && String.eqb (rule_name i) "kw_per_ton_very_poor") l = true)
        by (vm_compute; reflexivity)
    end.
    apply existsb_exists in H. destruct H as (i & Hin & H).
    apply andb_true_iff in H. destruct H as [Hs Hr].
    exists i. split; [exact Hin|]. split.
    + destruct (severity i); try discriminate; reflexivity.
    + apply String.eqb_eq. exact Hr.
  - vm_compute. discriminate.
Qed.

(** C2 (verdict invariant), as the code has it.  For every reading and mode
    the returned verdict satisfies: status ["rejected"] iff some returned
    issue is an error, and then [is_valid = false]; status
    ["accepted_with_warnings"] iff no returned issue is an error and some is a
    warning, and then [is_valid = true]; with neither, status ["accepted"]
    and [is_valid = true].  In strict mode, when the rules raise no error,
    the returned issues are the raised ones with every warning promoted to
    error (so none is a warning); when the rules raise an error, or in normal
    mode, the issues are returned as raised. *)
Theorem verdict_classification (strict : bool) (data : gmap string Q) :
  let v := validate strict data in
  (status v = "rejected"%string <-> some_issue ERROR (issues v)) /\
  (status v = "rejected"%string -> is_valid v = false) /\
  (status v = "accepted_with_warnings"%string <->
     ~ some_issue ERROR (issues v) /\ some_issue WARNING (issues v)) /\
  (status v = "accepted_with_warnings"%string -> is_valid v = true) /\
  (~ some_issue ERROR (issues v) -> ~ some_issue WARNING (issues v) ->
     status v = "accepted"%string /\ is_valid v = true) /\
  (strict = true -> ~ some_issue ERROR (run_rules data) ->
     issues v = List.map promote (run_rules data) /\ ~ some_issue WARNING (issues v)) /\
  (some_issue ERROR (run_rules data) \/ strict = false -> issues v = run_rules data).
Proof.
  intros v. subst v. rewrite validate_classify.
  destruct (classify_cases strict (run_rules data))
    as [(He & ->) | [(He & Hw & Hs & ->) | [(He & Hw & Hs & ->) | (He & Hw & ->)]]];
    cbn [status is_valid issues].
  - apply has_severity_true in He.
    split_and!; intuition (try discriminate; try congruence).
  - apply has_severity_false in He. apply has_severity_true in Hw.
    pose proof (some_warning_promoted _ Hw) as Hp.
    pose proof (no_warning_after_promote (run_rules data)) as Hn.
    split_and!; intuition (try discriminate; try congruence).
  - apply has_severity_false in He. apply has_severity_true in Hw.
    split_and!; intuition (try discriminate; try congruence).
  - apply has_severity_false in He. apply has_severity_false in Hw.
    assert (Hid : List.map promote (run_rules data) = run_rules data)
      by (apply promote_id_no_warning, has_severity_false; assumption).
    split_and!; intuition (try discriminate; try congruence).
Qed.

(** C6 (strict mode).  A reading that normal mode accepts with warnings is
    rejected by strict mode, [is_valid = false], with the same issues in the
    same order, each warning promoted to error and every other field of every
    issue unchanged. *)
Theorem strict_mode_rejects_warned (data : gmap string Q) :
  status (validate false data) = "accepted_with_warnings"%string ->
  let v := validate true data in
  status v = "rejected"%string /\ is_valid v = false /\
  issues v = List.map promote (issues (validate false data)) /\
  Forall2 promoted (issues (validate false data)) (issues v).
Proof.
  rewrite !validate_classify.
  destruct (classify_cases false (run_rules data))
    as [(He & ->) | [(He & Hw & Hs & ->) | [(He & Hw & Hs & ->) | (He & Hw & ->)]]];
    cbn [status issues]; try discriminate.
  intros _. unfold classify. rewrite He, Hw. cbn.
  split_and!; try reflexivity. apply promoted_list.
Qed.

Lemma strict_mode_rejects_warned_witness :
  let data := reading [("power_kw"%string, 0.0); ("load_percent"%string, 80.0)] in
  let v := validate true data in
  status v = "rejected"%string /\ is_valid v = false /\
  issues v = List.map promote (issues (validate false data)) /\
  Forall2 promoted (issues (validate false data)) (issues v).
Proof.
  apply (strict_mode_rejects_warned
           (reading [("power_kw"%string, 0.0); ("load_percent"%string, 80.0)])).
  vm_compute. reflexivity.
Defined.

(** *** Absent power *)

(** C5, on the code.  The reading of the class docstring of [PhysicsGuard]
    has no [power_kw] field; the operational-consistency rule reads the
    missing field as [0] and raises the power/load warning, so the reading is
    accepted with warnings where the docstring announces ["accepted"]. *)
Lemma absent_power_read_as_zero :
  let data := reading [("chw_supply_temp"%string, 6.7); ("chw_return_temp"%string, 12.2);
                       ("load_percent"%string, 80)] in
  data !! "power_kw"%string = None /\
  _validate_operational_consistency data = [power_load_issue 80] /\
  severity (power_load_issue 80) = WARNING /\
  status (validate false data) = "accepted_with_warnings"%string.
Proof. cbv zeta. split_and!; vm_compute; reflexivity. Qed.

(** The same holds of every reading without [power_kw] whose load is above
    10 %, and of every one whose vibration is above 5 mm/s. *)
Lemma absent_power_warns (data : gmap string Q) :
  data !! "power_kw"%string = None ->
  (forall lp, data !! "load_percent"%string = Some lp -> 10 < lp ->
     In (power_load_issue lp) (_validate_operational_consistency data)) /\
  (forall vib, data !! "vibration_rms"%string = Some vib -> 5.0 < vib ->
     In (power_vibration_issue vib) (_validate_operational_consistency data)).
Proof.
  intros Hp. unfold _validate_operational_consistency, get_or_zero. rewrite Hp.
  change (Py.eq (default 0 None) 0) with true. cbn [andb]. split.
  - intros lp -> Hlp. apply PyFacts.gt_true in Hlp. rewrite Hlp.
    apply in_or_app. left. left. reflexivity.
  - intros vib -> Hvib. change (default 0 (Some vib)) with vib.
    apply PyFacts.gt_true in Hvib. rewrite Hvib.
    apply in_or_app. right. left. reflexivity.
Qed.

(** *** Accepted readings with issues *)

Lemma severity_cases (l : list ValidationIssue) :
  ~ some_issue ERROR l -> ~ some_issue WARNING l -> Forall (fun i => severity i = INFO) l.
Proof.
  intros He Hw. apply List.Forall_forall. intros i Hin.
  destruct (severity i) eqn:E; [| |reflexivity].
  - exfalso. apply He. exists i. auto.
  - exfalso. apply Hw. exists i. auto.
Qed.

Lemma typical_range_check_raises data metric lo hi x :
  data !! metric = Some x -> (x < lo \/ hi < x) ->
  typical_range_check data (metric, (lo, hi)) = [typical_range_issue metric lo hi x].
Proof.
  intros Hx Hout. unfold typical_range_check. rewrite Hx.
  destruct Hout as [H|H].
  - apply PyFacts.lt_true in H. rewrite H. reflexivity.
  - apply PyFacts.gt_true in H. rewrite H, orb_true_r. reflexivity.
Qed.

Lemma out_of_range_raises data :
  out_of_typical_range data -> run_rules data <> [].
Proof.
  intros (metric & lo & hi & x & Hin & Hx & Hout) Hnil.
  assert (Hi : In (typical_range_issue metric lo hi x) (run_rules data)).
  { unfold run_rules, _validate_typical_ranges.
    do 4 (apply in_or_app; right). apply in_or_app. left.
    apply in_concat. exists (typical_range_check data (metric, (lo, hi))). split.
    - apply in_map. assumption.
    - rewrite (typical_range_check_raises data metric lo hi x Hx Hout). left. reflexivity. }
  rewrite Hnil in Hi. destruct Hi.
Qed.

(** C10.  An accepted verdict may carry issues: the reading
    [{"chw_supply_temp": 13.0}] is accepted, [is_valid = true], with a
    non-empty issue list that holds info issues only; and so is, in either
    mode, every reading in which some metric lies outside its typical range
    while the rules raise no error and no warning. *)
Theorem accepted_does_not_mean_no_issue :
  (let v := validate false (reading [("chw_supply_temp"%string, 13.0)]) in
   status v = "accepted"%string /\ is_valid v = true /\
   issues v <> [] /\ Forall (fun i => severity i = INFO) (issues v))
  /\
  (forall (strict : bool) (data : gmap string Q),
     out_of_typical_range data ->
     ~ some_issue ERROR (run_rules data) ->
     ~ some_issue WARNING (run_rules data) ->
     let v := validate strict data in
     status v = "accepted"%string /\ is_valid v = true /\
     issues v <> [] /\ Forall (fun i => severity i = INFO) (issues v)).
Proof.
  assert (Hgen : forall (strict : bool) (data : gmap string Q),
     out_of_typical_range data ->
     ~ some_issue ERROR (run_rules data) ->
     ~ some_issue WARNING (run_rules data) ->
     let v := validate strict data in
     status v = "accepted"%string /\ is_valid v = true /\
     issues v <> [] /\ Forall (fun i => severity i = INFO) (issues v)).
  { intros strict data Hout He Hw v. subst v. rewrite validate_classify.
    unfold classify.
    apply has_severity_false in He as He'. apply has_severity_false in Hw as Hw'.
    rewrite He', Hw'. cbn.
    split_and!; [reflexivity | reflexivity | apply out_of_range_raises; assumption
                | apply severity_cases; assumption]. }
  split; [|exact Hgen].
  apply Hgen.
  - exists "chw_supply_temp"%string, 4.0, 12.0, 13.0.
    split_and!; [left; reflexivity | reflexivity | right; vm_compute; reflexivity].
  - apply has_severity_false. vm_compute. reflexivity.
  - apply has_severity_false. vm_compute. reflexivity.
Qed.

End ValidatorsFacts.

(** ** Derived metrics *)

Module PhysicsFacts.

Import Physics.

Section AnyConstants.

Variable c : PhysicsConstants.

Lemma cooling_tons_floor delta_t flow : 0.1 <= calculate_cooling_tons c delta_t flow.
Proof. unfold calculate_cooling_tons. apply PyFacts.max_r. Qed.

Lemma cooling_tons_zero_delta delta_t flow :
  delta_t == 0 -> calculate_cooling_tons c delta_t flow = 0.1.
Proof.
  intros Hd. unfold calculate_cooling_tons.
  set (f := default (DEFAULT_CHW_FLOW_GPM c) flow).
  assert (Ht : f * (delta_t * 9.0 / 5.0) * GPM_FACTOR c / BTU_PER_TON_HOUR c == 0).
  { rewrite Hd. unfold Qdiv. ring. }
  unfold Py.max.
  assert (Hgt : Py.gt 0.1 (f * (delta_t * 9.0 / 5.0) * GPM_FACTOR c / BTU_PER_TON_HOUR c) = true).
  { apply PyFacts.gt_true. rewrite Ht. reflexivity. }
  rewrite Hgt. reflexivity.
Qed.

Lemma approach_non_negative cdw_outlet_temp sat :
  0 <= calculate_approach_temperature c cdw_outlet_temp sat.
Proof.
  unfold calculate_approach_temperature.
  match goal with |- 0 <= Py.max ?a ?b => pose proof (PyFacts.max_r a b) end. lra.
Qed.

Lemma cop_duality delta_t power_kw flow :
  0 < power_kw ->
  calculate_cop c delta_t power_kw flow ==
  KW_PER_TON c / calculate_kw_per_ton c power_kw delta_t flow.
Proof.
  intros Hp. unfold calculate_cop, calculate_kw_per_ton.
  assert (Hle : Py.le power_kw 0 = false) by (apply PyFacts.le_false; assumption).
  rewrite Hle.
  pose proof (cooling_tons_floor delta_t flow) as Ht.
  set (tons := calculate_cooling_tons c delta_t flow) in *.
  assert (Hlt : Py.lt tons 0.1 = false) by (apply PyFacts.lt_false; assumption).
  rewrite Hlt. field. split; lra.
Qed.

End AnyConstants.

(** C8 (floor invariants).  For every [delta_t] and every flow, measured or
    defaulted, [calculate_cooling_tons] is at least 0.1; with [delta_t] zero
    it is exactly 0.1; and [calculate_approach_temperature] is never negative,
    with or without a saturation temperature. *)
Theorem floor_invariants :
  (forall (delta_t : Q) (chw_flow_gpm : option Q),
     0.1 <= calculate_cooling_tons default_constants delta_t chw_flow_gpm) /\
  (forall (delta_t : Q) (chw_flow_gpm : option Q),
     delta_t == 0 -> calculate_cooling_tons default_constants delta_t chw_flow_gpm = 0.1) /\
  (forall (cdw_outlet_temp : Q) (refrigerant_sat_temp : option Q),
     0 <= calculate_approach_temperature default_constants cdw_outlet_temp refrigerant_sat_temp).
Proof.
  split_and!.
  - apply cooling_tons_floor.
  - apply cooling_tons_zero_delta.
  - apply approach_non_negative.
Qed.

(** C7 (COP / kW-per-ton duality).  With positive power and a cooling
    capacity of at least 0.1 ton, [calculate_cop] equals 3.517 divided by
    [calculate_kw_per_ton]; the numbers are exact rationals, so the equality
    is exact. *)
Theorem cop_kw_per_ton_duality (delta_t power_kw : Q) (chw_flow_gpm : option Q) :
  0 < power_kw ->
  0.1 <= calculate_cooling_tons default_constants delta_t chw_flow_gpm ->
  calculate_cop default_constants delta_t power_kw chw_flow_gpm ==
  3.517 / calculate_kw_per_ton default_constants power_kw delta_t chw_flow_gpm.
Proof.
  intros Hp _. apply (cop_duality default_constants). assumption.
Qed.

Lemma cop_kw_per_ton_duality_witness :
  calculate_cop default_constants 5.5 280 (Some 1000) ==
  3.517 / calculate_kw_per_ton default_constants 280 5.5 (Some 1000).
Proof.
  apply (cop_kw_per_ton_duality 5.5 280 (Some 1000)).
  - vm_compute. reflexivity.
  - vm_compute. discriminate.
Defined.

End PhysicsFacts.

(** ** The health score *)

Module HealthFacts.

Import HealthScore HealthSpec.

(** *** The scoring loop *)

Lemma score_step_scored metrics b ws tw entry :
  score_step metrics (b, ws, tw) entry =
  match scored_entry metrics entry with
  | None => (b, ws, tw)
  | Some m => (b ++ [m], ws + weighted_contribution m, tw + weight m)
  end.
Proof.
  unfold score_step, scored_entry. destruct entry as [name w].
  destruct (metrics !! name) as [value|]; [|reflexivity].
  destruct (_score_metric name value) as [[score st] msg]. reflexivity.
Qed.

Lemma loop_scored metrics weights : forall b ws tw,
  exists ws' tw',
    foldl (score_step metrics) (b, ws, tw) weights = (b ++ scored weights metrics, ws', tw') /\
    ws' == ws + total weighted_contribution (scored weights metrics) /\
    tw' == tw + total weight (scored weights metrics).
Proof.
  induction weights as [|entry weights IH]; intros b ws tw.
  - exists ws, tw. cbn. rewrite app_nil_r. split_and!; [reflexivity | ring | ring].
  - cbn [foldl]. rewrite score_step_scored.
    unfold scored. cbn [omap list_omap]. fold (omap (scored_entry metrics) weights).
    fold (scored weights metrics).
    destruct (scored_entry metrics entry) as [m|].
    + destruct (IH (b ++ [m]) (ws + weighted_contribution m) (tw + weight m))
        as (ws' & tw' & Heq & Hws & Htw).
      exists ws', tw'. rewrite Heq, <- app_assoc. cbn [app total foldr].
      split_and!; [reflexivity | rewrite Hws; unfold total; ring | rewrite Htw; unfold total; ring].
    + apply IH.
Qed.

Lemma scored_contribution weights metrics :
  Forall (fun m => weighted_contribution m = normalized_score m * weight m)
    (scored weights metrics).
Proof.
  apply List.Forall_forall. intros m Hin.
  apply list_elem_of_In, list_elem_of_omap in Hin. destruct Hin as ([name w] & _ & Hm).
  unfold scored_entry in Hm. destruct (metrics !! name) as [value|]; [|discriminate].
  destruct (_score_metric name value) as [[score st] msg].
  inversion Hm. reflexivity.
Qed.

Lemma scored_weight_in weights metrics m :
  In m (scored weights metrics) -> exists name, In (name, weight m) weights.
Proof.
  intros Hin.
  apply list_elem_of_In, list_elem_of_omap in Hin. destruct Hin as ([name w] & Hw & Hm).
  unfold scored_entry in Hm. destruct (metrics !! name) as [value|]; [|discriminate].
  destruct (_score_metric name value) as [[score st] msg].
  inversion Hm. cbn. exists name. apply list_elem_of_In. assumption.
Qed.

Lemma total_weight_positive (l : list MetricScore) :
  Forall (fun m => 0 < weight m) l -> l <> [] -> 0 < total weight l.
Proof.
  intros Hpos Hne. destruct l as [|m l]; [congruence|]. clear Hne.
  inversion Hpos as [|? ? Hm Hl]; subst. cbn [total foldr].
  assert (Hrest : 0 <= foldr (fun m0 acc => weight m0 + acc) 0 l).
  { clear -Hl. induction Hl as [|x l Hx Hl IH]; cbn; [lra|]. lra. }
  lra.
Qed.

(** *** [sorted] by score *)

Lemma insert_by_score_perm x l : insert_by_score x l ≡ₚ x :: l.
Proof.
  induction l as [|y l IH]; cbn; [reflexivity|].
  destruct (Py.lt (normalized_score y) (normalized_score x)); [|reflexivity].
  rewrite IH. apply perm_swap.
Qed.

Lemma sorted_by_score_perm l : sorted_by_score l ≡ₚ l.
Proof.
  induction l as [|x l IH]; cbn; [reflexivity|].
  rewrite insert_by_score_perm, IH. reflexivity.
Qed.

Lemma insert_by_score_sorted x l :
  StronglySorted score_le l -> StronglySorted score_le (insert_by_score x l).
Proof.
  induction 1 as [|y l Hl IH Hy]; cbn.
  - repeat constructor.
  - destruct (Py.lt (normalized_score y) (normalized_score x)) eqn:E.
    + apply PyFacts.lt_true in E. constructor; [assumption|].
      rewrite insert_by_score_perm. constructor; [|assumption].
      unfold score_le. lra.
    + apply PyFacts.lt_false in E. constructor.
      * constructor; assumption.
      * constructor; [exact E|].
        eapply Forall_impl; [eassumption|]. unfold score_le. cbn. intros z Hz. lra.
Qed.

Lemma sorted_by_score_sorted l : StronglySorted score_le (sorted_by_score l).
Proof.
  induction l as [|x l IH]; cbn; [constructor|].
  apply insert_by_score_sorted. assumption.
Qed.

(** The head of the sorted breakdown is an entry of lowest score. *)
Lemma sorted_head_lowest l worst rest :
  sorted_by_score l = worst :: rest ->
  In worst l /\ Forall (fun m => normalized_score worst <= normalized_score m) l.
Proof.
  intros Hs. pose proof (sorted_by_score_perm l) as Hp.
  pose proof (sorted_by_score_sorted l) as Hsorted. rewrite Hs in Hp, Hsorted.
  split.
  - apply list_elem_of_In. rewrite <- Hp. left.
  - rewrite <- Hp. constructor; [lra|].
    inversion Hsorted; subst. assumption.
Qed.

Lemma total_perm f (l1 l2 : list MetricScore) : l1 ≡ₚ l2 -> total f l1 == total f l2.
Proof.
  induction 1 as [|x l1 l2 _ IH|x y l|l1 l2 l3 _ IH1 _ IH2]; cbn.
  - reflexivity.
  - rewrite IH. reflexivity.
  - ring.
  - rewrite IH1. exact IH2.
Qed.

(** What [calculate] returns, in terms of the scored metrics. *)
Lemma calculate_breakdown weights metrics :
  breakdown (calculate weights metrics) = sorted_by_score (scored weights metrics).
Proof.
  unfold calculate.
  destruct (loop_scored metrics weights [] 0.0 0.0) as (ws & tw & Heq & _ & _).
  rewrite Heq. cbn [app].
  destruct (sorted_by_score (scored weights metrics)) as [|worst rest]; [reflexivity|].
  destruct (Py.lt (normalized_score worst) 70); reflexivity.
Qed.

Lemma calculate_overall weights metrics :
  exists ws tw,
    ws == total weighted_contribution (scored weights metrics) /\
    tw == total weight (scored weights metrics) /\
    overall_score (calculate weights metrics) =
      if Py.gt tw 0 then ws / tw else 50.0.
Proof.
  unfold calculate.
  destruct (loop_scored metrics weights [] 0.0 0.0) as (ws & tw & Heq & Hws & Htw).
  rewrite Heq. cbn [app]. exists ws, tw.
  split_and!.
  - rewrite Hws. ring.
  - rewrite Htw. ring.
  - destruct (sorted_by_score (scored weights metrics)) as [|worst rest]; [reflexivity|].
    destruct (Py.lt (normalized_score worst) 70); reflexivity.
Qed.

Lemma calculate_primary_concern weights metrics :
  primary_concern (calculate weights metrics) =
  match sorted_by_score (scored weights metrics) with
  | worst :: _ =>
      if Py.lt (normalized_score worst) 70 then Some (metric_name worst) else None
  | [] => None
  end.
Proof.
  unfold calculate.
  destruct (loop_scored metrics weights [] 0.0 0.0) as (ws & tw & Heq & _ & _).
  rewrite Heq. cbn [app].
  destruct (sorted_by_score (scored weights metrics)) as [|worst rest]; [reflexivity|].
  destruct (Py.lt (normalized_score worst) 70); reflexivity.
Qed.

(** *** Renormalisation over the metrics present *)

Lemma scored_present weights metrics :
  List.map (fun m => (metric_name m, weight m)) (scored weights metrics) =
  present_weights weights metrics.
Proof.
  unfold scored, present_weights.
  induction weights as [|[name w] weights IH]; [reflexivity|].
  cbn [omap list_omap List.filter fst]. fold (omap (scored_entry metrics) weights).
  unfold scored_entry at 1.
  destruct (metrics !! name) as [value|]; [|exact IH].
  destruct (_score_metric name value) as [[score st] msg].
  cbn. f_equal. exact IH.
Qed.

Lemma total_weight_present weights metrics :
  total weight (scored weights metrics) == qsum (List.map snd (present_weights weights metrics)).
Proof.
  rewrite <- scored_present.
  induction (scored weights metrics) as [|m l IH]; cbn; [reflexivity|].
  rewrite IH. reflexivity.
Qed.

Lemma scored_weights_positive weights metrics :
  Forall (fun e => 0 < snd e) weights ->
  Forall (fun m => 0 < weight m) (scored weights metrics).
Proof.
  intros Hpos. apply List.Forall_forall. intros m Hin.
  destruct (scored_weight_in _ _ _ Hin) as [name Hw].
  rewrite List.Forall_forall in Hpos. exact (Hpos _ Hw).
Qed.

Lemma present_weight_positive weights metrics :
  Forall (fun e => 0 < snd e) weights ->
  present_weights weights metrics <> [] ->
  0 < qsum (List.map snd (present_weights weights metrics)).
Proof.
  intros Hpos Hne. rewrite <- total_weight_present.
  apply total_weight_positive; [apply scored_weights_positive; assumption|].
  intros Hnil. apply Hne. rewrite <- scored_present, Hnil. reflexivity.
Qed.

(** C3 (score renormalisation).  For every weight configuration (the
    weights need not sum to 1) and every metrics map: each entry of the
    breakdown contributes score × weight; the weights of the breakdown sum to
    the weights of the configured metrics present in the map; when that sum
    is positive, as it is whenever the weights are positive and some
    configured metric is present, [overall_score] is the sum of the
    contributions divided by it; and when no configured metric is present,
    [overall_score] is exactly 50.0 and the breakdown is empty. *)
Theorem score_renormalization (weights : list (string * Q)) (metrics : gmap string Q) :
  let r := calculate weights metrics in
  let present := present_weights weights metrics in
  Forall (fun m => weighted_contribution m = normalized_score m * weight m) (breakdown r) /\
  total weight (breakdown r) == qsum (List.map snd present) /\
  (0 < qsum (List.map snd present) ->
     overall_score r ==
     total weighted_contribution (breakdown r) / qsum (List.map snd present)) /\
  (Forall (fun e => 0 < snd e) weights -> present <> [] ->
     0 < qsum (List.map snd present)) /\
  (present = [] -> overall_score r = 50.0 /\ breakdown r = []).
Proof.
  intros r present. subst r present.
  pose proof (sorted_by_score_perm (scored weights metrics)) as Hperm.
  pose proof (total_weight_present weights metrics) as Htp.
  rewrite calculate_breakdown.
  destruct (calculate_overall weights metrics) as (ws & tw & Hws & Htw & ->).
  split_and!.
  - rewrite Hperm. apply scored_contribution.
  - rewrite (total_perm weight _ _ Hperm). exact Htp.
  - intros Htot.
    assert (Hgt : Py.gt tw 0 = true) by (apply PyFacts.gt_true; lra).
    rewrite Hgt, (total_perm weighted_contribution _ _ Hperm), Hws, Htw, Htp.
    reflexivity.
  - apply present_weight_positive.
  - intros Hnil. pose proof (scored_present weights metrics) as Hsp.
    rewrite Hnil in Hsp.
    destruct (scored weights metrics) as [|m l]; [|discriminate].
    cbn in Htw. split; [|reflexivity].
    assert (Hgt : Py.gt tw 0 = false) by (apply PyFacts.gt_false; lra).
    rewrite Hgt. reflexivity.
Qed.

Lemma score_renormalization_witness :
  let r := calculate default_weights
             (metrics_of [("vibration_rms"%string, 2.5); ("delta_t"%string, 5.5);
                          ("unknown_metric"%string, 999.0)]) in
  overall_score r ==
  total weighted_contribution (breakdown r) / qsum [0.35; 0.05].
Proof.
  pose proof (score_renormalization default_weights
    (metrics_of [("vibration_rms"%string, 2.5); ("delta_t"%string, 5.5);
                 ("unknown_metric"%string, 999.0)])) as H.
  cbv zeta in H.
  change (present_weights default_weights
            (metrics_of [("vibration_rms"%string, 2.5); ("delta_t"%string, 5.5);
                         ("unknown_metric"%string, 999.0)]))
    with [("vibration_rms"%string, 0.35); ("delta_t"%string, 0.05)] in H.
  destruct H as (_ & _ & H & _).
  apply H. vm_compute. reflexivity.
Defined.

(** *** Score bands *)

Lemma clamp_score_ge (lo s : Q) : lo <= 100 -> lo <= s -> lo <= clamp_score s.
Proof.
  intros Hlo Hs. unfold clamp_score.
  destruct (PyFacts.max_cases 0.0 s) as [[-> H]|[-> H]];
    destruct (PyFacts.min_cases 100.0 s) as [[E H']|[E H']];
    destruct (PyFacts.min_cases 100.0 0.0) as [[E0 H0]|[E0 H0]];
    rewrite ?E, ?E0; lra.
Qed.

Lemma clamp_score_le (hi s : Q) : 0 <= hi -> s <= hi -> clamp_score s <= hi.
Proof.
  intros Hhi Hs. unfold clamp_score.
  destruct (PyFacts.max_cases 0.0 s) as [[-> H]|[-> H]];
    destruct (PyFacts.min_cases 100.0 s) as [[E H']|[E H']];
    destruct (PyFacts.min_cases 100.0 0.0) as [[E0 H0]|[E0 H0]];
    rewrite ?E, ?E0; lra.
Qed.

Lemma ratio_le_one (a b : Q) : 0 < b -> a <= b -> a / b <= 1.
Proof. intros Hb Hab. apply Qle_shift_div_r; [assumption|lra]. Qed.

Lemma ratio_pos (a b : Q) : 0 < b -> 0 < a -> 0 < a / b.
Proof. intros Hb Ha. apply Qlt_shift_div_l; [assumption|lra]. Qed.

Lemma critical_score_le (overage : Q) :
  0 < overage -> Py.max 0.0 (30.0 - 30.0 * Py.min overage 1.0) <= 30.
Proof.
  intros Ho.
  destruct (PyFacts.min_cases overage 1.0) as [[-> H]|[-> H]];
    match goal with |- Py.max ?a ?b <= _ =>
      destruct (PyFacts.max_cases a b) as [[-> H1]|[-> H1]] end; lra.
Qed.

Lemma lower_better_bands value excellent good fair poor unit description :
  let '(s, st, _) := _score_lower_better value excellent good fair poor unit description in
  (st = "excellent"%string -> 95 <= s) /\ (st = "critical"%string -> s <= 30).
Proof.
  unfold _score_lower_better.
  destruct (Py.le value excellent) eqn:E1; [|destruct (Py.le value good) eqn:E2;
    [|destruct (Py.le value fair) eqn:E3; [|destruct (Py.le value poor) eqn:E4]]];
    (split; [|]); try discriminate.
  - intros _. apply clamp_score_ge; [lra|].
    apply PyFacts.le_true in E1.
    destruct (Py.gt excellent 0) eqn:Ee; [|lra].
    apply PyFacts.gt_true in Ee.
    pose proof (ratio_le_one value excellent Ee E1). lra.
  - intros _. apply clamp_score_le; [lra|].
    apply PyFacts.le_false in E4.
    destruct (Py.gt poor 0) eqn:Ep.
    + apply PyFacts.gt_true in Ep. apply critical_score_le.
      apply ratio_pos; lra.
    + apply critical_score_le. lra.
Qed.

Lemma target_range_bands value target eb gb fb pb unit description :
  0 < eb -> 0 < pb ->
  let '(s, st, _) := _score_target_range value target eb gb fb pb unit description in
  (st = "excellent"%string -> 95 <= s) /\ (st = "critical"%string -> s <= 30).
Proof.
  intros Heb Hpb. unfold _score_target_range.
  set (deviation := Py.abs (value - target)).
  destruct (Py.le deviation eb) eqn:E1; [|destruct (Py.le deviation gb) eqn:E2;
    [|destruct (Py.le deviation fb) eqn:E3; [|destruct (Py.le deviation pb) eqn:E4]]];
    (split; [|]); try discriminate.
  - intros _. apply clamp_score_ge; [lra|].
    apply PyFacts.le_true in E1.
    pose proof (ratio_le_one deviation eb Heb E1). lra.
  - intros _. apply clamp_score_le; [lra|].
    apply PyFacts.le_false in E4.
    apply critical_score_le. apply ratio_pos; lra.
Qed.

Lemma score_metric_bands name value :
  let '(s, st, _) := _score_metric name value in
  (st = "excellent"%string -> 95 <= s) /\ (st = "critical"%string -> s <= 30).
Proof.
  unfold _score_metric, thresholds. cbn [assoc].
  repeat match goal with
         | |- context [String.eqb name ?k] => destruct (String.eqb name k)
         end;
    try apply lower_better_bands;
    try (apply target_range_bands; reflexivity).
  split; discriminate.
Qed.

Lemma scored_bands weights metrics m :
  In m (scored weights metrics) ->
  (status m = "excellent"%string -> 95 <= normalized_score m) /\
  (status m = "critical"%string -> normalized_score m <= 30).
Proof.
  intros Hin.
  apply list_elem_of_In, list_elem_of_omap in Hin. destruct Hin as ([name w] & _ & Hm).
  unfold scored_entry in Hm. destruct (metrics !! name) as [value|]; [|discriminate].
  pose proof (score_metric_bands name value) as Hb.
  destruct (_score_metric name value) as [[score st] msg].
  inversion Hm. cbn. exact Hb.
Qed.

(** C9 (primary concern).  Whenever some configured metric is present, the
    first entry of the returned breakdown is a scored metric of lowest
    normalized score, and [primary_concern] is its name when that score is
    below 70 and [None] otherwise.  In particular, when one scored metric is
    critical and every other one is excellent, [primary_concern] is the
    critical metric's name. *)
Theorem primary_concern_selection (weights : list (string * Q)) (metrics : gmap string Q) :
  let r := calculate weights metrics in
  (forall worst rest,
     breakdown r = worst :: rest ->
     In worst (scored weights metrics) /\
     Forall (fun m => normalized_score worst <= normalized_score m) (scored weights metrics) /\
     (normalized_score worst < 70 -> primary_concern r = Some (metric_name worst)) /\
     (70 <= normalized_score worst -> primary_concern r = None)) /\
  (forall l1 m l2,
     scored weights metrics = l1 ++ m :: l2 ->
     status m = "critical"%string ->
     Forall (fun x => status x = "excellent"%string) (l1 ++ l2) ->
     primary_concern r = Some (metric_name m)).
Proof.
  intros r. subst r.
  assert (Hfirst : forall worst rest,
     breakdown (calculate weights metrics) = worst :: rest ->
     In worst (scored weights metrics) /\
     Forall (fun m => normalized_score worst <= normalized_score m) (scored weights metrics) /\
     (normalized_score worst < 70 ->
        primary_concern (calculate weights metrics) = Some (metric_name worst)) /\
     (70 <= normalized_score worst -> primary_concern (calculate weights metrics) = None)).
  { intros worst rest Hb. rewrite calculate_breakdown in Hb.
    destruct (sorted_head_lowest _ _ _ Hb) as [Hin Hmin].
    rewrite calculate_primary_concern, Hb.
    split_and!; [assumption | assumption | |].
    - intros H. apply PyFacts.lt_true in H. rewrite H. reflexivity.
    - intros H. apply PyFacts.lt_false in H. rewrite H. reflexivity. }
  split; [exact Hfirst|].
  intros l1 m l2 Hsc Hcrit Hexc.
  destruct (breakdown (calculate weights metrics)) as [|worst rest] eqn:Hb.
  - rewrite calculate_breakdown in Hb.
    pose proof (sorted_by_score_perm (scored weights metrics)) as Hp.
    rewrite Hb, Hsc in Hp. apply Permutation_nil in Hp.
    destruct l1; discriminate.
  - destruct (Hfirst worst rest eq_refl) as (Hin & Hmin & Hlt & _).
    assert (Hm_in : In m (scored weights metrics)).
    { rewrite Hsc. apply in_or_app. right. left. reflexivity. }
    destruct (scored_bands _ _ _ Hm_in) as [_ Hm30]. specialize (Hm30 Hcrit).
    rewrite List.Forall_forall in Hmin. pose proof (Hmin _ Hm_in) as Hwm.
    assert (Hw : worst = m).
    { rewrite Hsc in Hin. apply in_app_or in Hin.
      rewrite List.Forall_forall in Hexc.
      destruct (scored_bands _ _ _ (proj1 (sorted_head_lowest _ _ _
                  (eq_trans (eq_sym (calculate_breakdown weights metrics)) Hb))))
        as [Hw95 _].
      destruct Hin as [Hin|[Hin|Hin]]; [|auto|].
      - specialize (Hw95 (Hexc worst (in_or_app _ _ _ (or_introl Hin)))). lra.
      - specialize (Hw95 (Hexc worst (in_or_app _ _ _ (or_intror Hin)))). lra. }
    subst worst. apply Hlt. lra.
Qed.

Lemma primary_concern_selection_witness :
  primary_concern
    (calculate default_weights
       (metrics_of [("vibration_rms"%string, 12.0); ("approach_temp"%string, 2.0);
                    ("phase_imbalance"%string, 1.0); ("kw_per_ton"%string, 0.55);
                    ("delta_t"%string, 5.5)]))
  = Some "vibration_rms"%string.
Proof.
  pose proof (primary_concern_selection default_weights
    (metrics_of [("vibration_rms"%string, 12.0); ("approach_temp"%string, 2.0);
                 ("phase_imbalance"%string, 1.0); ("kw_per_ton"%string, 0.55);
                 ("delta_t"%string, 5.5)])) as [_ H].
  match type of H with
  | forall l1 m l2, ?sc = _ -> _ =>
      specialize (H [] (hd (mkMetricScore "" 0 0 0 0 "" []) sc) (tl sc))
  end.
  apply H.
  - vm_compute. reflexivity.
  - vm_compute. reflexivity.
  - vm_compute. repeat constructor.
Defined.

End HealthFacts.

(** ** Scenario injection *)

Module GeneratorFacts.

Import Generator GeneratorSpec.

Lemma lookup_metadata (data : gmap string value) (a t : string) (metric : string) :
  ~ In metric metadata_keys ->
  (<["alarm_status"%string := VInt 0]>
     (<["operating_mode"%string := VStr "AUTO"]>
        (<["asset_id"%string := VStr a]>
           (<["time"%string := VStr t]> data)))) !! metric = data !! metric.
Proof.
  intros Hm. unfold metadata_keys in Hm. cbn in Hm.
  rewrite !lookup_insert_ne; [reflexivity| | | |]; intros Heq; subst metric; tauto.
Qed.

Lemma progress_in_unit_interval (elapsed duration : Z) :
  (0 <= elapsed < duration)%Z ->
  0 <= inject_Z elapsed / inject_Z duration < 1.
Proof.
  intros [H0 H1].
  assert (Hd : 0 < inject_Z duration).
  { change 0 with (inject_Z 0). rewrite <- Zlt_Qlt. lia. }
  split.
  - apply Qle_shift_div_l; [assumption|].
    rewrite Qmult_0_l. change 0 with (inject_Z 0). rewrite <- Zle_Qle. assumption.
  - apply Qlt_shift_div_r; [assumption|].
    rewrite Qmult_1_l. rewrite <- Zlt_Qlt. assumption.
Qed.

Lemma lookup_apply_scenario (g : ChillerDataGenerator) (sc : FailureScenario)
    (data : gmap string value) (progress : Q) (day : Z) (metric : string) :
  scenario g = Some sc ->
  _apply_scenario g data progress day !! metric =
  modified_value sc progress day metric <$> data !! metric.
Proof.
  intros Hsc. unfold _apply_scenario. rewrite Hsc, map_lookup_imap.
  destruct (data !! metric); reflexivity.
Qed.

(** Past the scenario's duration the base value is returned, and inside it
    the modifier's output is rounded to two decimals: day 20 and day 1 of the
    14-day electrical scenario attached at day 0. *)
Lemma scenario_value_not_modifier_output :
  let g := set_scenario (init "CH-001") (electrical_issue 14) 0 in
  let base := base_of [("current_r"%string, VFloat 200.3)] in
  (generate_reading g base "2024-01-21T00:00:00" 20%Z !! "current_r"%string = Some (VFloat 200.3) /\
   ~ 200.3 == current_r_modifier 200.3 (20 / 14) 20%Z) /\
  (generate_reading g base "2024-01-02T00:00:00" 1%Z !! "current_r"%string = Some (VFloat 202.45) /\
   ~ 202.45 == current_r_modifier 200.3 (1 / 14) 1%Z).
Proof.
  cbv zeta. split_and!.
  - vm_compute. reflexivity.
  - vm_compute. discriminate.
  - vm_compute. reflexivity.
  - vm_compute. discriminate.
Qed.

(** C4 (scenario injection), as the code has it.  With a scenario attached
    at start day [s], a reading generated for day [d], and a metric other
    than the four metadata keys: inside the active window
    [s <= d < s + duration_days], progress = (d - s) / duration_days lies in
    [0, 1) and a metric that is in the modifier map and holds a number in the
    base reading has its value replaced by the modifier's output at
    (base value, progress, d - s), rounded to two decimals (to the nearest
    integer when the base value is an int), every other metric keeping its
    base value; outside the window every metric keeps its base value. *)
Theorem scenario_injection (g0 : ChillerDataGenerator) (sc : FailureScenario) (s : Z)
    (base : gmap string value) (timestamp : string) (d : Z) (metric : string) :
  ~ In metric metadata_keys ->
  let g := set_scenario g0 sc s in
  let elapsed := (d - s)%Z in
  let progress := inject_Z elapsed / inject_Z (duration_days sc) in
  let r := generate_reading g base timestamp d in
  ((s <= d < s + duration_days sc)%Z ->
     0 <= progress < 1 /\
     r !! metric =
       match modifiers sc !! metric, base !! metric with
       | Some f, Some (VFloat x) => Some (VFloat (Py.round (f x progress elapsed) 2))
       | Some f, Some (VInt n) =>
           Some (VInt (Py.round_half_even (f (inject_Z n) progress elapsed)))
       | _, other => other
       end) /\
  ((d < s \/ s + duration_days sc <= d)%Z -> r !! metric = base !! metric).
Proof.
  intros Hm g elapsed progress r. subst g elapsed progress r.
  unfold generate_reading. rewrite lookup_metadata by assumption.
  cbn [scenario scenario_start_day set_scenario]. split.
  - intros [H1 H2]. split; [apply progress_in_unit_interval; lia|].
    assert (E1 : (s <=? d)%Z = true) by (apply Z.leb_le; lia).
    assert (E2 : (d - s <? duration_days sc)%Z = true) by (apply Z.ltb_lt; lia).
    rewrite E1, E2.
    rewrite (lookup_apply_scenario _ sc) by reflexivity.
    unfold modified_value, apply_modifier.
    destruct (modifiers sc !! metric) as [f|]; destruct (base !! metric) as [[n|x|str]|];
      reflexivity.
  - intros Hout. destruct (s <=? d)%Z eqn:E1; [|reflexivity].
    apply Z.leb_le in E1.
    assert (E2 : (d - s <? duration_days sc)%Z = false) by (apply Z.ltb_ge; lia).
    rewrite E2. reflexivity.
Qed.

Lemma scenario_injection_witness :
  let g := set_scenario (init "CH-001") (electrical_issue 14) 0 in
  let base := base_of [("current_r"%string, VFloat 200.3); ("start_stop_cycles"%string, VInt 2)] in
  0 <= inject_Z (7 - 0) / inject_Z 14 < 1 /\
  generate_reading g base "2024-01-08T00:00:00" 7%Z !! "current_r"%string =
    Some (VFloat (Py.round (current_r_modifier 200.3 (inject_Z (7 - 0) / inject_Z 14)
                              (7 - 0)%Z) 2)).
Proof.
  refine (proj1 (scenario_injection (init "CH-001") (electrical_issue 14) 0
                   (base_of [("current_r"%string, VFloat 200.3);
                             ("start_stop_cycles"%string, VInt 2)])
                   "2024-01-08T00:00:00" 7%Z "current_r" _) _).
  - unfold metadata_keys. cbn. intros [H|[H|[H|[H|[]]]]]; discriminate H.
  - cbn. lia.
Defined.

End GeneratorFacts.

(** ** The embedding on inputs of the test suite *)

Module Tests.

Import Spec HealthSpec.

(** The divisors of the scoring curves are positive for every entry of the
    thresholds table. *)
Lemma thresholds_ordered :
  Forall (fun e =>
            match snd e with
            | HealthScore.LowerBetter excellent good fair poor _ _ =>
                0 < excellent /\ excellent < good /\ good < fair /\ fair < poor
            | HealthScore.TargetRange _ eb gb fb pb _ _ =>
                0 < eb /\ eb < gb /\ gb < fb /\ fb < pb
            end)
    HealthScore.thresholds.
Proof. repeat constructor. Qed.

(** [test_zero_power_high_load_warning] *)
Example zero_power_high_load :
  let v := Validators.validate false
             (reading [("power_kw"%string, 0.0); ("load_percent"%string, 80.0)]) in
  Validators.is_valid v = true /\
  Validators.status v = "accepted_with_warnings"%string /\
  List.map Validators.rule_name (Validators.issues v) = ["power_load_consistency"%string].
Proof. cbv zeta. split_and!; vm_compute; reflexivity. Qed.

(** [test_equal_temps_rejected] *)
Example equal_temps_rejected :
  Validators.is_valid
    (Validators.validate false
       (reading [("chw_supply_temp"%string, 6.7); ("chw_return_temp"%string, 6.7)])) = false.
Proof. vm_compute. reflexivity. Qed.

(** [test_empty_data] *)
Example empty_data_accepted :
  Validators.validate false ∅ =
  {| Validators.is_valid := true; Validators.status := "accepted"; Validators.issues := [] |}.
Proof. vm_compute. reflexivity. Qed.

(** [test_all_excellent_metrics] *)
Example all_excellent_metrics :
  let r := HealthScore.calculate HealthScore.default_weights
             (metrics_of [("vibration_rms"%string, 1.5); ("approach_temp"%string, 1.8);
                          ("phase_imbalance"%string, 0.5); ("kw_per_ton"%string, 0.50);
                          ("delta_t"%string, 5.5)]) in
  90 <= HealthScore.overall_score r /\
  HealthScore.category r = HealthScore.EXCELLENT /\
  HealthScore.primary_concern r = None /\
  HealthScore.recommendations r = [].
Proof.
  cbv zeta. split_and!; [vm_compute; discriminate | vm_compute; reflexivity ..].
Qed.

(** [test_critical_metrics], [test_critical_has_urgent_recommendations] *)
Example critical_metrics :
  let r := HealthScore.calculate HealthScore.default_weights
             (metrics_of [("vibration_rms"%string, 15.0); ("approach_temp"%string, 8.0);
                          ("phase_imbalance"%string, 7.0); ("kw_per_ton"%string, 1.3);
                          ("delta_t"%string, 0.5)]) in
  HealthScore.overall_score r < 30 /\
  HealthScore.category r = HealthScore.CRITICAL /\
  HealthScore.recommendations r <> [].
Proof.
  cbv zeta. split_and!; [vm_compute; reflexivity | vm_compute; reflexivity
                        | vm_compute; discriminate].
Qed.

(** [test_empty_metrics] *)
Example empty_metrics_neutral :
  let r := HealthScore.calculate HealthScore.default_weights ∅ in
  HealthScore.overall_score r = 50.0 /\ HealthScore.breakdown r = [].
Proof. cbv zeta. split; vm_compute; reflexivity. Qed.

(** [test_zero_delta_t_returns_minimum] *)
Example zero_delta_t_minimum :
  Physics.calculate_cooling_tons Physics.default_constants 0 (Some 1000) = 0.1.
Proof. vm_compute. reflexivity. Qed.

End Tests.

(** ** More on the physics guard *)

Module ValidatorsMore.

Import Validators Spec ValidatorsSpec ValidatorsFacts.

(** Case analysis on membership in the issue list of a rule family. *)
Ltac split_issues :=
  repeat match goal with
         | H : In _ (_ ++ _) |- _ => apply in_app_or in H; destruct H as [H|H]
         | H : In _ (match ?x with _ => _ end) |- _ => destruct x eqn:?
         | H : In _ (if ?b then _ else _) |- _ => destruct b eqn:?
         | H : In _ [] |- _ => destruct H
         | H : In _ [_] |- _ => destruct H as [<-|[]]
         end.

Ltac to_props :=
  repeat match goal with
         | H : Py.lt _ _ = true |- _ => apply PyFacts.lt_true in H
         | H : Py.lt _ _ = false |- _ => apply PyFacts.lt_false in H
         | H : Py.le _ _ = true |- _ => apply PyFacts.le_true in H
         | H : Py.le _ _ = false |- _ => apply PyFacts.le_false in H
         | H : Py.gt _ _ = true |- _ => apply PyFacts.gt_true in H
         | H : Py.gt _ _ = false |- _ => apply PyFacts.gt_false in H
         | H : Py.eq _ _ = true |- _ => apply PyFacts.eq_true in H
         | H : Py.eq _ _ = false |- _ => apply not_true_iff_false in H;
                                         rewrite PyFacts.eq_true in H
         | H : _ && _ = true |- _ => apply andb_true_iff in H; destruct H
         | H : _ || _ = true |- _ => apply orb_true_iff in H
         | H : _ || _ = false |- _ => apply orb_false_iff in H; destruct H
         end.

(** *** Which family raises which severity *)

Lemma thermal_only_errors data :
  Forall (fun i => severity i = ERROR) (_validate_thermal_directionality data).
Proof.
  apply List.Forall_forall. intros i H. unfold _validate_thermal_directionality in H.
  split_issues; reflexivity.
Qed.

Lemma bounds_only_errors data :
  Forall (fun i => severity i = ERROR) (_validate_absolute_bounds data).
Proof.
  apply List.Forall_forall. intros i H. unfold _validate_absolute_bounds in H.
  cbn [List.map concat] in H. unfold current_issue in H.
  split_issues; reflexivity.
Qed.

Lemma derived_only_errors data :
  Forall (fun i => severity i = ERROR) (_validate_derived_metrics data).
Proof.
  apply List.Forall_forall. intros i H. unfold _validate_derived_metrics in H.
  split_issues; reflexivity.
Qed.

Lemma operational_only_warnings data :
  Forall (fun i => severity i = WARNING) (_validate_operational_consistency data).
Proof.
  apply List.Forall_forall. intros i H. unfold _validate_operational_consistency in H.
  split_issues; reflexivity.
Qed.

Lemma typical_check_no_error data entry i :
  In i (typical_range_check data entry) -> severity i <> ERROR.
Proof.
  destruct entry as [metric [lo hi]]. unfold typical_range_check. intros H.
  split_issues. unfold typical_range_issue. cbn.
  destruct (Py.gt _ 0.5); discriminate.
Qed.

Lemma typical_no_errors data :
  Forall (fun i => severity i <> ERROR) (_validate_typical_ranges data).
Proof.
  apply List.Forall_forall. intros i H. unfold _validate_typical_ranges in H.
  apply in_app_or in H. destruct H as [H|H].
  - apply in_concat in H. destruct H as (l & Hl & Hi).
    apply in_map_iff in Hl. destruct Hl as (entry & <- & _).
    eapply typical_check_no_error; eassumption.
  - split_issues; discriminate.
Qed.

(** *** Hard limits *)

Lemma hard_violation_raised data rule :
  hard_violation data rule ->
  exists i, In i (_validate_absolute_bounds data ++ _validate_derived_metrics data) /\
            severity i = ERROR /\ rule_name i = rule.
Proof.
  intros H. destruct H as [v Hv Hlt|v Hv Hlt|v Hv Hlt|v Hv Hlt|phase v Hp Hv Hlt
                          |v Hv Hlt|v Hv Hlt|d p Hd Hp Hlt Hle].
  - eexists. split.
    { apply in_or_app. left. unfold _validate_absolute_bounds. rewrite Hv.
      apply PyFacts.lt_true in Hlt. rewrite Hlt. apply in_or_app. left. left. reflexivity. }
    split; reflexivity.
  - eexists. split.
    { apply in_or_app. left. unfold _validate_absolute_bounds. rewrite Hv.
      assert (E : Py.lt v 0 = false) by (apply PyFacts.lt_false; lra).
      apply PyFacts.gt_true in Hlt. rewrite E, Hlt. apply in_or_app. left. left. reflexivity. }
    split; reflexivity.
  - eexists. split.
    { apply in_or_app. left. unfold _validate_absolute_bounds. rewrite Hv.
      apply PyFacts.lt_true in Hlt. rewrite Hlt.
      apply in_or_app. right. apply in_or_app. left. left. reflexivity. }
    split; reflexivity.
  - eexists. split.
    { apply in_or_app. left. unfold _validate_absolute_bounds. rewrite Hv.
      apply PyFacts.lt_true in Hlt. rewrite Hlt.
      do 2 (apply in_or_app; right). apply in_or_app. left. left. reflexivity. }
    split; reflexivity.
  - exists (bound_issue (phase ++ "_non_negative")
              ("Current (" ++ phase ++ ") cannot be negative")
              phase v ">= 0 A" "Check current transformer wiring and polarity").
    split; [|split; reflexivity].
    apply in_or_app. left. unfold _validate_absolute_bounds.
    do 3 (apply in_or_app; right). apply in_or_app. left.
    apply in_concat. exists (current_issue data phase). split.
    + apply in_map. assumption.
    + unfold current_issue. rewrite Hv.
      apply PyFacts.lt_true in Hlt. rewrite Hlt. left. reflexivity.
  - eexists. split.
    { apply in_or_app. left. unfold _validate_absolute_bounds. rewrite Hv.
      apply PyFacts.lt_true in Hlt. rewrite Hlt.
      do 4 (apply in_or_app; right). left. reflexivity. }
    split; reflexivity.
  - eexists. split.
    { apply in_or_app. right. unfold _validate_derived_metrics. rewrite Hv.
      apply PyFacts.lt_true in Hlt. rewrite Hlt. apply in_or_app. left. left. reflexivity. }
    split; reflexivity.
  - eexists. split.
    { apply in_or_app. right. unfold _validate_derived_metrics, get_or_zero.
      rewrite Hd, Hp. change (default 0 (Some p)) with p.
      apply PyFacts.gt_true in Hlt. apply PyFacts.le_true in Hle. rewrite Hlt, Hle.
      apply in_or_app. right. left. reflexivity. }
    split; reflexivity.
Qed.

Lemma hard_in_rules data i :
  In i (_validate_absolute_bounds data ++ _validate_derived_metrics data) ->
  In i (run_rules data).
Proof.
  intros H. unfold run_rules. apply in_app_or in H.
  apply in_or_app. right. apply in_or_app. destruct H as [H|H]; [left; assumption|].
  right. apply in_or_app. left. assumption.
Qed.

(** X1.  A reading that breaks a hard limit (negative load, load above 100,
    negative power, vibration, phase current, runtime hours or approach
    temperature, or a delta-T that is not positive while power is above
    10 kW) is rejected in either mode, and the returned issues hold an error
    carrying the name of the rule of that limit. *)
Theorem hard_limit_rejected (strict : bool) (data : gmap string Q) (rule : string) :
  hard_violation data rule ->
  let v := validate strict data in
  is_valid v = false /\ status v = "rejected"%string /\
  exists i, In i (issues v) /\ severity i = ERROR /\ rule_name i = rule.
Proof.
  intros Hv v. subst v. rewrite validate_classify.
  destruct (hard_violation_raised data rule Hv) as (i & Hin & Hs & Hr).
  apply hard_in_rules in Hin.
  assert (He : has_severity ERROR (run_rules data) = true).
  { apply has_severity_true. exists i. auto. }
  unfold classify. rewrite He. cbn. split_and!; try reflexivity. exists i. auto.
Qed.

Lemma hard_limit_rejected_witness :
  let v := validate true (reading [("current_y"%string, -3); ("load_percent"%string, 50)]) in
  is_valid v = false /\ status v = "rejected"%string /\
  exists i, In i (issues v) /\ severity i = ERROR /\
            rule_name i = ("current_y" ++ "_non_negative")%string.
Proof.
  apply (hard_limit_rejected true _ ("current_y" ++ "_non_negative")).
  apply (current_negative _ "current_y" (-3)).
  - right. left. reflexivity.
  - reflexivity.
  - vm_compute. reflexivity.
Defined.

(** *** Where rejections come from *)

Ltac find_violation :=
  to_props;
  first
    [ left; exists CHW; do 2 eexists; split_and!; [eassumption | eassumption | assumption]
    | left; exists CDW; do 2 eexists; split_and!; [eassumption | eassumption | assumption]
    | right; eexists; econstructor; solve [ eassumption | lra ]
    | right; eexists; eapply (current_negative _ "current_r");
      [cbn; tauto | eassumption | lra]
    | right; eexists; eapply (current_negative _ "current_y");
      [cbn; tauto | eassumption | lra]
    | right; eexists; eapply (current_negative _ "current_b");
      [cbn; tauto | eassumption | lra] ].

Lemma error_origin data i :
  In i (run_rules data) -> severity i = ERROR ->
  (exists l, thermal_violation data l) \/ (exists rule, hard_violation data rule).
Proof.
  intros Hin Hs. unfold run_rules in Hin.
  apply in_app_or in Hin. destruct Hin as [Hin|Hin].
  { unfold _validate_thermal_directionality in Hin. split_issues; find_violation. }
  apply in_app_or in Hin. destruct Hin as [Hin|Hin].
  { unfold _validate_absolute_bounds in Hin. cbn [List.map concat] in Hin.
    unfold current_issue in Hin. split_issues; find_violation. }
  apply in_app_or in Hin. destruct Hin as [Hin|Hin].
  { unfold _validate_derived_metrics, get_or_zero in Hin.
    destruct (data !! "power_kw"%string) as [p|] eqn:Hp.
    - change (default 0 (Some p)) with p in Hin. split_issues; find_violation.
    - change (default 0 None) with 0 in Hin. change (Py.gt 0 10) with false in Hin.
      split_issues; find_violation. }
  apply in_app_or in Hin. destruct Hin as [Hin|Hin].
  { pose proof (operational_only_warnings data) as H.
    rewrite List.Forall_forall in H. specialize (H _ Hin). congruence. }
  pose proof (typical_no_errors data) as H.
  rewrite List.Forall_forall in H. specialize (H _ Hin). contradiction.
Qed.

Lemma rejection_origin (data : gmap string Q) :
  status (validate false data) = "rejected"%string <->
  (exists l, thermal_violation data l) \/ (exists rule, hard_violation data rule).
Proof.
  rewrite validate_classify. split.
  - intros Hst.
    destruct (classify_cases false (run_rules data))
      as [(He & Hc) | [(He & Hw & Hs & Hc) | [(He & Hw & Hs & Hc) | (He & Hw & Hc)]]];
      rewrite Hc in Hst; cbn in Hst; try discriminate.
    apply has_severity_true in He. destruct He as (i & Hin & Hsev).
    exact (error_origin data i Hin Hsev).
  - intros Hv.
    assert (He : has_severity ERROR (run_rules data) = true).
    { apply has_severity_true. destruct Hv as [[l (lo & hi & Hlo & Hhi & Hle)]|[rule Hr]].
      - destruct (thermal_issue_raised data l lo hi Hlo Hhi Hle) as (i & Hin & Hs & _).
        exists i. split; [apply thermal_in_rules; assumption|assumption].
      - destruct (hard_violation_raised data rule Hr) as (i & Hin & Hs & _).
        exists i. split; [apply hard_in_rules; assumption|assumption]. }
    unfold classify. rewrite He. reflexivity.
Qed.

(** X2.  In normal mode a reading is rejected exactly when it violates the
    thermal direction of a loop or breaks a hard limit: operational
    inconsistencies and values outside the typical ranges never reject. *)
Theorem normal_rejection_iff (data : gmap string Q) :
  status (validate false data) = "rejected"%string <->
  (exists l, thermal_violation data l) \/ (exists rule, hard_violation data rule).
Proof. exact (rejection_origin data). Qed.

(** *** Readings without any issue *)

Lemma typical_checks_nil data :
  concat (List.map (typical_range_check data) typical_ranges) = [] <->
  (forall metric lo hi v,
     In (metric, (lo, hi)) typical_ranges -> data !! metric = Some v -> lo <= v <= hi).
Proof.
  rewrite concat_nil_Forall, List.Forall_forall. split.
  - intros H metric lo hi v Hin Hv.
    destruct (Qlt_le_dec v lo) as [Hlo|Hlo];
      [|destruct (Qlt_le_dec hi v) as [Hhi|Hhi]; [|split; assumption]].
    + specialize (H _ (in_map (typical_range_check data) _ _ Hin)).
      rewrite (typical_range_check_raises data metric lo hi v Hv (or_introl Hlo)) in H.
      discriminate.
    + specialize (H _ (in_map (typical_range_check data) _ _ Hin)).
      rewrite (typical_range_check_raises data metric lo hi v Hv (or_intror Hhi)) in H.
      discriminate.
  - intros H l Hl. apply in_map_iff in Hl. destruct Hl as ([metric [lo hi]] & <- & Hin).
    unfold typical_range_check. destruct (data !! metric) as [v|] eqn:Hv; [|reflexivity].
    destruct (H metric lo hi v Hin Hv) as [H1 H2].
    apply PyFacts.lt_false in H1. apply PyFacts.gt_false in H2. rewrite H1, H2. reflexivity.
Qed.

Lemma nominal_no_issue data : nominal data -> run_rules data = [].
Proof.
  intros [Hth Hty Hnn Hco]. unfold run_rules.
  assert (Hload : forall v, data !! "load_percent"%string = Some v -> 0 <= v <= 100).
  { intros v Hv. pose proof (Hty "load_percent"%string 0.0 100.0 v) as H.
    cbn in H. specialize (H ltac:(tauto) Hv). lra. }
  assert (Hpow : forall v, data !! "power_kw"%string = Some v -> 0 <= v).
  { intros v Hv. pose proof (Hty "power_kw"%string 0.0 2000.0 v) as H.
    cbn in H. specialize (H ltac:(tauto) Hv). lra. }
  assert (Hvib : forall v, data !! "vibration_rms"%string = Some v -> 0 <= v).
  { intros v Hv. pose proof (Hty "vibration_rms"%string 0.0 15.0 v) as H.
    cbn in H. specialize (H ltac:(tauto) Hv). lra. }
  assert (Happ : forall v, data !! "approach_temp"%string = Some v -> 0.5 <= v).
  { intros v Hv. pose proof (Hty "approach_temp"%string 0.5 10.0 v) as H.
    cbn in H. specialize (H ltac:(tauto) Hv). lra. }
  assert (Hdt : forall v, data !! "delta_t"%string = Some v -> 1.5 <= v).
  { intros v Hv. pose proof (Hty "delta_t"%string 1.5 12.0 v) as H.
    cbn in H. specialize (H ltac:(tauto) Hv). lra. }
  assert (Hkw : forall v, data !! "kw_per_ton"%string = Some v -> 0.35 <= v <= 1.5).
  { intros v Hv. pose proof (Hty "kw_per_ton"%string 0.35 1.5 v) as H.
    cbn in H. specialize (H ltac:(tauto) Hv). lra. }
  assert (E1 : _validate_thermal_directionality data = []).
  { unfold _validate_thermal_directionality.
    destruct (data !! "chw_supply_temp"%string) as [s|] eqn:Es;
      destruct (data !! "chw_return_temp"%string) as [r|] eqn:Er;
      destruct (data !! "cdw_inlet_temp"%string) as [i|] eqn:Ei;
      destruct (data !! "cdw_outlet_temp"%string) as [o|] eqn:Eo;
      try reflexivity;
      repeat match goal with
             | |- context [Py.le r s] =>
                 pose proof (Hth CHW s r Es Er) as Hlt1;
                 apply PyFacts.le_false in Hlt1; rewrite Hlt1
             | |- context [Py.le o i] =>
                 pose proof (Hth CDW i o Ei Eo) as Hlt2;
                 apply PyFacts.le_false in Hlt2; rewrite Hlt2
             end; reflexivity. }
  assert (E2 : _validate_absolute_bounds data = []).
  { unfold _validate_absolute_bounds. cbn [List.map concat]. unfold current_issue.
    repeat match goal with
           | |- context [match data !! ?k with _ => _ end] =>
               let E := fresh "E" in
               destruct (data !! k) as [?v|] eqn:E
           end;
      repeat match goal with
             | H : forall u, Some ?v = Some u -> _ |- _ =>
                 pose proof (H v eq_refl); clear H
             | E : data !! ?k = Some ?v |- _ =>
                 pose proof (Hnn k v ltac:(cbn; tauto) E); clear E
             end;
      repeat match goal with
             | |- context [Py.lt ?v 0] =>
                 let E := fresh "E" in
                 assert (E : Py.lt v 0 = false) by (apply PyFacts.lt_false; lra);
                 rewrite E; clear E
             | |- context [Py.gt ?v 100] =>
                 let E := fresh "E" in
                 assert (E : Py.gt v 100 = false) by (apply PyFacts.gt_false; lra);
                 rewrite E; clear E
             end; reflexivity. }
  assert (E3 : _validate_derived_metrics data = []).
  { unfold _validate_derived_metrics.
    destruct (data !! "approach_temp"%string) as [a|] eqn:Ea;
      destruct (data !! "delta_t"%string) as [d|] eqn:Ed;
      try pose proof (Happ a eq_refl); try pose proof (Hdt d eq_refl);
      repeat match goal with
             | |- context [Py.lt a 0] =>
                 let E := fresh "E" in
                 assert (E : Py.lt a 0 = false) by (apply PyFacts.lt_false; lra);
                 rewrite E; clear E
             | |- context [Py.le d 0] =>
                 let E := fresh "E" in
                 assert (E : Py.le d 0 = false) by (apply PyFacts.le_false; lra);
                 rewrite E; clear E
             end;
      try destruct (Py.gt (get_or_zero data "power_kw") 10); reflexivity. }
  assert (E4 : _validate_operational_consistency data = []).
  { unfold _validate_operational_consistency, get_or_zero.
    destruct Hco as [(p & Hp & Hnz)|[Hl Hv]].
    - rewrite Hp. change (default 0 (Some p)) with p.
      assert (E : Py.eq p 0 = false).
      { apply not_true_iff_false. rewrite PyFacts.eq_true. assumption. }
      rewrite E. reflexivity.
    - assert (El : match data !! "load_percent"%string with
                   | Some lp => if Py.gt lp 10 then [power_load_issue lp] else []
                   | None => []
                   end = []).
      { destruct (data !! "load_percent"%string) as [lp|] eqn:E; [|reflexivity].
        specialize (Hl lp eq_refl). apply PyFacts.gt_false in Hl. rewrite Hl. reflexivity. }
      assert (Ev : Py.gt (default 0 (data !! "vibration_rms"%string)) 5.0 = false).
      { apply PyFacts.gt_false.
        destruct (data !! "vibration_rms"%string) as [vib|] eqn:E.
        - specialize (Hv vib eq_refl). change (default 0 (Some vib)) with vib. lra.
        - change (default 0 None) with 0. lra. }
      rewrite El, Ev, andb_false_r. destruct (Py.eq _ 0); reflexivity. }
  assert (E5 : _validate_typical_ranges data = []).
  { unfold _validate_typical_ranges.
    rewrite (proj2 (typical_checks_nil data) Hty). cbn [app].
    destruct (data !! "kw_per_ton"%string) as [k|] eqn:Ek; [|reflexivity].
    destruct (Hkw k eq_refl) as [H1 H2].
    apply PyFacts.lt_false in H1. apply PyFacts.gt_false in H2. rewrite H1, H2.
    destruct (Py.gt k 0); reflexivity. }
  rewrite E1, E2, E3, E4, E5. reflexivity.
Qed.

Lemma no_issue_nominal data : run_rules data = [] -> nominal data.
Proof.
  unfold run_rules. intros Hnil.
  apply app_eq_nil in Hnil. destruct Hnil as [E1 Hnil].
  apply app_eq_nil in Hnil. destruct Hnil as [E2 Hnil].
  apply app_eq_nil in Hnil. destruct Hnil as [E3 Hnil].
  apply app_eq_nil in Hnil. destruct Hnil as [E4 E5].
  split.
  - intros l lo hi Hlo Hhi. destruct (Qlt_le_dec lo hi) as [H|H]; [assumption|].
    destruct (thermal_issue_raised data l lo hi Hlo Hhi H) as (i & Hin & _).
    rewrite E1 in Hin. destruct Hin.
  - unfold _validate_typical_ranges in E5. apply app_eq_nil in E5. destruct E5 as [E5 _].
    apply typical_checks_nil. assumption.
  - intros key v Hkey Hv. destruct (Qlt_le_dec v 0) as [H|H]; [|assumption].
    assert (Hviol : exists rule, hard_violation data rule).
    { cbn in Hkey. destruct Hkey as [<-|[<-|[<-|[<-|[]]]]].
      - eexists. eapply (current_negative _ "current_r"); [cbn; tauto|eassumption|assumption].
      - eexists. eapply (current_negative _ "current_y"); [cbn; tauto|eassumption|assumption].
      - eexists. eapply (current_negative _ "current_b"); [cbn; tauto|eassumption|assumption].
      - eexists. eapply runtime_negative; eassumption. }
    destruct Hviol as [rule Hviol].
    destruct (hard_violation_raised data rule Hviol) as (i & Hin & _).
    rewrite E2, E3 in Hin. destruct Hin.
  - unfold _validate_operational_consistency, get_or_zero in E4.
    apply app_eq_nil in E4. destruct E4 as [El Ev].
    destruct (data !! "power_kw"%string) as [p|] eqn:Hp.
    + change (default 0 (Some p)) with p in El, Ev.
      destruct (Py.eq p 0) eqn:Ep.
      * right. split.
        -- intros lp Hlp. rewrite Hlp in El.
           destruct (Py.gt lp 10) eqn:Eg; [discriminate|].
           apply PyFacts.gt_false in Eg. assumption.
        -- intros vib Hvib. rewrite Hvib in Ev. change (default 0 (Some vib)) with vib in Ev.
           cbn [andb] in Ev. destruct (Py.gt vib 5.0) eqn:Eg; [discriminate|].
           apply PyFacts.gt_false in Eg. lra.
      * left. exists p. split; [reflexivity|].
        apply not_true_iff_false in Ep. rewrite PyFacts.eq_true in Ep. assumption.
    + change (default 0 None) with 0 in El, Ev. change (Py.eq 0 0) with true in El, Ev.
      right. split.
      * intros lp Hlp. rewrite Hlp in El.
        destruct (Py.gt lp 10) eqn:Eg; [discriminate|].
        apply PyFacts.gt_false in Eg. assumption.
      * intros vib Hvib. rewrite Hvib in Ev. change (default 0 (Some vib)) with vib in Ev.
        cbn [andb] in Ev. destruct (Py.gt vib 5.0) eqn:Eg; [discriminate|].
        apply PyFacts.gt_false in Eg. lra.
Qed.

(** X3.  In either mode [validate] returns an empty issue list exactly for
    the nominal readings: both loops, where measured, flow in the right
    direction; every metric present that has a typical range lies within it;
    phase currents and runtime hours are not negative; and power is measured
    and non-zero, or load is at most 10 % and vibration at most 5 mm/s.  Such
    a reading is accepted. *)
Theorem no_issue_iff_nominal (strict : bool) (data : gmap string Q) :
  (issues (validate strict data) = [] <-> nominal data) /\
  (nominal data ->
   validate strict data = {| is_valid := true; status := "accepted"; issues := [] |}).
Proof.
  rewrite validate_classify. split; [split|].
  - intros Hnil. apply no_issue_nominal.
    destruct (classify_cases strict (run_rules data))
      as [(He & Hc) | [(He & Hw & Hs & Hc) | [(He & Hw & Hs & Hc) | (He & Hw & Hc)]]];
      rewrite Hc in Hnil; cbn in Hnil; try assumption.
    destruct (run_rules data); [reflexivity|discriminate].
  - intros Hn. rewrite (nominal_no_issue data Hn). reflexivity.
  - intros Hn. rewrite (nominal_no_issue data Hn). reflexivity.
Qed.

Lemma no_issue_iff_nominal_witness :
  validate true (reading [("chw_supply_temp"%string, 6.7); ("chw_return_temp"%string, 12.2);
                          ("power_kw"%string, 280); ("load_percent"%string, 80)])
  = {| is_valid := true; status := "accepted"; issues := [] |}.
Proof.
  apply (proj2 (no_issue_iff_nominal true _)).
  apply no_issue_nominal. vm_compute. reflexivity.
Defined.

(** *** Strict and normal mode *)

(** X4.  Strict mode accepts exactly the readings normal mode accepts
    without warnings; it never answers ["accepted_with_warnings"]; and the
    two modes return the same verdict, issues included, on every reading
    that normal mode does not accept with warnings. *)
Theorem strict_versus_normal (data : gmap string Q) :
  let n := validate false data in
  let s := validate true data in
  (is_valid s = true <-> status n = "accepted"%string) /\
  status s <> "accepted_with_warnings"%string /\
  (status n <> "accepted_with_warnings"%string -> s = n).
Proof.
  cbv zeta. rewrite !validate_classify. unfold classify.
  destruct (has_severity ERROR (run_rules data));
    [|destruct (has_severity WARNING (run_rules data))]; cbn.
  - split_and!; [split; discriminate | discriminate | reflexivity].
  - split_and!; [split; discriminate | discriminate | congruence].
  - split_and!; [split; reflexivity | discriminate | reflexivity].
Qed.

(** *** Counting the issues *)

Lemma count_zero s l :
  length (List.filter (fun i => severity_eqb (severity i) s) l) = 0%nat <->
  has_severity s l = false.
Proof.
  unfold has_severity. induction l as [|i l IH]; cbn; [tauto|].
  destruct (severity_eqb (severity i) s); cbn; [split; discriminate|exact IH].
Qed.

Lemma count_partition (l : list ValidationIssue) :
  (length (List.filter (fun i => severity_eqb (severity i) ERROR) l)
   + length (List.filter (fun i => severity_eqb (severity i) WARNING) l)
   + length (List.filter (fun i => severity_eqb (severity i) INFO) l))%nat = length l.
Proof.
  induction l as [|i l IH]; [reflexivity|].
  cbn [List.filter]. destruct (severity i); cbn; lia.
Qed.

(** X5.  In the dictionary [to_dict] builds from a verdict of [validate],
    the three counts add up to the number of issues and each issue is
    listed; the verdict is valid exactly when the error count is zero, and
    its status is ["accepted"] exactly when the error and warning counts are
    both zero. *)
Theorem to_dict_counts (strict : bool) (data : gmap string Q) :
  let d := to_dict (validate strict data) in
  (error_count d + warning_count d + info_count d)%nat = length (dict_issues d) /\
  (dict_is_valid d = true <-> error_count d = 0%nat) /\
  (dict_status d = "accepted"%string <-> error_count d = 0%nat /\ warning_count d = 0%nat).
Proof.
  cbv zeta. unfold to_dict. cbn [error_count warning_count info_count dict_issues
                                 dict_is_valid dict_status].
  rewrite length_map, count_partition, !count_zero.
  rewrite validate_classify.
  destruct (classify_cases strict (run_rules data))
    as [(He & ->) | [(He & Hw & Hs & ->) | [(He & Hw & Hs & ->) | (He & Hw & ->)]]];
    cbn [is_valid status issues].
  - split_and!; [reflexivity | split; congruence | split; [discriminate|intros [? _]; congruence]].
  - apply has_severity_true in Hw. apply some_warning_promoted in Hw.
    apply has_severity_true in Hw.
    split_and!; [reflexivity | split; congruence | split; [discriminate|intros [? _]; congruence]].
  - split_and!; [reflexivity | tauto | split; [discriminate|intros [_ ?]; congruence]].
  - split_and!; [reflexivity | tauto | tauto].
Qed.

(** *** Implausible efficiency *)

Lemma typical_check_in_rules data entry i :
  In entry typical_ranges -> In i (typical_range_check data entry) -> In i (run_rules data).
Proof.
  intros He Hi. unfold run_rules, _validate_typical_ranges.
  do 4 (apply in_or_app; right). apply in_or_app. left.
  apply in_concat. exists (typical_range_check data entry). split; [|assumption].
  apply in_map. assumption.
Qed.

(** X6.  A kW/ton above 1.5, or positive and below 0.35, is reported twice,
    by the typical-range check and by a dedicated warning, so the reading is
    never plainly accepted: normal mode answers at best
    ["accepted_with_warnings"] and strict mode rejects it. *)
Theorem implausible_kw_per_ton (data : gmap string Q) (k : Q) :
  data !! "kw_per_ton"%string = Some k ->
  0 < k < 0.35 \/ 1.5 < k ->
  (exists i, In i (run_rules data) /\ rule_name i = "kw_per_ton_typical_range"%string) /\
  (exists i, In i (run_rules data) /\ severity i = WARNING /\
             rule_name i = (if Py.lt k 0.35 then "kw_per_ton_too_efficient"
                            else "kw_per_ton_very_poor")%string) /\
  status (validate false data) <> "accepted"%string /\
  is_valid (validate true data) = false.
Proof.
  intros Hk Hout.
  assert (H1 : exists i, In i (run_rules data) /\
                         rule_name i = "kw_per_ton_typical_range"%string).
  { exists (typical_range_issue "kw_per_ton" 0.35 1.5 k). split; [|reflexivity].
    apply (typical_check_in_rules data ("kw_per_ton"%string, (0.35, 1.5))).
    - cbn. tauto.
    - rewrite (typical_range_check_raises data _ 0.35 1.5 k Hk); [left; reflexivity|].
      destruct Hout; [left|right]; lra. }
  assert (H2 : exists i, In i (run_rules data) /\ severity i = WARNING /\
             rule_name i = (if Py.lt k 0.35 then "kw_per_ton_too_efficient"
                            else "kw_per_ton_very_poor")%string).
  { assert (Hpos : Py.gt k 0 = true) by (apply PyFacts.gt_true; destruct Hout; lra).
    destruct (Py.lt k 0.35) eqn:Elt.
    - eexists. split.
      { unfold run_rules, _validate_typical_ranges. do 5 (apply in_or_app; right).
        rewrite Hk, Hpos, Elt. left. reflexivity. }
      split; reflexivity.
    - assert (Hgt : Py.gt k 1.5 = true).
      { apply PyFacts.gt_true. apply PyFacts.lt_false in Elt. destruct Hout; lra. }
      eexists. split.
      { unfold run_rules, _validate_typical_ranges. do 5 (apply in_or_app; right).
        rewrite Hk, Hpos, Elt, Hgt. left. reflexivity. }
      split; reflexivity. }
  split_and!; [exact H1 | exact H2 | |].
  - destruct H2 as (i & Hin & Hs & _).
    assert (Hw : has_severity WARNING (run_rules data) = true).
    { apply has_severity_true. exists i. auto. }
    rewrite validate_classify. unfold classify. rewrite Hw.
    destruct (has_severity ERROR (run_rules data)); discriminate.
  - destruct H2 as (i & Hin & Hs & _).
    assert (Hw : has_severity WARNING (run_rules data) = true).
    { apply has_severity_true. exists i. auto. }
    rewrite validate_classify. unfold classify. rewrite Hw.
    destruct (has_severity ERROR (run_rules data)); reflexivity.
Qed.

Lemma implausible_kw_per_ton_witness :
  status (validate false (reading [("kw_per_ton"%string, 0.30)])) <> "accepted"%string /\
  is_valid (validate true (reading [("kw_per_ton"%string, 0.30)])) = false.
Proof.
  refine (proj2 (proj2 (implausible_kw_per_ton
                          (reading [("kw_per_ton"%string, 0.30)]) 0.30 _ _))).
  - reflexivity.
  - left. split; vm_compute; reflexivity.
Defined.

(** *** Severity of a value outside its typical range *)

Lemma lt_div_iff (a b m : Q) : 0 < m -> (a < b / m <-> a * m < b).
Proof.
  intros Hm. split; intros H.
  - apply (Qmult_lt_r _ _ m Hm) in H.
    assert (E : b / m * m == b) by (field; lra). rewrite E in H. exact H.
  - apply Qlt_shift_div_l; assumption.
Qed.

Lemma bound_magnitude_positive (b : Q) : 0 < Py.max (Py.abs b) 1.
Proof. pose proof (PyFacts.max_r (Py.abs b) 1). lra. Qed.

(** X7.  For a metric present with value [v] and typical range [lo, hi]:
    inside the range the check raises nothing; outside it raises one issue
    named after the metric, carrying the value rounded to two decimals,
    whose severity is warning when the value lies beyond the violated bound
    by more than half that bound's magnitude (at least 1), and info
    otherwise. *)
Theorem typical_range_severity (data : gmap string Q) (metric : string) (lo hi v : Q) :
  data !! metric = Some v ->
  (lo <= v <= hi -> typical_range_check data (metric, (lo, hi)) = []) /\
  (v < lo \/ hi < v ->
   exists i,
     typical_range_check data (metric, (lo, hi)) = [i] /\
     rule_name i = (metric ++ "_typical_range")%string /\
     actual_value i = Some (Py.round v 2) /\
     (severity i = WARNING <->
        (v < lo /\ 0.5 * Py.max (Py.abs lo) 1 < lo - v) \/
        (lo <= v /\ 0.5 * Py.max (Py.abs hi) 1 < v - hi)) /\
     (severity i = WARNING \/ severity i = INFO)).
Proof.
  intros Hv. split.
  - intros [H1 H2]. unfold typical_range_check. rewrite Hv.
    apply PyFacts.lt_false in H1. apply PyFacts.gt_false in H2. rewrite H1, H2. reflexivity.
  - intros Hout. exists (typical_range_issue metric lo hi v).
    split; [apply typical_range_check_raises; assumption|].
    split; [reflexivity|]. split; [reflexivity|].
    unfold typical_range_issue. cbn [severity].
    pose proof (bound_magnitude_positive lo) as Hmlo.
    pose proof (bound_magnitude_positive hi) as Hmhi.
    destruct (Py.lt v lo) eqn:Elt.
    + apply PyFacts.lt_true in Elt.
      destruct (Py.gt ((lo - v) / Py.max (Py.abs lo) 1) 0.5) eqn:Eg.
      * apply PyFacts.gt_true, lt_div_iff in Eg; [|assumption].
        split; [|left; reflexivity]. split; [intros _; left; split; assumption|reflexivity].
      * apply PyFacts.gt_false in Eg. split; [|right; reflexivity].
        split; [discriminate|]. intros [[_ H]|[H _]]; [|lra].
        apply (lt_div_iff 0.5 (lo - v)) in H; [lra|assumption].
    + apply PyFacts.lt_false in Elt.
      destruct (Py.gt ((v - hi) / Py.max (Py.abs hi) 1) 0.5) eqn:Eg.
      * apply PyFacts.gt_true, lt_div_iff in Eg; [|assumption].
        split; [|left; reflexivity]. split; [intros _; right; split; assumption|reflexivity].
      * apply PyFacts.gt_false in Eg. split; [|right; reflexivity].
        split; [discriminate|]. intros [[H _]|[_ H]]; [lra|].
        apply (lt_div_iff 0.5 (v - hi)) in H; [lra|assumption].
Qed.

Lemma typical_range_severity_witness :
  let data := reading [("vibration_rms"%string, 20.0)] in
  exists i,
    typical_range_check data ("vibration_rms"%string, (0.0, 15.0)) = [i] /\
    rule_name i = ("vibration_rms" ++ "_typical_range")%string /\
    actual_value i = Some (Py.round 20.0 2) /\
    (severity i = WARNING <->
       (20.0 < 0.0 /\ 0.5 * Py.max (Py.abs 0.0) 1 < 0.0 - 20.0) \/
       (0.0 <= 20.0 /\ 0.5 * Py.max (Py.abs 15.0) 1 < 20.0 - 15.0)) /\
    (severity i = WARNING \/ severity i = INFO).
Proof.
  refine (proj2 (typical_range_severity (reading [("vibration_rms"%string, 20.0)])
                   "vibration_rms" 0.0 15.0 20.0 _) _).
  - reflexivity.
  - right. vm_compute. reflexivity.
Defined.

(** *** Readings that passed the input model *)

Lemma input_model_no_hard_violation data rule :
  ApiModels.accepted_by_input_model data -> ~ hard_violation data rule.
Proof.
  intros Hin Hv.
  assert (Hb : forall key v, data !! key = Some v ->
             exists ge le, In (key, (ge, le)) ApiModels.SensorDataInput_fields /\
                           ge <= v /\ (forall u, le = Some u -> v <= u)) by exact Hin.
  destruct Hv as [v Hv Hlt|v Hv Hlt|v Hv Hlt|v Hv Hlt|phase v Hp Hv Hlt
                 |v Hv Hlt|v Hv Hlt|d p Hd Hp Hlt Hle];
    try (cbn in Hp; destruct Hp as [<-|[<-|[<-|[]]]]);
    try (destruct (Hb _ _ Hv) as (ge & le & Hf & Hge & Hle');
         cbn in Hf;
         repeat (destruct Hf as [Hf|Hf]; [try discriminate Hf; inversion Hf; subst|]);
         try contradiction;
         try (specialize (Hle' _ eq_refl)); lra).
  destruct (Hb _ _ Hd) as (ge & le & Hf & _). cbn in Hf.
  repeat (destruct Hf as [Hf|Hf]; [discriminate Hf|]). contradiction.
Qed.

(** X8.  A reading that satisfies the field constraints of the ingestion
    model [SensorDataInput] cannot break a hard limit: normal mode rejects it
    exactly when the thermal direction of a loop is violated. *)
Theorem ingested_rejection_iff (data : gmap string Q) :
  ApiModels.accepted_by_input_model data ->
  (status (validate false data) = "rejected"%string <-> exists l, thermal_violation data l).
Proof.
  intros Hin. rewrite rejection_origin. split.
  - intros [H|[rule H]]; [assumption|].
    exfalso. exact (input_model_no_hard_violation data rule Hin H).
  - intros H. left. assumption.
Qed.

Lemma ingested_rejection_iff_witness :
  let data := reading [("chw_supply_temp"%string, 12.2); ("chw_return_temp"%string, 6.7)] in
  status (validate false data) = "rejected"%string <-> exists l, thermal_violation data l.
Proof.
  apply (ingested_rejection_iff
           (reading [("chw_supply_temp"%string, 12.2); ("chw_return_temp"%string, 6.7)])).
  intros key v H. unfold reading in H. cbn [list_to_map foldr uncurry] in H.
  apply lookup_insert_Some in H. destruct H as [[<- <-]|[_ H]].
  - exists (-10), (Some 30). split_and!.
    + cbn. tauto.
    + vm_compute. discriminate.
    + intros u Hu. inversion Hu. vm_compute. discriminate.
  - apply lookup_insert_Some in H. destruct H as [[<- <-]|[_ H]].
    + exists (-10), (Some 35). split_and!.
      * cbn. tauto.
      * vm_compute. discriminate.
      * intros u Hu. inversion Hu. vm_compute. discriminate.
    + rewrite lookup_empty in H. discriminate H.
Defined.

End ValidatorsMore.

(** ** More on the derived metrics *)

Module PhysicsMore.

Import Physics.

(** *** Comparisons and extrema respect equality of numbers *)

Lemma lt_compat a a' b b' : a == a' -> b == b' -> Py.lt a b = Py.lt a' b'.
Proof.
  intros Ha Hb. destruct (Py.lt a b) eqn:E1, (Py.lt a' b') eqn:E2; try reflexivity.
  - apply PyFacts.lt_true in E1. apply PyFacts.lt_false in E2. lra.
  - apply PyFacts.lt_false in E1. apply PyFacts.lt_true in E2. lra.
Qed.

Lemma le_compat a a' b b' : a == a' -> b == b' -> Py.le a b = Py.le a' b'.
Proof.
  intros Ha Hb. destruct (Py.le a b) eqn:E1, (Py.le a' b') eqn:E2; try reflexivity.
  - apply PyFacts.le_true in E1. apply PyFacts.le_false in E2. lra.
  - apply PyFacts.le_false in E1. apply PyFacts.le_true in E2. lra.
Qed.

#[global] Instance max_proper : Proper (Qeq ==> Qeq ==> Qeq) Py.max.
Proof.
  intros a a' Ha b b' Hb.
  destruct (PyFacts.max_cases a b) as [[-> H]|[-> H]];
    destruct (PyFacts.max_cases a' b') as [[-> H']|[-> H']]; lra.
Qed.

#[global] Instance min_proper : Proper (Qeq ==> Qeq ==> Qeq) Py.min.
Proof.
  intros a a' Ha b b' Hb.
  destruct (PyFacts.min_cases a b) as [[-> H]|[-> H]];
    destruct (PyFacts.min_cases a' b') as [[-> H']|[-> H']]; lra.
Qed.

#[global] Instance abs_proper : Proper (Qeq ==> Qeq) Py.abs.
Proof. intros a a' Ha. unfold Py.abs. rewrite Ha. reflexivity. Qed.

Lemma max_comm a b : Py.max a b == Py.max b a.
Proof.
  destruct (PyFacts.max_cases a b) as [[-> H]|[-> H]];
    destruct (PyFacts.max_cases b a) as [[-> H']|[-> H']]; lra.
Qed.

Lemma max_swap a b c : Py.max (Py.max a b) c == Py.max (Py.max a c) b.
Proof.
  destruct (PyFacts.max_cases a b) as [[-> H1]|[-> H1]];
    destruct (PyFacts.max_cases a c) as [[-> H2]|[-> H2]];
    repeat match goal with
           | |- context [Py.max ?x ?y] =>
               let H := fresh in
               destruct (PyFacts.max_cases x y) as [[-> H]|[-> H]]
           end; lra.
Qed.

Lemma max_le_iff a b m : Py.max a b <= m <-> a <= m /\ b <= m.
Proof. destruct (PyFacts.max_cases a b) as [[-> H]|[-> H]]; split; intros; try split; lra. Qed.

Lemma abs_le_iff x y : Py.abs x <= y <-> - y <= x <= y.
Proof. apply Qabs_Qle_condition. Qed.

Lemma abs_nonneg x : 0 <= Py.abs x.
Proof. apply Qabs_nonneg. Qed.

(** *** Efficiency and capacity *)

(** X9.  [calculate_kw_per_ton] is 0 exactly when power is not positive;
    with positive power it is power divided by the cooling capacity, hence
    positive and at most ten times the power: the test [tons < 0.1] of the
    code never succeeds. *)
Theorem kw_per_ton_cases (c : PhysicsConstants) (power_kw delta_t : Q) (flow : option Q) :
  (power_kw <= 0 -> calculate_kw_per_ton c power_kw delta_t flow = 0.0) /\
  (0 < power_kw ->
   calculate_kw_per_ton c power_kw delta_t flow =
     power_kw / calculate_cooling_tons c delta_t flow /\
   0 < calculate_kw_per_ton c power_kw delta_t flow <= 10 * power_kw).
Proof.
  unfold calculate_kw_per_ton. split.
  - intros H. apply PyFacts.le_true in H. rewrite H. reflexivity.
  - intros H. assert (E : Py.le power_kw 0 = false) by (apply PyFacts.le_false; assumption).
    rewrite E.
    pose proof (PhysicsFacts.cooling_tons_floor c delta_t flow) as Ht.
    set (tons := calculate_cooling_tons c delta_t flow) in *.
    assert (E2 : Py.lt tons 0.1 = false) by (apply PyFacts.lt_false; assumption).
    rewrite E2. split; [reflexivity|]. split.
    + apply Qlt_shift_div_l; lra.
    + apply Qle_shift_div_r; [lra|]. nra.
Qed.

(** X10.  With the default constants the cooling capacity is
    0.075 × flow × delta-T (flow in GPM, 1000 when not measured, delta-T in
    °C) whenever that product reaches 0.1 ton, and the floor 0.1 otherwise;
    in particular a zero or reversed delta-T with a non-negative flow gives
    0.1. *)
Theorem cooling_tons_closed_form (delta_t : Q) (flow : option Q) :
  let f := default 1000.0 flow in
  (0.1 <= 0.075 * f * delta_t ->
   calculate_cooling_tons default_constants delta_t flow == 0.075 * f * delta_t) /\
  (0.075 * f * delta_t < 0.1 ->
   calculate_cooling_tons default_constants delta_t flow = 0.1) /\
  (0 <= f -> delta_t <= 0 -> calculate_cooling_tons default_constants delta_t flow = 0.1).
Proof.
  intros f. unfold calculate_cooling_tons. cbn [DEFAULT_CHW_FLOW_GPM GPM_FACTOR
    BTU_PER_TON_HOUR default_constants]. fold f.
  assert (E : f * (delta_t * 9.0 / 5.0) * 500 / 12000 == 0.075 * f * delta_t) by field.
  unfold Py.max.
  split_and!.
  - intros H.
    assert (Eg : Py.gt 0.1 (f * (delta_t * 9.0 / 5.0) * 500 / 12000) = false)
      by (apply PyFacts.gt_false; lra).
    rewrite Eg. exact E.
  - intros H.
    assert (Eg : Py.gt 0.1 (f * (delta_t * 9.0 / 5.0) * 500 / 12000) = true)
      by (apply PyFacts.gt_true; lra).
    rewrite Eg. reflexivity.
  - intros Hf Hd.
    assert (Eg : Py.gt 0.1 (f * (delta_t * 9.0 / 5.0) * 500 / 12000) = true)
      by (apply PyFacts.gt_true; nra).
    rewrite Eg. reflexivity.
Qed.

Lemma cooling_tons_closed_form_witness :
  calculate_cooling_tons default_constants 5.0 (Some 500) == 0.075 * 500 * 5.0.
Proof.
  apply (proj1 (cooling_tons_closed_form 5.0 (Some 500))).
  vm_compute. discriminate.
Defined.

(** *** Phase imbalance *)

Lemma phase_imbalance_unfold (r y b : Q) :
  let avg := (0 + r + y + b) / 3 in
  calculate_phase_imbalance r y b =
  if Py.le r 0 && (Py.le y 0 && (Py.le b 0 && true)) then 0.0
  else if Py.lt avg 0.1 then 0.0
  else Py.max (Py.max (Py.abs (r - avg)) (Py.abs (y - avg))) (Py.abs (b - avg)) / avg * 100.
Proof. reflexivity. Qed.

(** X11.  The phase imbalance is never negative; it is 0 when the mean
    current is below 0.1 A and when the three currents are equal; and for
    non-negative currents it is at most 200 %. *)
Theorem phase_imbalance_range (r y b : Q) :
  0 <= calculate_phase_imbalance r y b /\
  ((r + y + b) / 3 < 0.1 -> calculate_phase_imbalance r y b = 0.0) /\
  (r == y -> y == b -> calculate_phase_imbalance r y b == 0) /\
  (0 <= r -> 0 <= y -> 0 <= b -> calculate_phase_imbalance r y b <= 200).
Proof.
  rewrite phase_imbalance_unfold. cbv zeta.
  set (avg := (0 + r + y + b) / 3).
  assert (Havg : 3 * avg == r + y + b) by (unfold avg; field).
  set (dr := Py.abs (r - avg)). set (dy := Py.abs (y - avg)). set (db := Py.abs (b - avg)).
  pose proof (abs_nonneg (r - avg)) as Hdr. fold dr in Hdr.
  set (m := Py.max (Py.max dr dy) db).
  assert (Hm0 : 0 <= m).
  { unfold m. pose proof (PyFacts.max_l (Py.max dr dy) db).
    pose proof (PyFacts.max_l dr dy). lra. }
  destruct (Py.le r 0 && (Py.le y 0 && (Py.le b 0 && true))) eqn:Eall.
  { split_and!; intros; try reflexivity; lra. }
  destruct (Py.lt avg 0.1) eqn:Elt.
  { split_and!; intros; try reflexivity; lra. }
  apply PyFacts.lt_false in Elt.
  assert (Hq : 0 <= m / avg) by (apply Qle_shift_div_l; lra).
  split_and!.
  - lra.
  - intros H. exfalso.
    assert (E : (r + y + b) / 3 == avg) by (unfold avg; field). rewrite E in H. lra.
  - intros Hry Hyb.
    assert (Em : m == 0).
    { assert (E1 : dr == 0) by (unfold dr, Py.abs; rewrite <- (Qabs_wd 0); [reflexivity|lra]).
      assert (E2 : dy == 0) by (unfold dy, Py.abs; rewrite <- (Qabs_wd 0); [reflexivity|lra]).
      assert (E3 : db == 0) by (unfold db, Py.abs; rewrite <- (Qabs_wd 0); [reflexivity|lra]).
      unfold m. rewrite E1, E2, E3. reflexivity. }
    rewrite Em. field. lra.
  - intros Hr Hy Hb.
    assert (Hm : m <= 2 * avg).
    { unfold m. rewrite !max_le_iff. unfold dr, dy, db. rewrite !abs_le_iff.
      split_and!; lra. }
    assert (Hq2 : m / avg <= 2) by (apply Qle_shift_div_r; lra).
    lra.
Qed.

Lemma phase_imbalance_range_witness :
  calculate_phase_imbalance 300 0 0 <= 200.
Proof.
  refine (proj2 (proj2 (proj2 (phase_imbalance_range 300 0 0))) _ _ _);
    vm_compute; discriminate.
Defined.

(** X12.  The phase imbalance does not depend on which phase carries which
    current: exchanging two of the three arguments gives an equal result. *)
Theorem phase_imbalance_symmetric (r y b : Q) :
  calculate_phase_imbalance y r b == calculate_phase_imbalance r y b /\
  calculate_phase_imbalance r b y == calculate_phase_imbalance r y b.
Proof.
  rewrite !phase_imbalance_unfold. cbv zeta.
  assert (E1 : (0 + y + r + b) / 3 == (0 + r + y + b) / 3) by field.
  assert (E2 : (0 + r + b + y) / 3 == (0 + r + y + b) / 3) by field.
  set (avg := (0 + r + y + b) / 3) in *.
  set (avg1 := (0 + y + r + b) / 3) in *.
  set (avg2 := (0 + r + b + y) / 3) in *.
  rewrite (lt_compat avg1 avg 0.1 0.1 E1 (Qeq_refl _)).
  rewrite (lt_compat avg2 avg 0.1 0.1 E2 (Qeq_refl _)).
  split.
  - replace (Py.le y 0 && (Py.le r 0 && (Py.le b 0 && true)))
      with (Py.le r 0 && (Py.le y 0 && (Py.le b 0 && true)))
      by (destruct (Py.le r 0), (Py.le y 0), (Py.le b 0); reflexivity).
    destruct (Py.le r 0 && (Py.le y 0 && (Py.le b 0 && true))); [reflexivity|].
    destruct (Py.lt avg 0.1); [reflexivity|].
    rewrite E1. rewrite (max_comm (Py.abs (y - avg)) (Py.abs (r - avg))). reflexivity.
  - replace (Py.le r 0 && (Py.le b 0 && (Py.le y 0 && true)))
      with (Py.le r 0 && (Py.le y 0 && (Py.le b 0 && true)))
      by (destruct (Py.le r 0), (Py.le y 0), (Py.le b 0); reflexivity).
    destruct (Py.le r 0 && (Py.le y 0 && (Py.le b 0 && true))); [reflexivity|].
    destruct (Py.lt avg 0.1); [reflexivity|].
    rewrite E2. rewrite (max_swap (Py.abs (r - avg)) (Py.abs (b - avg)) (Py.abs (y - avg))).
    reflexivity.
Qed.

(** *** Rounding *)

Lemma floor_fraction (x : Q) : 0 <= x - inject_Z (Qfloor x) < 1.
Proof.
  pose proof (Qfloor_le x) as H1. pose proof (Qlt_floor x) as H2.
  rewrite inject_Z_plus in H2. change (inject_Z 1) with 1 in H2. lra.
Qed.

Lemma round_half_even_cases (x : Q) :
  let f := Qfloor x in
  let r := x - inject_Z f in
  (Py.round_half_even x = f /\ r <= 0.5) \/
  (Py.round_half_even x = (f + 1)%Z /\ 0.5 <= r).
Proof.
  cbv zeta. unfold Py.round_half_even.
  destruct (Py.lt (x - inject_Z (Qfloor x)) 0.5) eqn:E1.
  { apply PyFacts.lt_true in E1. left. split; [reflexivity|lra]. }
  apply PyFacts.lt_false in E1.
  destruct (Py.gt (x - inject_Z (Qfloor x)) 0.5) eqn:E2.
  { right. split; [reflexivity|assumption]. }
  apply PyFacts.gt_false in E2.
  destruct (Z.even (Qfloor x)); [left|right]; (split; [reflexivity|assumption]).
Qed.

Lemma round_half_even_error (x : Q) :
  - 0.5 <= inject_Z (Py.round_half_even x) - x <= 0.5.
Proof.
  pose proof (floor_fraction x) as Hf.
  destruct (round_half_even_cases x) as [[-> H]|[-> H]].
  - lra.
  - rewrite inject_Z_plus. change (inject_Z 1) with 1. lra.
Qed.

Lemma round_half_even_compat (x y : Q) :
  x == y -> Py.round_half_even x = Py.round_half_even y.
Proof.
  intros H. unfold Py.round_half_even. rewrite (Qfloor_comp x y H).
  assert (E : x - inject_Z (Qfloor y) == y - inject_Z (Qfloor y)) by lra.
  rewrite (lt_compat _ _ 0.5 0.5 E (Qeq_refl _)).
  unfold Py.gt. rewrite (lt_compat 0.5 0.5 _ _ (Qeq_refl _) E). reflexivity.
Qed.

Lemma round_half_even_mono (x y : Q) :
  x <= y -> (Py.round_half_even x <= Py.round_half_even y)%Z.
Proof.
  intros Hxy. pose proof (Qfloor_resp_le x y Hxy) as Hfl.
  pose proof (floor_fraction x) as Hx. pose proof (floor_fraction y) as Hy.
  destruct (Z.eq_dec (Qfloor x) (Qfloor y)) as [Heq|Hne].
  - unfold Py.round_half_even. rewrite Heq in *.
    set (f := Qfloor y) in *.
    destruct (Py.lt (x - inject_Z f) 0.5) eqn:E1;
      destruct (Py.lt (y - inject_Z f) 0.5) eqn:E2;
      destruct (Py.gt (x - inject_Z f) 0.5) eqn:E3;
      destruct (Py.gt (y - inject_Z f) 0.5) eqn:E4;
      destruct (Z.even f);
      try lia;
      repeat match goal with
             | H : Py.lt _ _ = true |- _ => apply PyFacts.lt_true in H
             | H : Py.lt _ _ = false |- _ => apply PyFacts.lt_false in H
             | H : Py.gt _ _ = true |- _ => apply PyFacts.gt_true in H
             | H : Py.gt _ _ = false |- _ => apply PyFacts.gt_false in H
             end; exfalso; lra.
  - assert (Hlt : (Qfloor x + 1 <= Qfloor y)%Z) by lia.
    destruct (round_half_even_cases x) as [[-> _]|[-> _]];
      destruct (round_half_even_cases y) as [[-> _]|[-> _]]; lia.
Qed.

Lemma round_half_even_integer (z : Z) : Py.round_half_even (inject_Z z) = z.
Proof.
  unfold Py.round_half_even. rewrite Qfloor_Z.
  assert (E : Py.lt (inject_Z z - inject_Z z) 0.5 = true)
    by (apply PyFacts.lt_true; lra).
  rewrite E. reflexivity.
Qed.

Lemma scale_positive (n : nat) : 0 < inject_Z (10 ^ Z.of_nat n).
Proof.
  change 0 with (inject_Z 0). rewrite <- Zlt_Qlt. apply Z.pow_pos_nonneg; lia.
Qed.

Lemma round_error (x : Q) (n : nat) :
  let scale := inject_Z (10 ^ Z.of_nat n) in
  - (0.5 / scale) <= Py.round x n - x <= 0.5 / scale.
Proof.
  cbv zeta. unfold Py.round. pose proof (scale_positive n) as Hs.
  set (scale := inject_Z (10 ^ Z.of_nat n)) in *.
  pose proof (round_half_even_error (x * scale)) as [H1 H2].
  set (k := inject_Z (Py.round_half_even (x * scale))) in *.
  assert (E : k / scale - x == (k - x * scale) / scale) by (field; lra).
  rewrite E. split.
  - apply Qle_shift_div_l; [assumption|].
    assert (E' : - (0.5 / scale) * scale == - 0.5) by (field; lra). rewrite E'. assumption.
  - apply Qle_shift_div_r; [assumption|].
    assert (E' : 0.5 / scale * scale == 0.5) by (field; lra). rewrite E'. assumption.
Qed.

Lemma round_mono (x y : Q) (n : nat) : x <= y -> Py.round x n <= Py.round y n.
Proof.
  intros H. unfold Py.round. pose proof (scale_positive n) as Hs.
  set (scale := inject_Z (10 ^ Z.of_nat n)) in *.
  assert (Hxy : x * scale <= y * scale) by nra.
  pose proof (round_half_even_mono _ _ Hxy) as Hz. rewrite Zle_Qle in Hz.
  apply Qle_shift_div_l; [assumption|].
  assert (E : inject_Z (Py.round_half_even (x * scale)) / scale * scale ==
              inject_Z (Py.round_half_even (x * scale))) by (field; lra).
  rewrite E. assumption.
Qed.

Lemma round_grid (z : Z) (n : nat) :
  Py.round (inject_Z z / inject_Z (10 ^ Z.of_nat n)) n ==
  inject_Z z / inject_Z (10 ^ Z.of_nat n).
Proof.
  unfold Py.round. pose proof (scale_positive n) as Hs.
  set (scale := inject_Z (10 ^ Z.of_nat n)) in *.
  assert (E : inject_Z z / scale * scale == inject_Z z) by (field; lra).
  rewrite (round_half_even_compat _ _ E), round_half_even_integer. reflexivity.
Qed.

#[global] Instance round_proper (n : nat) : Proper (Qeq ==> Qeq) (fun x => Py.round x n).
Proof.
  intros x y H. unfold Py.round.
  assert (E : x * inject_Z (10 ^ Z.of_nat n) == y * inject_Z (10 ^ Z.of_nat n))
    by (rewrite H; reflexivity).
  rewrite (round_half_even_compat _ _ E). reflexivity.
Qed.

Lemma round_ge_grid (x : Q) (z : Z) (n : nat) :
  inject_Z z / inject_Z (10 ^ Z.of_nat n) <= x ->
  inject_Z z / inject_Z (10 ^ Z.of_nat n) <= Py.round x n.
Proof. intros H. rewrite <- (round_grid z n). apply round_mono. assumption. Qed.

Lemma round_nonneg (x : Q) (n : nat) : 0 <= x -> 0 <= Py.round x n.
Proof.
  intros H. pose proof (round_ge_grid x 0 n) as Hg.
  assert (E : inject_Z 0 / inject_Z (10 ^ Z.of_nat n) == 0).
  { pose proof (scale_positive n). field. lra. }
  rewrite E in Hg. apply Hg. assumption.
Qed.

(** *** The dictionary of derived metrics *)

Lemma kw_per_ton_nonneg c power_kw delta_t flow :
  0 <= calculate_kw_per_ton c power_kw delta_t flow.
Proof.
  unfold calculate_kw_per_ton.
  destruct (Py.le power_kw 0) eqn:E; [lra|]. apply PyFacts.le_false in E.
  pose proof (PhysicsFacts.cooling_tons_floor c delta_t flow) as Ht.
  destruct (Py.lt (calculate_cooling_tons c delta_t flow) 0.1); [lra|].
  apply Qle_shift_div_l; lra.
Qed.

Lemma cop_nonneg power_kw delta_t flow :
  0 <= calculate_cop default_constants delta_t power_kw flow.
Proof.
  unfold calculate_cop.
  destruct (Py.le power_kw 0) eqn:E; [lra|]. apply PyFacts.le_false in E.
  pose proof (PhysicsFacts.cooling_tons_floor default_constants delta_t flow) as Ht.
  cbn [KW_PER_TON default_constants].
  apply Qle_shift_div_l; [assumption|]. nra.
Qed.

Lemma phase_imbalance_nonneg r y b : 0 <= calculate_phase_imbalance r y b.
Proof.
  rewrite phase_imbalance_unfold. cbv zeta.
  set (avg := (0 + r + y + b) / 3).
  destruct (Py.le r 0 && (Py.le y 0 && (Py.le b 0 && true))); [lra|].
  destruct (Py.lt avg 0.1) eqn:Elt; [lra|]. apply PyFacts.lt_false in Elt.
  set (m := Py.max _ _).
  assert (Hm0 : 0 <= m).
  { unfold m.
    match goal with |- 0 <= Py.max (Py.max ?a ?b) ?d =>
      pose proof (PyFacts.max_l (Py.max a b) d); pose proof (PyFacts.max_l a b);
      pose proof (abs_nonneg (r - avg)) end.
    lra. }
  assert (Hq : 0 <= m / avg) by (apply Qle_shift_div_l; lra).
  lra.
Qed.

(** Lookup of a key in a dictionary literal. *)
Ltac dict_lookup :=
  cbn [list_to_map foldr fst snd];
  repeat (rewrite lookup_insert_ne by discriminate);
  first [rewrite lookup_insert_eq | rewrite lookup_empty].

(** X13.  The dictionary [calculate_all_metrics] returns has exactly the six
    keys delta_t, cooling_tons, kw_per_ton, approach_temp, phase_imbalance
    and cop, and the floors survive its rounding: cooling_tons is at least
    0.1 and kw_per_ton, approach_temp, phase_imbalance and cop are not
    negative, whatever the inputs. *)
Theorem all_metrics_floors
    (chw_supply chw_return cdw_inlet cdw_outlet power_kw cr cy cb : Q)
    (flow sat : option Q) :
  let m := calculate_all_metrics default_constants chw_supply chw_return cdw_inlet
             cdw_outlet power_kw cr cy cb flow sat in
  dom m = list_to_set ["delta_t"; "cooling_tons"; "kw_per_ton"; "approach_temp";
                       "phase_imbalance"; "cop"]%string /\
  (exists v, m !! "cooling_tons"%string = Some v /\ 0.1 <= v) /\
  (exists v, m !! "kw_per_ton"%string = Some v /\ 0 <= v) /\
  (exists v, m !! "approach_temp"%string = Some v /\ 0 <= v) /\
  (exists v, m !! "phase_imbalance"%string = Some v /\ 0 <= v) /\
  (exists v, m !! "cop"%string = Some v /\ 0 <= v).
Proof.
  cbv zeta. unfold calculate_all_metrics. split_and!.
  - rewrite dom_list_to_map_L. reflexivity.
  - eexists. split; [dict_lookup; reflexivity|].
    assert (E : inject_Z 10 / inject_Z (10 ^ Z.of_nat 2) == 0.1) by reflexivity.
    rewrite <- E. apply round_ge_grid. rewrite E. apply PhysicsFacts.cooling_tons_floor.
  - eexists. split; [dict_lookup; reflexivity|]. apply round_nonneg, kw_per_ton_nonneg.
  - eexists. split; [dict_lookup; reflexivity|]. apply round_nonneg, PhysicsFacts.approach_non_negative.
  - eexists. split; [dict_lookup; reflexivity|]. apply round_nonneg, phase_imbalance_nonneg.
  - eexists. split; [dict_lookup; reflexivity|]. apply round_nonneg, cop_nonneg.
Qed.

(** X14.  Each value of that dictionary is the corresponding calculation
    rounded to its precision: delta_t, kw_per_ton and approach_temp lie
    within 0.0005 of the unrounded result, cooling_tons, phase_imbalance and
    cop within 0.005. *)
Theorem all_metrics_accuracy
    (c : PhysicsConstants)
    (chw_supply chw_return cdw_inlet cdw_outlet power_kw cr cy cb : Q)
    (flow sat : option Q) :
  let m := calculate_all_metrics c chw_supply chw_return cdw_inlet
             cdw_outlet power_kw cr cy cb flow sat in
  let delta_t := calculate_delta_t chw_return chw_supply in
  let near (key : string) (exact tolerance : Q) : Prop :=
    exists v, m !! key = Some v /\ - tolerance <= v - exact <= tolerance in
  near "delta_t"%string delta_t 0.0005 /\
  near "cooling_tons"%string (calculate_cooling_tons c delta_t flow) 0.005 /\
  near "kw_per_ton"%string (calculate_kw_per_ton c power_kw delta_t flow) 0.0005 /\
  near "approach_temp"%string (calculate_approach_temperature c cdw_outlet sat) 0.0005 /\
  near "phase_imbalance"%string (calculate_phase_imbalance cr cy cb) 0.005 /\
  near "cop"%string (calculate_cop c delta_t power_kw flow) 0.005.
Proof.
  cbv zeta. unfold calculate_all_metrics.
  assert (E3 : forall x, - 0.0005 <= Py.round x 3 - x <= 0.0005).
  { intros x. pose proof (round_error x 3) as H. cbv zeta in H.
    assert (E : 0.5 / inject_Z (10 ^ Z.of_nat 3) == 0.0005) by reflexivity.
    rewrite E in H. exact H. }
  assert (E2 : forall x, - 0.005 <= Py.round x 2 - x <= 0.005).
  { intros x. pose proof (round_error x 2) as H. cbv zeta in H.
    assert (E : 0.5 / inject_Z (10 ^ Z.of_nat 2) == 0.005) by reflexivity.
    rewrite E in H. exact H. }
  split_and!; (eexists; split; [dict_lookup; reflexivity|]);
    [apply E3 | apply E2 | apply E3 | apply E3 | apply E2 | apply E2].
Qed.

(** X15.  Without a saturation temperature the approach temperature is the
    constant offset of 3.0 °C, whatever the condenser outlet temperature;
    with one, it is the difference to the outlet temperature, and 0 when the
    saturation temperature is below the outlet temperature. *)
Theorem approach_temperature_cases (cdw_outlet : Q) :
  calculate_approach_temperature default_constants cdw_outlet None == 3.0 /\
  (forall sat, cdw_outlet <= sat ->
     calculate_approach_temperature default_constants cdw_outlet (Some sat) =
     sat - cdw_outlet) /\
  (forall sat, sat < cdw_outlet ->
     calculate_approach_temperature default_constants cdw_outlet (Some sat) = 0.0).
Proof.
  unfold calculate_approach_temperature. cbn [REFRIGERANT_SAT_OFFSET default_constants].
  split_and!.
  - change (default (cdw_outlet + 3.0) None) with (cdw_outlet + 3.0).
    destruct (PyFacts.max_cases (cdw_outlet + 3.0 - cdw_outlet) 0.0) as [[-> H]|[-> H]]; lra.
  - intros sat H. change (default (cdw_outlet + 3.0) (Some sat)) with sat.
    unfold Py.max.
    assert (E : Py.gt 0.0 (sat - cdw_outlet) = false) by (apply PyFacts.gt_false; lra).
    rewrite E. reflexivity.
  - intros sat H. change (default (cdw_outlet + 3.0) (Some sat)) with sat.
    unfold Py.max.
    assert (E : Py.gt 0.0 (sat - cdw_outlet) = true) by (apply PyFacts.gt_true; lra).
    rewrite E. reflexivity.
Qed.

End PhysicsMore.

(** ** More on the health score *)

Module HealthMore.

Import HealthScore HealthSpec HealthFacts.

(** *** Ranges *)

Lemma clamp_score_range (s : Q) : 0 <= clamp_score s <= 100.
Proof.
  unfold clamp_score.
  destruct (PyFacts.max_cases 0.0 s) as [[-> H]|[-> H]];
    match goal with |- _ <= Py.min ?a ?b <= _ =>
      destruct (PyFacts.min_cases a b) as [[-> H']|[-> H']] end; lra.
Qed.

Lemma score_metric_range name value :
  0 <= fst (fst (_score_metric name value)) <= 100.
Proof.
  unfold _score_metric.
  destruct (assoc String.eqb name thresholds) as [[e g f p u d|t eb gb fb pb u d]|].
  - unfold _score_lower_better.
    repeat match goal with |- context [if ?b then _ else _] => destruct b end;
      cbn [fst]; apply clamp_score_range.
  - unfold _score_target_range.
    repeat match goal with |- context [if ?b then _ else _] => destruct b end;
      cbn [fst]; apply clamp_score_range.
  - cbn. lra.
Qed.

Lemma scored_score_range weights metrics :
  Forall (fun m => 0 <= normalized_score m <= 100) (scored weights metrics).
Proof.
  apply List.Forall_forall. intros m Hin.
  apply list_elem_of_In, list_elem_of_omap in Hin. destruct Hin as ([name w] & _ & Hm).
  unfold scored_entry in Hm. destruct (metrics !! name) as [value|]; [|discriminate].
  pose proof (score_metric_range name value) as Hr.
  destruct (_score_metric name value) as [[score st] msg].
  inversion Hm. cbn. exact Hr.
Qed.

Lemma scored_weights_nonneg weights metrics :
  Forall (fun e => 0 <= snd e) weights ->
  Forall (fun m => 0 <= weight m) (scored weights metrics).
Proof.
  intros Hpos. apply List.Forall_forall. intros m Hin.
  destruct (scored_weight_in _ _ _ Hin) as [name Hw].
  rewrite List.Forall_forall in Hpos. exact (Hpos _ Hw).
Qed.

Lemma weighted_sum_bounds (l : list MetricScore) (a b : Q) :
  Forall (fun m => 0 <= weight m) l ->
  Forall (fun m => weighted_contribution m = normalized_score m * weight m) l ->
  Forall (fun m => a <= normalized_score m <= b) l ->
  a * total weight l <= total weighted_contribution l <= b * total weight l.
Proof.
  induction l as [|m l IH]; intros Hw Hc Hs; cbn [total foldr].
  - lra.
  - inversion Hw; inversion Hc; inversion Hs; subst.
    fold (total weight l). fold (total weighted_contribution l).
    destruct (IH ltac:(assumption) ltac:(assumption) ltac:(assumption)) as [IH1 IH2].
    match goal with H : weighted_contribution m = _ |- _ => rewrite H end.
    split; nra.
Qed.

(** X16.  Every score of the breakdown lies between 0 and 100.  With
    non-negative weights the overall score lies between 0 and 100 too, and
    whenever the present weights sum to a positive number it lies between
    any two bounds that enclose all the scores of the breakdown. *)
Theorem score_ranges (weights : list (string * Q)) (metrics : gmap string Q) :
  let r := calculate weights metrics in
  Forall (fun m => 0 <= normalized_score m <= 100) (breakdown r) /\
  (Forall (fun e => 0 <= snd e) weights ->
   0 <= overall_score r <= 100 /\
   forall a b,
     Forall (fun m => a <= normalized_score m <= b) (breakdown r) ->
     0 < total weight (breakdown r) ->
     a <= overall_score r <= b).
Proof.
  intros r. subst r.
  pose proof (sorted_by_score_perm (scored weights metrics)) as Hperm.
  rewrite calculate_breakdown.
  split.
  { rewrite Hperm. apply scored_score_range. }
  intros Hnn.
  destruct (calculate_overall weights metrics) as (ws & tw & Hws & Htw & ->).
  assert (Hgen : forall a b,
     Forall (fun m => a <= normalized_score m <= b) (scored weights metrics) ->
     0 < tw -> a <= ws / tw <= b).
  { intros a b Hab Hpos.
    pose proof (weighted_sum_bounds _ a b (scored_weights_nonneg _ _ Hnn)
                  (scored_contribution weights metrics) Hab) as [H1 H2].
    rewrite <- Hws, <- Htw in H1, H2. split.
    - apply Qle_shift_div_l; assumption.
    - apply Qle_shift_div_r; assumption. }
  split.
  - destruct (Py.gt tw 0) eqn:E; [|lra].
    apply PyFacts.gt_true in E. apply Hgen; [apply scored_score_range|assumption].
  - intros a b Hab Htot.
    rewrite (total_perm weight _ _ Hperm), <- Htw in Htot.
    assert (E : Py.gt tw 0 = true) by (apply PyFacts.gt_true; assumption).
    rewrite E. apply Hgen; [|assumption]. rewrite <- Hperm. assumption.
Qed.

Lemma score_ranges_witness :
  0 <= overall_score
         (calculate default_weights
            (metrics_of [("vibration_rms"%string, 12.0); ("delta_t"%string, 5.5)])) <= 100.
Proof.
  refine (proj1 (proj2 (score_ranges default_weights
            (metrics_of [("vibration_rms"%string, 12.0); ("delta_t"%string, 5.5)])) _)).
  repeat constructor; vm_compute; discriminate.
Defined.

(** *** The scoring curves *)

Lemma div_le_mono (a b d : Q) : 0 < d -> a <= b -> a / d <= b / d.
Proof.
  intros Hd Hab. apply Qle_shift_div_l; [assumption|].
  assert (E : a / d * d == a) by (field; lra). rewrite E. assumption.
Qed.

Lemma clamp_score_id (s : Q) : 0 <= s <= 100 -> clamp_score s == s.
Proof.
  intros H. unfold clamp_score.
  destruct (PyFacts.max_cases 0.0 s) as [[-> H1]|[-> H1]];
    match goal with |- Py.min ?a ?b == _ =>
      destruct (PyFacts.min_cases a b) as [[-> H']|[-> H']] end; lra.
Qed.

Lemma clamp_score_mono (s t : Q) : s <= t -> clamp_score s <= clamp_score t.
Proof.
  intros H. unfold clamp_score.
  destruct (PyFacts.max_cases 0.0 s) as [[-> H1]|[-> H1]];
    destruct (PyFacts.max_cases 0.0 t) as [[-> H2]|[-> H2]];
    repeat match goal with |- context [Py.min ?a ?b] =>
      let H' := fresh in destruct (PyFacts.min_cases a b) as [[-> H']|[-> H']] end; lra.
Qed.

Section LowerBetter.

Variables excellent good fair poor : Q.
Variables unit description : string.
Hypothesis ordered : 0 < excellent /\ excellent < good /\ good < fair /\ fair < poor.

(** The score and the status [_score_lower_better] gives a value. *)
Local Abbreviation score v :=
  (fst (fst (_score_lower_better v excellent good fair poor unit description))).
Local Abbreviation label v :=
  (snd (fst (_score_lower_better v excellent good fair poor unit description))).

Lemma critical_part (v : Q) :
  poor < v ->
  let c := Py.max 0.0 (30.0 - 30.0 * Py.min ((v - poor) / poor) 1.0) in
  0 <= c /\ c < 30.
Proof.
  intros Hv. cbv zeta.
  assert (Ho : 0 < (v - poor) / poor) by (apply ratio_pos; lra).
  destruct (PyFacts.min_cases ((v - poor) / poor) 1.0) as [[-> H]|[-> H]];
    match goal with |- _ <= Py.max ?a ?b /\ _ =>
      destruct (PyFacts.max_cases a b) as [[-> H1]|[-> H1]] end; lra.
Qed.

Lemma critical_part_mono (v1 v2 : Q) :
  poor < v1 -> v1 <= v2 ->
  Py.max 0.0 (30.0 - 30.0 * Py.min ((v2 - poor) / poor) 1.0) <=
  Py.max 0.0 (30.0 - 30.0 * Py.min ((v1 - poor) / poor) 1.0).
Proof.
  intros H1 H12.
  assert (Ho : (v1 - poor) / poor <= (v2 - poor) / poor) by (apply div_le_mono; lra).
  destruct (PyFacts.min_cases ((v1 - poor) / poor) 1.0) as [[-> Ha]|[-> Ha]];
    destruct (PyFacts.min_cases ((v2 - poor) / poor) 1.0) as [[-> Hb]|[-> Hb]];
    repeat match goal with |- context [Py.max ?a ?b] =>
      let H' := fresh in destruct (PyFacts.max_cases a b) as [[-> H']|[-> H']] end; lra.
Qed.

(** The five pieces of the curve. *)
Lemma lower_better_pieces (v : Q) :
  (v <= excellent /\ label v = "excellent"%string /\
   score v = clamp_score (95.0 + 5.0 * (1.0 - v / excellent)) /\ 95 <= score v <= 100) \/
  (excellent < v <= good /\ label v = "good"%string /\
   score v == 90.0 - 15.0 * ((v - excellent) / (good - excellent)) /\ 75 <= score v <= 90) \/
  (good < v <= fair /\ label v = "fair"%string /\
   score v == 75.0 - 20.0 * ((v - good) / (fair - good)) /\ 55 <= score v <= 75) \/
  (fair < v <= poor /\ label v = "poor"%string /\
   score v == 55.0 - 25.0 * ((v - fair) / (poor - fair)) /\ 30 <= score v <= 55) \/
  (poor < v /\ label v = "critical"%string /\
   score v == Py.max 0.0 (30.0 - 30.0 * Py.min ((v - poor) / poor) 1.0) /\
   0 <= score v <= 30).
Proof.
  destruct ordered as (He & Hg & Hf & Hp).
  unfold _score_lower_better.
  assert (Ee : Py.gt excellent 0 = true) by (apply PyFacts.gt_true; assumption).
  assert (Ep : Py.gt poor 0 = true) by (apply PyFacts.gt_true; lra).
  rewrite Ee, Ep.
  destruct (Py.le v excellent) eqn:E1.
  { apply PyFacts.le_true in E1. left. cbn [fst snd].
    split_and!; [assumption | reflexivity | reflexivity | |apply clamp_score_range].
    apply clamp_score_ge; [lra|].
    pose proof (ratio_le_one v excellent He E1). lra. }
  apply PyFacts.le_false in E1.
  destruct (Py.le v good) eqn:E2.
  { apply PyFacts.le_true in E2. right. left. cbn [fst snd].
    assert (Hr : 0 < (v - excellent) / (good - excellent) <= 1)
      by (split; [apply ratio_pos|apply ratio_le_one]; lra).
    assert (Hid : clamp_score (90.0 - 15.0 * ((v - excellent) / (good - excellent))) ==
                  90.0 - 15.0 * ((v - excellent) / (good - excellent)))
      by (apply clamp_score_id; lra).
    split_and!; [assumption | assumption | reflexivity | exact Hid | rewrite Hid; lra
                | rewrite Hid; lra]. }
  apply PyFacts.le_false in E2.
  destruct (Py.le v fair) eqn:E3.
  { apply PyFacts.le_true in E3. right. right. left. cbn [fst snd].
    assert (Hr : 0 < (v - good) / (fair - good) <= 1)
      by (split; [apply ratio_pos|apply ratio_le_one]; lra).
    assert (Hid : clamp_score (75.0 - 20.0 * ((v - good) / (fair - good))) ==
                  75.0 - 20.0 * ((v - good) / (fair - good)))
      by (apply clamp_score_id; lra).
    split_and!; [assumption | assumption | reflexivity | exact Hid | rewrite Hid; lra
                | rewrite Hid; lra]. }
  apply PyFacts.le_false in E3.
  destruct (Py.le v poor) eqn:E4.
  { apply PyFacts.le_true in E4. right. right. right. left. cbn [fst snd].
    assert (Hr : 0 < (v - fair) / (poor - fair) <= 1)
      by (split; [apply ratio_pos|apply ratio_le_one]; lra).
    assert (Hid : clamp_score (55.0 - 25.0 * ((v - fair) / (poor - fair))) ==
                  55.0 - 25.0 * ((v - fair) / (poor - fair)))
      by (apply clamp_score_id; lra).
    split_and!; [assumption | assumption | reflexivity | exact Hid | rewrite Hid; lra
                | rewrite Hid; lra]. }
  apply PyFacts.le_false in E4.
  right. right. right. right. cbn [fst snd].
  pose proof (critical_part v E4) as Hc. cbv zeta in Hc.
  assert (Hid : clamp_score (Py.max 0.0 (30.0 - 30.0 * Py.min ((v - poor) / poor) 1.0)) ==
                Py.max 0.0 (30.0 - 30.0 * Py.min ((v - poor) / poor) 1.0))
    by (apply clamp_score_id; lra).
  split_and!; [assumption | reflexivity | exact Hid | rewrite Hid; lra | rewrite Hid; lra].
Qed.

(** A higher value never scores higher. *)
Lemma lower_better_monotone (v1 v2 : Q) : v1 <= v2 -> score v2 <= score v1.
Proof.
  intros H12. destruct ordered as (He & Hg & Hf & Hp).
  destruct (lower_better_pieces v1)
    as [(A1 & _ & S1 & B1)|[(A1 & _ & S1 & B1)|[(A1 & _ & S1 & B1)
       |[(A1 & _ & S1 & B1)|(A1 & _ & S1 & B1)]]]];
    destruct (lower_better_pieces v2)
      as [(A2 & _ & S2 & B2)|[(A2 & _ & S2 & B2)|[(A2 & _ & S2 & B2)
         |[(A2 & _ & S2 & B2)|(A2 & _ & S2 & B2)]]]];
    try lra.
  - rewrite S1, S2. apply clamp_score_mono.
    pose proof (div_le_mono v1 v2 excellent He H12). lra.
  - rewrite S1, S2.
    pose proof (div_le_mono (v1 - excellent) (v2 - excellent) (good - excellent)). lra.
  - rewrite S1, S2.
    pose proof (div_le_mono (v1 - good) (v2 - good) (fair - good)). lra.
  - rewrite S1, S2.
    pose proof (div_le_mono (v1 - fair) (v2 - fair) (poor - fair)). lra.
  - rewrite S1, S2. apply critical_part_mono; assumption.
Qed.

End LowerBetter.

(** A target-range metric is scored as a lower-is-better metric of its
    deviation from the target. *)
Lemma target_as_lower (v t eb gb fb pb : Q) (u d u' d' : string) :
  0 < eb -> 0 < pb ->
  fst (_score_target_range v t eb gb fb pb u d) =
  fst (_score_lower_better (Py.abs (v - t)) eb gb fb pb u' d').
Proof.
  intros He Hp. unfold _score_target_range, _score_lower_better.
  rewrite (proj2 (PyFacts.gt_true eb 0) He), (proj2 (PyFacts.gt_true pb 0) Hp).
  cbv zeta.
  repeat match goal with
         | |- context [if Py.le ?a ?b then _ else _] => destruct (Py.le a b)
         end; reflexivity.
Qed.

Lemma thresholds_lookup (name : string) (th : Thresholds) :
  assoc String.eqb name thresholds = Some th ->
  match th with
  | LowerBetter excellent good fair poor _ _ =>
      0 < excellent /\ excellent < good /\ good < fair /\ fair < poor
  | TargetRange _ eb gb fb pb _ _ =>
      0 < eb /\ eb < gb /\ gb < fb /\ fb < pb
  end.
Proof.
  unfold thresholds. cbn [assoc].
  repeat match goal with
         | |- context [String.eqb name ?k] => destruct (String.eqb name k)
         end;
    intros H; inversion H; subst; split_and!; reflexivity.
Qed.

(** The score and status of a metric of the thresholds table are those of
    the lower-is-better curve, at the value itself or at its deviation from
    the target. *)
Lemma score_metric_curve (name : string) (value : Q) :
  assoc String.eqb name thresholds = None \/
  exists x e g f p u d,
    (0 < e /\ e < g /\ g < f /\ f < p) /\
    fst (_score_metric name value) = fst (_score_lower_better x e g f p u d).
Proof.
  unfold _score_metric.
  destruct (assoc String.eqb name thresholds) as [[e g f p u d|t eb gb fb pb u d]|] eqn:E;
    [right|right|left; reflexivity].
  - exists value, e, g, f, p, u, d. split; [exact (thresholds_lookup _ _ E)|reflexivity].
  - pose proof (thresholds_lookup _ _ E) as Ho. cbn in Ho.
    exists (Py.abs (value - t)), eb, gb, fb, pb, u, d. split; [exact Ho|].
    apply target_as_lower; lra.
Qed.

Lemma status_bands_aux (name : string) (value : Q) :
  let s := fst (fst (_score_metric name value)) in
  let st := snd (fst (_score_metric name value)) in
  (st = "excellent"%string /\ 95 <= s <= 100) \/
  (st = "good"%string /\ 75 <= s <= 90) \/
  (st = "fair"%string /\ 55 <= s <= 75) \/
  (st = "poor"%string /\ 30 <= s <= 55) \/
  (st = "critical"%string /\ 0 <= s <= 30) \/
  (st = "unknown"%string /\ s = 50.0 /\ assoc String.eqb name thresholds = None).
Proof.
  cbv zeta.
  destruct (score_metric_curve name value) as [E|(x & e & g & f & p & u & d & Ho & ->)].
  - unfold _score_metric. rewrite E. cbn [fst snd].
    do 5 right. split_and!; reflexivity.
  - destruct (lower_better_pieces e g f p u d Ho x)
      as [(_ & L & _ & B)|[(_ & L & _ & B)|[(_ & L & _ & B)|[(_ & L & _ & B)|(_ & L & _ & B)]]]];
      tauto.
Qed.

(** X17.  The status of a metric fixes the band of its score: excellent
    95 to 100, good 75 to 90, fair 55 to 75, poor 30 to 55, critical 0 to
    30; a metric without thresholds is [unknown] with score 50.  No metric
    ever scores strictly between 90 and 95. *)
Theorem status_bands (name : string) (value : Q) :
  let s := fst (fst (_score_metric name value)) in
  let st := snd (fst (_score_metric name value)) in
  ((st = "excellent"%string /\ 95 <= s <= 100) \/
   (st = "good"%string /\ 75 <= s <= 90) \/
   (st = "fair"%string /\ 55 <= s <= 75) \/
   (st = "poor"%string /\ 30 <= s <= 55) \/
   (st = "critical"%string /\ 0 <= s <= 30) \/
   (st = "unknown"%string /\ s = 50.0 /\ assoc String.eqb name thresholds = None)) /\
  ~ (90 < s < 95).
Proof.
  cbv zeta. pose proof (status_bands_aux name value) as H. cbv zeta in H.
  split; [exact H|].
  destruct H as [(_ & B)|[(_ & B)|[(_ & B)|[(_ & B)|[(_ & B)|(_ & B & _)]]]]];
    try lra.
  rewrite B. lra.
Qed.

(** X18.  For a lower-is-better metric of the thresholds table, a higher
    value never scores higher. *)
Theorem lower_better_metrics_monotone (name : string) (e g f p : Q) (u d : string)
    (v1 v2 : Q) :
  assoc String.eqb name thresholds = Some (LowerBetter e g f p u d) ->
  v1 <= v2 ->
  fst (fst (_score_metric name v2)) <= fst (fst (_score_metric name v1)).
Proof.
  intros E H12. pose proof (thresholds_lookup _ _ E) as Ho. cbn in Ho.
  unfold _score_metric. rewrite E.
  apply (lower_better_monotone e g f p u d Ho v1 v2 H12).
Qed.

Lemma lower_better_metrics_monotone_witness :
  fst (fst (_score_metric "vibration_rms" 9.0)) <=
  fst (fst (_score_metric "vibration_rms" 3.0)).
Proof.
  apply (lower_better_metrics_monotone "vibration_rms" 2.0 4.0 7.0 11.0
           "mm/s" "Mechanical vibration level" 3.0 9.0).
  - reflexivity.
  - lra.
Defined.

(** X19.  The score of a target-range metric depends on the value only
    through its distance to the target and never rises with that distance;
    two values at the same distance on either side of the target score the
    same. *)
Theorem target_range_deviation (name : string) (t eb gb fb pb : Q) (u d : string)
    (v1 v2 : Q) :
  assoc String.eqb name thresholds = Some (TargetRange t eb gb fb pb u d) ->
  (Py.abs (v1 - t) <= Py.abs (v2 - t) ->
   fst (fst (_score_metric name v2)) <= fst (fst (_score_metric name v1))) /\
  (v1 - t == t - v2 ->
   fst (fst (_score_metric name v1)) == fst (fst (_score_metric name v2))).
Proof.
  intros E. pose proof (thresholds_lookup _ _ E) as Ho. cbn in Ho.
  unfold _score_metric. rewrite E.
  rewrite !(target_as_lower _ t eb gb fb pb u d u d) by lra.
  assert (Hmono : forall a b, Py.abs (a - t) <= Py.abs (b - t) ->
            fst (fst (_score_lower_better (Py.abs (b - t)) eb gb fb pb u d)) <=
            fst (fst (_score_lower_better (Py.abs (a - t)) eb gb fb pb u d))).
  { intros a b Hab. apply (lower_better_monotone eb gb fb pb u d Ho _ _ Hab). }
  split; [apply Hmono|].
  intros Hsym.
  assert (Hd : Py.abs (v1 - t) == Py.abs (v2 - t)).
  { assert (Ho' : v1 - t == - (v2 - t)) by lra.
    unfold Py.abs. rewrite Ho'. apply Qabs_opp. }
  apply Qle_antisym; apply Hmono; lra.
Qed.

Lemma target_range_deviation_witness :
  fst (fst (_score_metric "delta_t" 5.0)) <= fst (fst (_score_metric "delta_t" 6.0)) /\
  fst (fst (_score_metric "delta_t" 6.0)) == fst (fst (_score_metric "delta_t" 5.0)).
Proof.
  refine (let H := target_range_deviation "delta_t" 5.5 _ _ _ _ _ _ 6.0 5.0 eq_refl in
          conj (proj1 H _) (proj2 H _)).
  - apply Qle_bool_imp_le. reflexivity.
  - reflexivity.
Defined.

(** *** Recommendations *)

Lemma calculate_recommendations weights metrics :
  recommendations (calculate weights metrics) =
  match sorted_by_score (scored weights metrics) with
  | worst :: _ =>
      if Py.lt (normalized_score worst) 70
      then _get_recommendations (metric_name worst) (status worst) else []
  | [] => []
  end.
Proof.
  unfold calculate.
  destruct (loop_scored metrics weights [] 0.0 0.0) as (ws & tw & Heq & _ & _).
  rewrite Heq. cbn [app].
  destruct (sorted_by_score (scored weights metrics)) as [|worst rest]; [reflexivity|].
  destruct (Py.lt (normalized_score worst) 70); reflexivity.
Qed.

(** The fields of a scored entry. *)
Lemma scored_fields weights metrics m :
  In m (scored weights metrics) ->
  In (metric_name m, weight m) weights /\
  metrics !! metric_name m = Some (raw_value m) /\
  (normalized_score m, status m) = fst (_score_metric (metric_name m) (raw_value m)).
Proof.
  intros Hin.
  apply list_elem_of_In, list_elem_of_omap in Hin. destruct Hin as ([name w] & Hw & Hm).
  apply list_elem_of_In in Hw.
  unfold scored_entry in Hm. destruct (metrics !! name) as [value|] eqn:E; [|discriminate].
  destruct (_score_metric name value) as [[score st] msg] eqn:Es.
  inversion Hm. cbn. rewrite Es. split_and!; [assumption | assumption | reflexivity].
Qed.

Lemma get_recommendations_nonempty (name st : string) : _get_recommendations name st <> [].
Proof.
  unfold _get_recommendations, recommendations_db. cbn [assoc].
  repeat match goal with
         | |- context [String.eqb name ?k] => destruct (String.eqb name k)
         end;
    cbv zeta; cbn [from_option id assoc];
    repeat match goal with
           | |- context [String.eqb st ?k] => destruct (String.eqb st k)
           end;
    discriminate.
Qed.

(** A metric without thresholds has no recommendations of its own. *)
Lemma get_recommendations_unknown (name st : string) :
  assoc String.eqb name thresholds = None ->
  _get_recommendations name st = ["Monitor and investigate as needed"%string].
Proof.
  unfold _get_recommendations, thresholds, recommendations_db. cbn [assoc].
  repeat match goal with
         | |- context [String.eqb name ?k] => destruct (String.eqb name k)
         end; try discriminate.
  reflexivity.
Qed.

(** A metric of the thresholds table has recommendations of its own for
    each of the three statuses below good. *)
Lemma get_recommendations_known (name st : string) :
  assoc String.eqb name thresholds <> None ->
  In st ["fair"; "poor"; "critical"]%string ->
  exists recs,
    assoc String.eqb name recommendations_db = Some recs /\
    assoc String.eqb st recs = Some (_get_recommendations name st) /\
    _get_recommendations name st <> ["Monitor and investigate as needed"%string].
Proof.
  intros Hname Hst. cbn in Hst.
  unfold _get_recommendations.
  unfold thresholds in Hname. cbn [assoc] in Hname.
  unfold recommendations_db. cbn [assoc].
  repeat match goal with
         | |- context [String.eqb name ?k] => destruct (String.eqb name k)
         end;
    try (exfalso; apply Hname; reflexivity);
    (eexists; split; [reflexivity|]);
    destruct Hst as [<-|[<-|[<-|[]]]]; split; (reflexivity || discriminate).
Qed.

(** X20.  Recommendations are given exactly when a primary concern is
    named.  When the concern is a metric of the thresholds table, its status
    is fair, poor or critical and the recommendations are the entry of the
    recommendations table for that metric and status; when it is a metric
    without thresholds, they are the single generic recommendation. *)
Theorem recommendations_follow_concern (weights : list (string * Q))
    (metrics : gmap string Q) :
  let r := calculate weights metrics in
  (recommendations r = [] <-> primary_concern r = None) /\
  (forall name,
     primary_concern r = Some name ->
     exists worst rest,
       breakdown r = worst :: rest /\ metric_name worst = name /\
       (assoc String.eqb name thresholds = None ->
        recommendations r = ["Monitor and investigate as needed"%string]) /\
       (assoc String.eqb name thresholds <> None ->
        In (status worst) ["fair"; "poor"; "critical"]%string /\
        exists recs,
          assoc String.eqb name recommendations_db = Some recs /\
          assoc String.eqb (status worst) recs = Some (recommendations r) /\
          recommendations r <> ["Monitor and investigate as needed"%string])).
Proof.
  cbv zeta.
  rewrite calculate_recommendations, calculate_primary_concern, calculate_breakdown.
  destruct (sorted_by_score (scored weights metrics)) as [|worst rest] eqn:Hs.
  { split; [tauto|]. intros name H. discriminate. }
  destruct (Py.lt (normalized_score worst) 70) eqn:E.
  2:{ split; [tauto|]. intros name H. discriminate. }
  split.
  { split; [intros H; exfalso; exact (get_recommendations_nonempty _ _ H)|discriminate]. }
  intros name Hname. inversion Hname; subst name.
  exists worst, rest. split_and!; [reflexivity | reflexivity | apply get_recommendations_unknown |].
  intros Hknown.
  destruct (sorted_head_lowest _ _ _ Hs) as [Hin _].
  destruct (scored_fields _ _ _ Hin) as (_ & _ & Hf).
  apply PyFacts.lt_true in E.
  assert (Hst : In (status worst) ["fair"; "poor"; "critical"]%string).
  { pose proof (status_bands_aux (metric_name worst) (raw_value worst)) as Hb.
    rewrite <- Hf in Hb. cbn [fst snd] in Hb.
    destruct Hb as [(_ & B)|[(_ & B)|[(L & _)|[(L & _)|[(L & _)|(_ & _ & N)]]]]];
      try lra; try (rewrite L; cbn; tauto).
    contradiction. }
  split; [exact Hst|].
  apply get_recommendations_known; assumption.
Qed.

(** *** What [calculate] reads *)

Lemma score_loop_ext (m1 m2 : gmap string Q) (weights : list (string * Q)) :
  (forall k, In k (List.map fst weights) -> m1 !! k = m2 !! k) ->
  forall st, foldl (score_step m1) st weights = foldl (score_step m2) st weights.
Proof.
  induction weights as [|[name w] weights IH]; intros Hagree st; [reflexivity|].
  cbn [foldl].
  assert (E : score_step m1 st (name, w) = score_step m2 st (name, w)).
  { unfold score_step. destruct st as [[b ws] tw].
    rewrite (Hagree name) by (left; reflexivity). reflexivity. }
  rewrite E. apply IH. intros k Hk. apply Hagree. right. exact Hk.
Qed.

(** X21.  [calculate] reads the metrics map only at the names of the weight
    configuration: two maps that agree on these names give the same result,
    whatever else they hold. *)
Theorem unweighted_metrics_ignored (weights : list (string * Q))
    (m1 m2 : gmap string Q) :
  (forall k, In k (List.map fst weights) -> m1 !! k = m2 !! k) ->
  calculate weights m1 = calculate weights m2.
Proof.
  intros Hagree. unfold calculate.
  rewrite (score_loop_ext m1 m2 weights Hagree). reflexivity.
Qed.

Lemma unweighted_metrics_ignored_witness :
  calculate default_weights
    (list_to_map [("vibration_rms"%string, 3.0); ("cop"%string, 5.2)]) =
  calculate default_weights (list_to_map [("vibration_rms"%string, 3.0)]).
Proof.
  apply unweighted_metrics_ignored.
  intros k Hk. cbn in Hk.
  repeat (destruct Hk as [<-|Hk]; [vm_compute; reflexivity|]).
  destruct Hk.
Defined.

(** *** The breakdown *)

Lemma scored_names weights metrics :
  List.map (fun m => (metric_name m, weight m)) (scored weights metrics) =
  present_weights weights metrics.
Proof.
  unfold scored, present_weights.
  induction weights as [|[name w] weights IH]; [reflexivity|].
  cbn [omap list_omap List.filter fst]. unfold scored_entry at 1.
  destruct (metrics !! name) as [value|]; [|exact IH].
  destruct (_score_metric name value) as [[score st] msg].
  cbn. f_equal. exact IH.
Qed.

(** X22.  The breakdown is in ascending order of score and has exactly one
    entry, with the configured weight, for each entry of the weight
    configuration whose metric is present; every entry carries the value the
    metrics map holds for its metric. *)
Theorem breakdown_structure (weights : list (string * Q)) (metrics : gmap string Q) :
  let r := calculate weights metrics in
  StronglySorted score_le (breakdown r) /\
  List.map (fun m => (metric_name m, weight m)) (breakdown r) ≡ₚ
    present_weights weights metrics /\
  Forall (fun m => metrics !! metric_name m = Some (raw_value m)) (breakdown r).
Proof.
  cbv zeta. rewrite calculate_breakdown.
  pose proof (sorted_by_score_perm (scored weights metrics)) as Hp.
  split_and!.
  - apply sorted_by_score_sorted.
  - rewrite Hp. rewrite scored_names. reflexivity.
  - rewrite Hp. apply Forall_forall. intros m Hm.
    apply list_elem_of_In in Hm.
    destruct (scored_fields _ _ _ Hm) as (_ & H & _). exact H.
Qed.

End HealthMore.

(** ** Validation, derived metrics and scoring together *)

Module PipelineMore.

Import Validators Spec Physics HealthScore ValidatorsFacts PhysicsMore.

Lemma accepted_no_error (strict : bool) (data : gmap string Q) :
  is_valid (validate strict data) = true -> has_severity ERROR (run_rules data) = false.
Proof.
  rewrite validate_classify. intros Hv.
  destruct (classify_cases strict (run_rules data))
    as [(He & Hc) | [(He & Hw & Hs & Hc) | [(He & Hw & Hs & Hc) | (He & Hw & Hc)]]];
    rewrite Hc in Hv; cbn in Hv; (discriminate || assumption).
Qed.

Lemma round_compat (x y : Q) (n : nat) : x == y -> Py.round x n = Py.round y n.
Proof.
  intros H. unfold Py.round.
  rewrite (round_half_even_compat (x * inject_Z (10 ^ Z.of_nat n))
             (y * inject_Z (10 ^ Z.of_nat n))) by (rewrite H; reflexivity).
  reflexivity.
Qed.

(** X23.  For a reading the validator accepts, in either mode, the
    chilled-water temperatures it holds give a positive delta-T, and the
    delta_t entry of the derived metrics computed from them is not negative,
    whatever the other inputs. *)
Theorem accepted_delta_t_positive (strict : bool) (data : gmap string Q)
    (supply ret : Q) :
  is_valid (validate strict data) = true ->
  data !! "chw_supply_temp"%string = Some supply ->
  data !! "chw_return_temp"%string = Some ret ->
  0 < calculate_delta_t ret supply /\
  forall cdw_inlet cdw_outlet power_kw cr cy cb flow sat,
    exists v,
      calculate_all_metrics default_constants supply ret cdw_inlet cdw_outlet
        power_kw cr cy cb flow sat !! "delta_t"%string = Some v /\ 0 <= v.
Proof.
  intros Hv Hs Hr. apply accepted_no_error in Hv.
  assert (Hpos : 0 < calculate_delta_t ret supply).
  { unfold calculate_delta_t.
    destruct (Qlt_le_dec supply ret) as [H|H]; [lra|]. exfalso.
    destruct (thermal_issue_raised data CHW supply ret Hs Hr H) as (i & Hin & Hsev & _).
    apply has_severity_false in Hv. apply Hv. exists i.
    split; [apply thermal_in_rules|]; assumption. }
  split; [exact Hpos|].
  intros. eexists. unfold calculate_all_metrics.
  split; [dict_lookup; reflexivity|].
  apply round_nonneg. lra.
Qed.

Lemma accepted_delta_t_positive_witness :
  0 < calculate_delta_t 12.2 6.7 /\
  forall cdw_inlet cdw_outlet power_kw cr cy cb flow sat,
    exists v,
      calculate_all_metrics default_constants 6.7 12.2 cdw_inlet cdw_outlet
        power_kw cr cy cb flow sat !! "delta_t"%string = Some v /\ 0 <= v.
Proof.
  apply (accepted_delta_t_positive false
           (reading [("chw_supply_temp"%string, 6.7); ("chw_return_temp"%string, 12.2);
                     ("power_kw"%string, 280.0)])).
  - vm_compute. reflexivity.
  - vm_compute. reflexivity.
  - vm_compute. reflexivity.
Defined.

(** X24.  When no refrigerant saturation temperature is passed, the
    approach_temp entry of the derived metrics is 3.0 whatever the other
    inputs, and the health engine scores that value 75 with status good. *)
Theorem default_approach_scores_good
    (chw_supply chw_return cdw_inlet cdw_outlet power_kw cr cy cb : Q)
    (flow : option Q) :
  exists v,
    calculate_all_metrics default_constants chw_supply chw_return cdw_inlet cdw_outlet
      power_kw cr cy cb flow None !! "approach_temp"%string = Some v /\
    v == 3 /\
    snd (fst (_score_metric "approach_temp" v)) = "good"%string /\
    fst (fst (_score_metric "approach_temp" v)) == 75.
Proof.
  eexists. unfold calculate_all_metrics.
  split; [dict_lookup; reflexivity|].
  assert (E : calculate_approach_temperature default_constants cdw_outlet None == 3.0).
  { unfold calculate_approach_temperature. cbn [REFRIGERANT_SAT_OFFSET default_constants].
    change (default (cdw_outlet + 3.0) None) with (cdw_outlet + 3.0).
    destruct (PyFacts.max_cases (cdw_outlet + 3.0 - cdw_outlet) 0.0) as [[-> H]|[-> H]]; lra. }
  rewrite (round_compat _ _ 3 E).
  split_and!; vm_compute; reflexivity.
Qed.

(** X25.  [quick_physics_check] reads an absent reading as 0: without
    power_kw the kw_per_ton and cop entries are 0; without the two
    chilled-water temperatures delta_t is 0 and cooling_tons is the floor
    0.1; without the three phase currents phase_imbalance is 0. *)
Theorem quick_check_absent_readings (sensor_data : gmap string Q) :
  let m := quick_physics_check sensor_data in
  (sensor_data !! "power_kw"%string = None ->
   (exists v, m !! "kw_per_ton"%string = Some v /\ v == 0) /\
   (exists v, m !! "cop"%string = Some v /\ v == 0)) /\
  (sensor_data !! "chw_supply_temp"%string = None ->
   sensor_data !! "chw_return_temp"%string = None ->
   (exists v, m !! "delta_t"%string = Some v /\ v == 0) /\
   (exists v, m !! "cooling_tons"%string = Some v /\ v == 0.1)) /\
  (sensor_data !! "current_r"%string = None ->
   sensor_data !! "current_y"%string = None ->
   sensor_data !! "current_b"%string = None ->
   exists v, m !! "phase_imbalance"%string = Some v /\ v == 0).
Proof.
  cbv zeta. unfold quick_physics_check, calculate_all_metrics. split_and!.
  - intros Hp. rewrite Hp. cbn [default from_option id].
    split; (eexists; split; [dict_lookup; reflexivity|]).
    + unfold calculate_kw_per_ton. change (Py.le 0 0) with true. cbv iota.
      vm_compute. reflexivity.
    + unfold calculate_cop. change (Py.le 0 0) with true. cbv iota.
      vm_compute. reflexivity.
  - intros Hs Hr. rewrite Hs, Hr. cbn [default from_option id].
    split; (eexists; split; [dict_lookup; reflexivity|]).
    + vm_compute. reflexivity.
    + assert (E : calculate_cooling_tons default_constants (calculate_delta_t 0 0)
                    (sensor_data !! "chw_flow_gpm"%string) == 0.1).
      { unfold calculate_cooling_tons, calculate_delta_t.
        cbn [DEFAULT_CHW_FLOW_GPM GPM_FACTOR BTU_PER_TON_HOUR default_constants].
        match goal with |- Py.max ?a ?b == _ =>
          assert (E0 : a == 0) by field;
          destruct (PyFacts.max_cases a b) as [[-> H]|[-> H]] end; [|reflexivity].
        exfalso. rewrite E0 in H. lra. }
      rewrite (round_compat _ _ 2 E). vm_compute. reflexivity.
  - intros Hr Hy Hb. rewrite Hr, Hy, Hb. cbn [default from_option id].
    eexists. split; [dict_lookup; reflexivity|].
    vm_compute. reflexivity.
Qed.

End PipelineMore.
(** ** engine/generator.py: readings, batches and the load profile *)

Module GeneratorMore.

Import Generator GeneratorSpec GeneratorFacts.

(** *** The shape of a reading *)

(** What the scenario stage of [generate_reading] leaves of the base
    values: a key-wise image. *)
Lemma scenario_stage (self : ChillerDataGenerator) (base : gmap string value)
    (timestamp : string) (day_number : Z) :
  exists (data : gmap string value) (F : string -> value -> value),
    generate_reading self base timestamp day_number =
      <["alarm_status"%string := VInt 0]>
      (<["operating_mode"%string := VStr "AUTO"]>
      (<["asset_id"%string := VStr (asset_id self)]>
      (<["time"%string := VStr timestamp]> data))) /\
    (forall k, data !! k = F k <$> base !! k) /\
    (forall k v, match v, F k v with
                 | VInt _, VInt _ => True
                 | VFloat _, VFloat _ => True
                 | VStr a, VStr b => a = b
                 | _, _ => False
                 end).
Proof.
  assert (Hid : forall v : value,
            match v, v with
            | VInt _, VInt _ => True
            | VFloat _, VFloat _ => True
            | VStr a, VStr b => a = b
            | _, _ => False
            end) by (intros [z|q|s]; auto).
  unfold generate_reading.
  destruct (scenario self) as [sc|] eqn:Hsc.
  2:{ exists base, (fun _ v => v). split_and!; [reflexivity| |intros; apply Hid].
      intros k. destruct (base !! k); reflexivity. }
  destruct (scenario_start_day self <=? day_number)%Z.
  2:{ exists base, (fun _ v => v). split_and!; [reflexivity| |intros; apply Hid].
      intros k. destruct (base !! k); reflexivity. }
  destruct (day_number - scenario_start_day self <? duration_days sc)%Z.
  2:{ exists base, (fun _ v => v). split_and!; [reflexivity| |intros; apply Hid].
      intros k. destruct (base !! k); reflexivity. }
  eexists _, _. split_and!; [reflexivity| |].
  - intros k. apply (lookup_apply_scenario self sc). exact Hsc.
  - intros k v. unfold modified_value.
    destruct (modifiers sc !! k); [|apply Hid]. destruct v; auto.
Qed.

(** X26.  Whatever the scenario and the day, a reading holds the four
    metadata entries as [generate_reading] sets them, even when the base
    values or a modifier name the same keys; its keys are those of the base
    values and the four metadata keys; and every other entry keeps the type
    of its base value, a string staying as it is. *)
Theorem reading_shape (self : ChillerDataGenerator) (base : gmap string value)
    (timestamp : string) (day_number : Z) :
  let r := generate_reading self base timestamp day_number in
  (r !! "time"%string = Some (VStr timestamp) /\
   r !! "asset_id"%string = Some (VStr (asset_id self)) /\
   r !! "operating_mode"%string = Some (VStr "AUTO") /\
   r !! "alarm_status"%string = Some (VInt 0)) /\
  dom r = dom base ∪ list_to_set metadata_keys /\
  (forall k v, ~ In k metadata_keys -> base !! k = Some v ->
     exists v', r !! k = Some v' /\
       match v, v' with
       | VInt _, VInt _ => True
       | VFloat _, VFloat _ => True
       | VStr a, VStr b => a = b
       | _, _ => False
       end).
Proof.
  cbv zeta.
  destruct (scenario_stage self base timestamp day_number) as (data & F & -> & Hl & Hk).
  split_and!.
  - rewrite !lookup_insert_ne by discriminate. apply lookup_insert_eq.
  - rewrite !lookup_insert_ne by discriminate. apply lookup_insert_eq.
  - rewrite !lookup_insert_ne by discriminate. apply lookup_insert_eq.
  - apply lookup_insert_eq.
  - assert (Hd : dom data = dom base).
    { apply set_eq. intros k. rewrite !elem_of_dom, Hl, fmap_is_Some. reflexivity. }
    rewrite !dom_insert_L, Hd. unfold metadata_keys. cbn [list_to_set].
    set_unfold. intros x. tauto.
  - intros k v Hm Hb. exists (F k v). split.
    + rewrite lookup_metadata by assumption. rewrite Hl, Hb. reflexivity.
    + pose proof (Hk k v) as Hkv. destruct v; exact Hkv.
Qed.

(** *** Batches *)

Lemma date_step (interval t : Z) :
  (0 < interval <= us_per_day)%Z ->
  (date t <= date (t + interval) <= date t + 1)%Z.
Proof.
  intros [H0 H1]. unfold date, us_per_day in *. split.
  - apply Z.div_le_mono; lia.
  - replace (t / 86400000000 + 1)%Z with ((t + 1 * 86400000000) / 86400000000)%Z
      by (rewrite Z.div_add by lia; reflexivity).
    apply Z.div_le_mono; lia.
Qed.

(** The number of readings left when the loop stands at [t]. *)
Lemma remaining_zero (interval end_time t : Z) :
  (0 < interval)%Z ->
  Z.to_nat ((end_time - t + interval - 1) / interval) = 0%nat ->
  (t <? end_time)%Z = false.
Proof.
  intros Hi Hn. apply Z.ltb_ge.
  destruct (Z_lt_le_dec t end_time) as [Hlt|]; [exfalso|assumption].
  assert (1 <= (end_time - t + interval - 1) / interval)%Z
    by (apply Z.div_le_lower_bound; lia).
  lia.
Qed.

Lemma remaining_succ (interval end_time t : Z) (n : nat) :
  (0 < interval)%Z ->
  Z.to_nat ((end_time - t + interval - 1) / interval) = S n ->
  (t <? end_time)%Z = true /\
  Z.to_nat ((end_time - (t + interval) + interval - 1) / interval) = n.
Proof.
  intros Hi Hn. split.
  - apply Z.ltb_lt.
    destruct (Z_lt_le_dec t end_time) as [|Hge]; [assumption|exfalso].
    assert ((end_time - t + interval - 1) / interval < 1)%Z
      by (apply Z.div_lt_upper_bound; lia).
    lia.
  - replace (end_time - (t + interval) + interval - 1)%Z
      with (end_time - t + interval - 1 + (-1) * interval)%Z by lia.
    rewrite Z.div_add by lia. lia.
Qed.

Lemma batch_calls_run (interval end_time : Z) :
  (0 < interval <= us_per_day)%Z ->
  forall (n : nat) (t dn cd : Z) (fuel : nat),
    (cd <= date t <= cd + 1)%Z ->
    Z.to_nat ((end_time - t + interval - 1) / interval) = n ->
    (n <= fuel)%nat ->
    batch_calls fuel interval end_time t dn cd =
    Some (List.map
            (fun i : nat =>
               ((t + Z.of_nat i * interval)%Z,
                (dn + (date (t + Z.of_nat i * interval) - cd))%Z))
            (seq 0 n)).
Proof.
  intros Hi. induction n as [|n IH]; intros t dn cd fuel Hcd Hn Hfuel.
  - pose proof (remaining_zero _ _ _ (proj1 Hi) Hn) as E.
    destruct fuel; cbn [batch_calls]; rewrite E; reflexivity.
  - destruct (remaining_succ _ _ _ _ (proj1 Hi) Hn) as [E Hn'].
    destruct fuel as [|fuel]; [lia|].
    cbn [batch_calls]. rewrite E.
    assert (Hstep :
      (if (date t =? cd)%Z then (dn, cd) else ((dn + 1)%Z, date t)) =
      ((dn + (date t - cd))%Z, date t)).
    { destruct (date t =? cd)%Z eqn:Ed.
      - apply Z.eqb_eq in Ed. f_equal; lia.
      - apply Z.eqb_neq in Ed. f_equal. lia. }
    rewrite Hstep.
    rewrite (IH (t + interval)%Z (dn + (date t - cd))%Z (date t) fuel
               (date_step interval t Hi) Hn' ltac:(lia)).
    cbn [option_map seq List.map]. f_equal. f_equal.
    + f_equal; [lia|]. replace (t + Z.of_nat 0 * interval)%Z with t by lia. reflexivity.
    + rewrite <- seq_shift, List.map_map. apply List.map_ext. intros i.
      replace (t + interval + Z.of_nat i * interval)%Z
        with (t + Z.of_nat (S i) * interval)%Z by lia.
      f_equal. lia.
Qed.

Lemma minutes_count (duration_days interval_minutes : Z) :
  (0 < interval_minutes)%Z ->
  ((timedelta_days duration_days + timedelta_minutes interval_minutes - 1) /
     timedelta_minutes interval_minutes =
   (duration_days * 1440 + interval_minutes - 1) / interval_minutes)%Z.
Proof.
  intros Hi. unfold timedelta_days, timedelta_minutes, us_per_day, us_per_minute.
  rewrite (Z.mul_comm interval_minutes 60000000).
  rewrite <- Z.div_div by lia. f_equal.
  symmetry. apply (Z.div_unique _ _ _ 59999999); lia.
Qed.

(** X27.  With an interval of at least one minute and at most one day,
    [generate_to_list] returns ceil(duration_days * 1440 / interval_minutes)
    readings (none when the duration is not positive); the [i]-th is the
    reading generated from the [i]-th draw for the time [i] intervals after
    the start, with the number of calendar days since the start as its day
    number. *)
Theorem generate_to_list_schedule (self : ChillerDataGenerator)
    (isoformat : Z -> string) (draw : nat -> gmap string value)
    (start_time duration_days interval_minutes : Z) (fuel : nat) :
  (0 < interval_minutes <= 1440)%Z ->
  let n := Z.to_nat ((duration_days * 1440 + interval_minutes - 1) / interval_minutes) in
  (n <= fuel)%nat ->
  exists l,
    generate_to_list fuel self isoformat draw start_time duration_days interval_minutes =
      Some l /\
    length l = n /\
    forall i : nat, (i < n)%nat ->
      let t := (start_time + Z.of_nat i * timedelta_minutes interval_minutes)%Z in
      l !! i = Some (generate_reading self (draw i) (isoformat t)
                       (date t - date start_time)).
Proof.
  intros Hi n Hfuel. unfold generate_to_list. cbv zeta.
  assert (Hint : (0 < timedelta_minutes interval_minutes <= us_per_day)%Z)
    by (unfold timedelta_minutes, us_per_minute, us_per_day; lia).
  assert (Hn : Z.to_nat ((start_time + timedelta_days duration_days - start_time +
                          timedelta_minutes interval_minutes - 1) /
                         timedelta_minutes interval_minutes) = n).
  { replace (start_time + timedelta_days duration_days - start_time)%Z
      with (timedelta_days duration_days) by lia.
    rewrite minutes_count by lia. reflexivity. }
  rewrite (batch_calls_run _ _ Hint n start_time 0 (date start_time) fuel
             ltac:(lia) Hn Hfuel).
  cbn [option_map]. eexists. split; [reflexivity|]. split.
  - rewrite length_imap, List.length_map, List.length_seq. reflexivity.
  - intros i Hlt. rewrite list_lookup_imap.
    change (List.map ?f ?l) with (f <$> l). rewrite list_lookup_fmap.
    rewrite lookup_seq_lt by assumption. cbn [fmap option_fmap option_map plus].
    reflexivity.
Qed.

Lemma generate_to_list_schedule_witness :
  exists l,
    generate_to_list 10 (init "CH-001") (fun _ => "t"%string) (fun _ => ∅)
      0 1 360 = Some l /\
    length l = 4%nat /\
    forall i : nat, (i < 4)%nat ->
      let t := (0 + Z.of_nat i * timedelta_minutes 360)%Z in
      l !! i = Some (generate_reading (init "CH-001") ∅ "t" (date t - date 0)).
Proof.
  apply (generate_to_list_schedule (init "CH-001") (fun _ => "t"%string) (fun _ => ∅)
           0 1 360 10).
  - lia.
  - vm_compute. lia.
Defined.

Lemma batch_calls_diverges (interval end_time : Z) :
  (interval <= 0)%Z ->
  forall (fuel : nat) (t dn cd : Z),
    (t < end_time)%Z -> batch_calls fuel interval end_time t dn cd = None.
Proof.
  intros Hi. induction fuel as [|fuel IH]; intros t dn cd Ht;
    cbn [batch_calls]; rewrite (proj2 (Z.ltb_lt _ _) Ht); [reflexivity|].
  destruct (date t =? cd)%Z; rewrite IH by lia; reflexivity.
Qed.

(** X28.  With an interval of zero minutes and a positive duration the loop
    of [generate_batch] never ends: no number of iterations completes
    [generate_to_list].  With a duration of zero or fewer days the result is
    the empty list, whatever the interval. *)
Theorem generate_to_list_edges (self : ChillerDataGenerator)
    (isoformat : Z -> string) (draw : nat -> gmap string value)
    (start_time duration_days interval_minutes : Z) :
  (interval_minutes = 0%Z -> (0 < duration_days)%Z ->
   forall fuel,
     generate_to_list fuel self isoformat draw start_time duration_days interval_minutes =
     None) /\
  ((duration_days <= 0)%Z ->
   forall fuel,
     generate_to_list fuel self isoformat draw start_time duration_days interval_minutes =
     Some []).
Proof.
  unfold generate_to_list. cbv zeta. split.
  - intros Hi Hd fuel.
    rewrite batch_calls_diverges; [reflexivity| |];
      unfold timedelta_minutes, timedelta_days, us_per_minute, us_per_day; lia.
  - intros Hd fuel.
    assert (E : (start_time <? start_time + timedelta_days duration_days)%Z = false)
      by (apply Z.ltb_ge; unfold timedelta_days, us_per_day; lia).
    destruct fuel; cbn [batch_calls]; rewrite E; reflexivity.
Qed.

(** *** The load profile *)

Lemma hour_bounds (lo hi hour : Z) :
  (lo <= hour <= hi)%Z -> lo # 1 <= inject_Z hour <= hi # 1.
Proof.
  intros [H1 H2]. change (inject_Z lo <= inject_Z hour <= inject_Z hi).
  rewrite <- !Zle_Qle. lia.
Qed.

(** X29.  When [random.uniform(a, b)] returns a value between [a] and [b],
    the load factor lies between 0.30 and 1.0 for every hour, also one
    outside 0..23, so the floor 0.1 of the final clamp is never returned.
    From 9 to 17 h it is at least 0.70, and before 6 h or from 21 h on at
    most 0.43. *)
Theorem load_factor_range (uniform : Q -> Q -> Q) (hour : Z) :
  (forall a b, a <= b -> a <= uniform a b <= b) ->
  0.30 <= _calculate_load_factor uniform hour <= 1.0 /\
  ((9 <= hour < 18)%Z -> 0.70 <= _calculate_load_factor uniform hour) /\
  ((hour < 6 \/ 21 <= hour)%Z -> _calculate_load_factor uniform hour <= 0.43).
Proof.
  intros Hu.
  assert (Hclamp : forall x lo hi,
            0.30 <= lo -> hi <= 1.0 -> lo <= x <= hi ->
            lo <= Py.min 1.0 (Py.max 0.1 x) <= hi).
  { intros x lo hi Hlo Hhi Hx.
    destruct (PyFacts.max_cases 0.1 x) as [[-> H]|[-> H]];
      match goal with |- _ <= Py.min ?a ?b <= _ =>
        destruct (PyFacts.min_cases a b) as [[-> H']|[-> H']] end; lra. }
  unfold _calculate_load_factor.
  destruct ((0 <=? hour) && (hour <? 6))%Z eqn:E1.
  { apply andb_true_iff in E1. destruct E1 as [Ea Eb].
    apply Z.leb_le in Ea. apply Z.ltb_lt in Eb.
    pose proof (Hu 0 0.10 ltac:(lra)) as Hv.
    pose proof (Hclamp (0.30 + uniform 0 0.10) 0.30 0.40 ltac:(lra) ltac:(lra) ltac:(lra)).
    split; [lra|split; [intros; exfalso; lia | intros; lra]]. }
  destruct ((6 <=? hour) && (hour <? 9))%Z eqn:E2.
  { apply andb_true_iff in E2. destruct E2 as [Ea Eb].
    apply Z.leb_le in Ea. apply Z.ltb_lt in Eb.
    pose proof (hour_bounds 6 8 hour ltac:(lia)) as Hh.
    pose proof (Hu (-0.05) 0.08 ltac:(lra)) as Hv.
    assert (Ep : (inject_Z hour - 6) / 3.0 == (inject_Z hour - 6) * (1 # 3)) by (field).
    pose proof (Hclamp (0.35 + 0.40 * ((inject_Z hour - 6) / 3.0) + uniform (-0.05) 0.08)
                  0.30 0.70 ltac:(lra) ltac:(lra) ltac:(rewrite Ep; lra)).
    split; [lra|split; [intros; exfalso; lia | intros; exfalso; lia]]. }
  destruct ((9 <=? hour) && (hour <? 12))%Z eqn:E3.
  { apply andb_true_iff in E3. destruct E3 as [Ea Eb].
    apply Z.leb_le in Ea. apply Z.ltb_lt in Eb.
    pose proof (hour_bounds 9 11 hour ltac:(lia)) as Hh.
    pose proof (Hu (-0.05) 0.10 ltac:(lra)) as Hv.
    pose proof (Hclamp (0.75 + (inject_Z hour - 9) * 0.05 + uniform (-0.05) 0.10)
                  0.70 0.95 ltac:(lra) ltac:(lra) ltac:(lra)).
    split; [lra|split; [intros; lra | intros; exfalso; lia]]. }
  destruct ((12 <=? hour) && (hour <? 14))%Z eqn:E4.
  { apply andb_true_iff in E4. destruct E4 as [Ea Eb].
    apply Z.leb_le in Ea. apply Z.ltb_lt in Eb.
    pose proof (Hu (-0.05) 0.15 ltac:(lra)) as Hv.
    pose proof (Hclamp (0.85 + uniform (-0.05) 0.15) 0.80 1.0
                  ltac:(lra) ltac:(lra) ltac:(lra)).
    split; [lra|split; [intros; lra | intros; exfalso; lia]]. }
  destruct ((14 <=? hour) && (hour <? 18))%Z eqn:E5.
  { apply andb_true_iff in E5. destruct E5 as [Ea Eb].
    apply Z.leb_le in Ea. apply Z.ltb_lt in Eb.
    pose proof (Hu (-0.08) 0.12 ltac:(lra)) as Hv.
    pose proof (Hclamp (0.80 + uniform (-0.08) 0.12) 0.72 0.92
                  ltac:(lra) ltac:(lra) ltac:(lra)).
    split; [lra|split; [intros; lra | intros; exfalso; lia]]. }
  destruct ((18 <=? hour) && (hour <? 21))%Z eqn:E6.
  { apply andb_true_iff in E6. destruct E6 as [Ea Eb].
    apply Z.leb_le in Ea. apply Z.ltb_lt in Eb.
    pose proof (hour_bounds 18 20 hour ltac:(lia)) as Hh.
    pose proof (Hu (-0.05) 0.05 ltac:(lra)) as Hv.
    assert (Ep : (inject_Z hour - 18) / 3.0 == (inject_Z hour - 18) * (1 # 3)) by (field).
    pose proof (Hclamp (0.70 - 0.25 * ((inject_Z hour - 18) / 3.0) + uniform (-0.05) 0.05)
                  0.45 0.75 ltac:(lra) ltac:(lra) ltac:(rewrite Ep; lra)).
    split; [lra|split; [intros; exfalso; lia | intros; exfalso; lia]]. }
  pose proof (Hu 0 0.08 ltac:(lra)) as Hv.
  pose proof (Hclamp (0.35 + uniform 0 0.08) 0.35 0.43 ltac:(lra) ltac:(lra) ltac:(lra)).
  split; [lra|split; [|intros; lra]].
  intros Hh. exfalso.
  apply andb_false_iff in E3, E4, E5.
  rewrite !Z.leb_gt, !Z.ltb_ge in *. lia.
Qed.

Lemma load_factor_range_witness :
  0.30 <= _calculate_load_factor (fun a b => a) 10 <= 1.0 /\
  ((9 <= 10 < 18)%Z -> 0.70 <= _calculate_load_factor (fun a b => a) 10) /\
  ((10 < 6 \/ 21 <= 10)%Z -> _calculate_load_factor (fun a b => a) 10 <= 0.43).
Proof.
  apply (load_factor_range (fun a b => a) 10).
  intros a b H. lra.
Defined.

(** *** The electrical scenario seen by the physics layer *)

(** X30.  The electrical scenario moves the three phase currents apart:
    applied to balanced currents of at least 0.1 A at progress [p] between 0
    and 1, its current modifiers give currents whose phase imbalance, as
    [calculate_phase_imbalance] computes it, is 12 p / (1 + 0.03 p)
    percent. *)
Theorem electrical_scenario_imbalance (duration : Z) (x p : Q) (day : Z) :
  0.1 <= x -> 0 <= p <= 1 ->
  let sc := electrical_issue duration in
  Physics.calculate_phase_imbalance
    (apply_modifier sc "current_r" x p day)
    (apply_modifier sc "current_y" x p day)
    (apply_modifier sc "current_b" x p day) ==
  12 * p / (1 + 0.03 * p).
Proof.
  intros Hx Hp. cbv zeta.
  assert (Er : apply_modifier (electrical_issue duration) "current_r" x p day =
               x * (1.0 + 0.15 * p)).
  { unfold apply_modifier, electrical_issue. cbn [modifiers].
    rewrite !lookup_insert_ne by discriminate. rewrite lookup_insert_eq. reflexivity. }
  assert (Ey : apply_modifier (electrical_issue duration) "current_y" x p day =
               x * (1.0 - 0.08 * p)).
  { unfold apply_modifier, electrical_issue. cbn [modifiers].
    rewrite !lookup_insert_ne by discriminate. rewrite lookup_insert_eq. reflexivity. }
  assert (Eb : apply_modifier (electrical_issue duration) "current_b" x p day =
               x * (1.0 + 0.02 * p)).
  { unfold apply_modifier, electrical_issue. cbn [modifiers].
    rewrite lookup_insert_eq. reflexivity. }
  rewrite Er, Ey, Eb. clear Er Ey Eb.
  rewrite PhysicsMore.phase_imbalance_unfold. cbv zeta.
  set (r := x * (1.0 + 0.15 * p)). set (y := x * (1.0 - 0.08 * p)).
  set (b := x * (1.0 + 0.02 * p)).
  set (avg := (0 + r + y + b) / 3).
  assert (Havg : avg == x * (1 + 0.03 * p)) by (unfold avg, r, y, b; field).
  assert (Hxp : 0 <= x * p) by nra.
  assert (Hr : 0 < r) by (unfold r; nra).
  assert (E1 : Py.le r 0 = false) by (apply PyFacts.le_false; assumption).
  rewrite E1. cbn [andb].
  assert (E2 : Py.lt avg 0.1 = false) by (apply PyFacts.lt_false; rewrite Havg; nra).
  rewrite E2.
  assert (Dr : Py.abs (r - avg) == 0.12 * (x * p)).
  { unfold Py.abs. rewrite Qabs_pos; rewrite Havg; unfold r; [ring|nra]. }
  assert (Dy : Py.abs (y - avg) == 0.11 * (x * p)).
  { unfold Py.abs. rewrite Qabs_neg; rewrite Havg; unfold y; [ring|nra]. }
  assert (Db : Py.abs (b - avg) == 0.01 * (x * p)).
  { unfold Py.abs. rewrite Qabs_neg; rewrite Havg; unfold b; [ring|nra]. }
  rewrite Dr, Dy, Db.
  assert (M : Py.max (Py.max (0.12 * (x * p)) (0.11 * (x * p))) (0.01 * (x * p)) ==
              0.12 * (x * p)).
  { destruct (PyFacts.max_cases (0.12 * (x * p)) (0.11 * (x * p))) as [[-> H]|[-> H]];
      match goal with |- Py.max ?a ?b == _ =>
        destruct (PyFacts.max_cases a b) as [[-> H']|[-> H']] end; lra. }
  rewrite M, Havg. field. split; lra.
Qed.

Lemma electrical_scenario_imbalance_witness :
  Physics.calculate_phase_imbalance
    (apply_modifier (electrical_issue 14) "current_r" 200 0.5 7)
    (apply_modifier (electrical_issue 14) "current_y" 200 0.5 7)
    (apply_modifier (electrical_issue 14) "current_b" 200 0.5 7) ==
  12 * 0.5 / (1 + 0.03 * 0.5).
Proof.
  apply (electrical_scenario_imbalance 14 200 0.5 7); lra.
Defined.

End GeneratorMore.
